(** * MaxPyLang command-line interface: a shallow embedding and its properties

    The development follows the Python sources of [maxpylang/cli]:
    [errors.py], [resolve.py], [output.py], [io.py], [export_amxd.py] and the
    command pipeline of [main.py].  Python values are modelled as follows.

    - [str] is [string]; a character is its code point, restricted to the
      range 0..255 (Latin-1), so that [ascii] can carry it.
    - [int] is [Z] (unbounded); [float] is the IEEE binary64 type [float].
    - a [dict] is an association list in insertion order with unique keys;
      a [list] is a [list].
    - raising an exception is the [Raise] constructor of [result]; an
      exception carries the method resolution order of its class, so that an
      [except] clause is an [isinstance] test.
    - code that reads or changes the file system, standard output, the
      configuration store or the clock is a function from a [world] to a
      result and a [world]; the file system is a finite map from paths to
      nodes.
    - the graph engine, a few library functions and the part of the export
      that drives the external editor are interfaces (type classes).

    Part I is the embedding of the sources, Part II the vocabulary in which
    the properties are stated together with the test doubles, and Part III
    the properties: those marked C1 to C10, and further properties of the
    same sources, marked X1 to X30.

    The function [int] is modelled without the interpreter's optional limit
    on the number of digits ([sys.set_int_max_str_digits(0)]). *)

From Stdlib Require Import String Ascii ZArith List Bool Lia Floats.
From Stdlib Require Import DecimalString DecimalPos DecimalZ.
From stdpp Require Import gmap strings list.
From Stdlib Require Import Sorted Permutation.
Import ListNotations.
Open Scope string_scope.
Open Scope list_scope.
Open Scope Z_scope.
Arguments String.append !s1 s2 : simpl nomatch.

(* ================================================================== *)
(** * Part I: the embedding *)
(* ================================================================== *)

(** ** Python built-ins used by the sources *)

Module Py.

(** [str.isspace] on one character, for code points below 256. *)
Definition isspace (c : ascii) : bool :=
  let n := N_of_ascii c in
  ((9 <=? n) && (n <=? 13) || (28 <=? n) && (n <=? 32) || (n =? 133) || (n =? 160))%N.

(** [str.lstrip()], [str.rstrip()] and [str.strip()]. *)
Fixpoint lstrip (s : string) : string :=
  match s with
  | EmptyString => EmptyString
  | String c r => if isspace c then lstrip r else s
  end.

Fixpoint rstrip (s : string) : string :=
  match s with
  | EmptyString => EmptyString
  | String c r =>
      match rstrip r with
      | EmptyString => if isspace c then EmptyString else String c EmptyString
      | r' => String c r'
      end
  end.

Definition strip (s : string) : string := rstrip (lstrip s).

(** [s.startswith(p)]. *)
Fixpoint startswith (p s : string) : bool :=
  match p, s with
  | EmptyString, _ => true
  | String a p', String b s' => Ascii.eqb a b && startswith p' s'
  | String _ _, EmptyString => false
  end.

(** [s[n:]]. *)
Fixpoint drop (n : nat) (s : string) : string :=
  match n, s with
  | O, _ => s
  | S k, String _ r => drop k r
  | S _, EmptyString => EmptyString
  end.

(** [sub in s] for a non-empty [sub]. *)
Fixpoint contains (sub s : string) : bool :=
  startswith sub s ||
  match s with
  | EmptyString => false
  | String _ r => contains sub r
  end.

(** [s.split(sep, 1)]: at most one split, at the first occurrence of the
    non-empty separator. *)
Fixpoint split1 (sep s : string) : list string :=
  if startswith sep s then [EmptyString; drop (String.length sep) s]
  else match s with
       | EmptyString => [EmptyString]
       | String c r =>
           match split1 sep r with
           | [a; b] => [String c a; b]
           | _ => [s]
           end
       end.

(** [s.rsplit(sep, 1)]: at most one split, at the last occurrence. *)
Fixpoint rsplit1 (sep s : string) : list string :=
  match s with
  | EmptyString => [EmptyString]
  | String c r =>
      match rsplit1 sep r with
      | [a; b] => [String c a; b]
      | _ => if startswith sep s then [EmptyString; drop (String.length sep) s]
             else [s]
      end
  end.

(** [sep.join(parts)]. *)
Definition join (sep : string) (parts : list string) : string :=
  String.concat sep parts.

(** [str.lower()] for code points below 256. *)
Definition lower_char (c : ascii) : ascii :=
  let n := N_of_ascii c in
  if ((65 <=? n) && (n <=? 90) ||
      (192 <=? n) && (n <=? 222) && negb (n =? 215))%N
  then ascii_of_N (n + 32) else c.

Fixpoint lower (s : string) : string :=
  match s with
  | EmptyString => EmptyString
  | String c r => String (lower_char c) (lower r)
  end.

(** [s.replace(old, new)] for a non-empty [old]; [skip] counts the
    characters of a replaced occurrence that are still to be passed over. *)
Fixpoint replace_from (old new : string) (skip : nat) (s : string) : string :=
  match s with
  | EmptyString => EmptyString
  | String c r =>
      match skip with
      | S k => replace_from old new k r
      | O =>
          if startswith old s
          then new +:+ replace_from old new (String.length old - 1) r
          else String c (replace_from old new 0 r)
      end
  end.

Definition replace (old new s : string) : string := replace_from old new 0 s.

(** ** [int(text)] and [str(number)] *)

Definition is_digit (c : ascii) : bool :=
  let n := N_of_ascii c in ((48 <=? n) && (n <=? 57))%N.

Definition digit_val (c : ascii) : Z := Z.of_N (N_of_ascii c) - 48.

(** Digits with single underscores between them; [prev] records that the
    previous character was a digit. *)
Fixpoint digits_acc (prev : bool) (acc : Z) (s : string) : option Z :=
  match s with
  | EmptyString => if prev then Some acc else None
  | String c r =>
      if is_digit c then digits_acc true (10 * acc + digit_val c) r
      else if Ascii.eqb c "_" then
             (if prev then digits_acc false acc r else None)
      else None
  end.

(** The white space that [int] passes over at both ends of its argument. *)
Definition int_space (c : ascii) : bool :=
  let n := N_of_ascii c in
  ((9 <=? n) && (n <=? 13) || (n =? 32) || (n =? 133) || (n =? 160))%N.

Fixpoint int_lstrip (s : string) : string :=
  match s with
  | EmptyString => EmptyString
  | String c r => if int_space c then int_lstrip r else s
  end.

Fixpoint int_rstrip (s : string) : string :=
  match s with
  | EmptyString => EmptyString
  | String c r =>
      match int_rstrip r with
      | EmptyString => if int_space c then EmptyString else String c EmptyString
      | r' => String c r'
      end
  end.

(** [int(s)] in base ten; [None] stands for [ValueError]. *)
Definition int (s : string) : option Z :=
  match int_rstrip (int_lstrip s) with
  | String "+" r => digits_acc false 0 r
  | String "-" r => option_map Z.opp (digits_acc false 0 r)
  | t => digits_acc false 0 t
  end.

(** [str(n)] for an integer. *)
Definition str_of_int (n : Z) : string := NilZero.string_of_int (Z.to_int n).

(** [len(l)] as a Python integer. *)
Definition len {A} (l : list A) : Z := Z.of_nat (length l).

(** [l[i]] with Python's negative indices; [None] stands for
    [IndexError]. *)
Definition getitem {A} (l : list A) (i : Z) : option A :=
  if (0 <=? i) then nth_error l (Z.to_nat i)
  else if (- len l <=? i) then nth_error l (Z.to_nat (len l + i))
  else None.

End Py.

(** ** Values, exceptions and results *)

(** A Python value as it occurs in a patch document, a payload or the
    configuration store. *)
#[warnings="-register-all"] Inductive json : Type :=
| JNull
| JBool (b : bool)
| JInt (z : Z)
| JFloat (f : float)
| JStr (s : string)
| JList (l : list json)
| JDict (d : list (string * json)).

(** A [dict] with string keys, in insertion order. *)
Abbreviation pydict := (list (string * json)).

Module Dict.

(** [d.get(k)], [None] when the key is absent. *)
Fixpoint get {V} (k : string) (d : list (string * V)) : option V :=
  match d with
  | [] => None
  | (k', v) :: r => if String.eqb k k' then Some v else get k r
  end.

(** [k in d]. *)
Definition mem {V} (k : string) (d : list (string * V)) : bool :=
  match get k d with Some _ => true | None => false end.

(** [d[k] = v]: an existing key keeps its place, a new key goes last. *)
Fixpoint set {V} (k : string) (v : V) (d : list (string * V)) : list (string * V) :=
  match d with
  | [] => [(k, v)]
  | (k', v') :: r => if String.eqb k k' then (k, v) :: r else (k', v') :: set k v r
  end.

(** [d.get(k, default)]. *)
Definition get_default {V} (k : string) (default : V) (d : list (string * V)) : V :=
  match get k d with Some v => v | None => default end.

End Dict.

(** An exception object: the names of its class and of the classes it
    inherits from (most specific first), [str(exc)], the [details] attribute
    of the CLI errors, and the [_cli_diagnostics] attribute when it is set. *)
Record exn : Type := mk_exn {
  exc_mro : list string;
  exc_str : string;
  exc_details : pydict;
  exc_cli_diagnostics : option (list string)
}.

(** [isinstance(exc, cls)]. *)
Definition isinstance (e : exn) (cls : string) : bool :=
  existsb (String.eqb cls) (exc_mro e).

(** [type(exc).__name__]. *)
Definition type_name (e : exn) : string := hd "BaseException" (exc_mro e).

(** A built-in exception class that derives from [Exception] directly, and
    one that derives from it through a parent. *)
Definition builtin_exn (cls msg : string) : exn :=
  mk_exn [cls; "Exception"; "BaseException"] msg [] None.
Definition builtin_exn_sub (cls parent msg : string) : exn :=
  mk_exn [cls; parent; "Exception"; "BaseException"] msg [] None.

Definition ValueError := builtin_exn "ValueError".
Definition TypeError := builtin_exn "TypeError".
Definition AttributeError := builtin_exn "AttributeError".
Definition AssertionError := builtin_exn "AssertionError".
Definition OverflowError := builtin_exn_sub "OverflowError" "ArithmeticError".
Definition IndexError := builtin_exn_sub "IndexError" "LookupError".
Definition KeyError := builtin_exn_sub "KeyError" "LookupError".
Definition FileNotFoundError := builtin_exn_sub "FileNotFoundError" "OSError".
Definition IsADirectoryError := builtin_exn_sub "IsADirectoryError" "OSError".
Definition NotADirectoryError := builtin_exn_sub "NotADirectoryError" "OSError".
Definition FileExistsError := builtin_exn_sub "FileExistsError" "OSError".
Definition ClickException := builtin_exn "ClickException".
Definition KeyboardInterrupt (msg : string) : exn :=
  mk_exn ["KeyboardInterrupt"; "BaseException"] msg [] None.

Inductive result (A : Type) : Type :=
| Ok (a : A)
| Raise (e : exn).
Arguments Ok {A} a.
Arguments Raise {A} e.

Definition bind {A B} (r : result A) (k : A -> result B) : result B :=
  match r with
  | Ok a => k a
  | Raise e => Raise e
  end.

Declare Scope py_scope.
Delimit Scope py_scope with py.
Notation "'let*' x ':=' c1 'in' c2" := (bind c1 (fun x => c2))
  (at level 10, x pattern, c1 at level 100, c2 at level 200) : py_scope.
Open Scope py_scope.

(** ** [errors.py]: the error taxonomy *)

Module Errors.

Definition cli_error (cls : list string) (msg : string) (details : pydict) : exn :=
  mk_exn (cls ++ ["MaxPyCLIError"; "Exception"; "BaseException"]) msg details None.

Definition MaxPyCLIError (msg : string) : exn := cli_error [] msg [].
Definition UsageError (msg : string) : exn := cli_error ["UsageError"] msg [].
Definition ObjectResolutionError (msg : string) : exn :=
  cli_error ["ObjectResolutionError"] msg [].
Definition ValidationError (msg : string) : exn := cli_error ["ValidationError"] msg [].
Definition ValidationError_with (msg : string) (details : pydict) : exn :=
  cli_error ["ValidationError"] msg details.
Definition InternalError (msg : string) : exn := cli_error ["InternalError"] msg [].

(** The class attribute [exit_code] of each class of the taxonomy. *)
Definition class_exit_code (cls : string) : option Z :=
  if String.eqb cls "MaxPyCLIError" then Some 5
  else if String.eqb cls "UsageError" then Some 2
  else if String.eqb cls "ObjectResolutionError" then Some 3
  else if String.eqb cls "ValidationError" then Some 4
  else if String.eqb cls "InternalError" then Some 5
  else None.

(** [exc.exit_code]: attribute lookup along the method resolution order;
    [None] stands for [AttributeError]. *)
Fixpoint lookup_exit_code (mro : list string) : option Z :=
  match mro with
  | [] => None
  | cls :: r =>
      match class_exit_code cls with
      | Some c => Some c
      | None => lookup_exit_code r
      end
  end.

Definition exit_code (e : exn) : option Z := lookup_exit_code (exc_mro e).

End Errors.
Import Errors.

(** ** The world outside the interpreter *)

(** A path is the list of the components of an absolute path. *)
Abbreviation Path := (list string).

Inductive node : Type :=
| File (content : string)
| Dir.

(** The file system, the text written to standard output so far, the
    constants of [maxpylang.tools.constants] and the clock reading that
    [datetime.now] returns. *)
Record world : Type := mk_world {
  w_fs : gmap (list string) node;
  w_stdout : string;
  w_constants : pydict;
  w_clock : string
}.

Definition set_fs (fs : gmap (list string) node) (w : world) : world :=
  mk_world fs (w_stdout w) (w_constants w) (w_clock w).
Definition set_stdout (out : string) (w : world) : world :=
  mk_world (w_fs w) out (w_constants w) (w_clock w).

(** A computation that may read and change the world and may raise; the
    changes made before an exception is raised persist. *)
Definition M (A : Type) : Type := world -> result A * world.

Definition ret {A} (a : A) : M A := fun w => (Ok a, w).
Definition raise {A} (e : exn) : M A := fun w => (Raise e, w).
Definition lift {A} (r : result A) : M A := fun w => (r, w).
Definition mbind {A B} (m : M A) (k : A -> M B) : M B :=
  fun w => match m w with
           | (Ok a, w') => k a w'
           | (Raise e, w') => (Raise e, w')
           end.

Declare Scope io_scope.
Delimit Scope io_scope with io.
Notation "'do' x '<-' c1 ';' c2" := (mbind c1 (fun x => c2))
  (at level 10, x pattern, c1 at level 100, c2 at level 200) : io_scope.

(** ** The graph engine *)

(** Modelled from the spec: the graph engine ([MaxPatch], [MaxObject]) is not
    among the sources.  An object has its box dictionary [obj._dict["box"]]
    (absent, or a dictionary that holds the optional alias under
    ["varname"]) and its ordered lists of inlets and outlets. *)
Record MaxObject (Inlet Outlet : Type) : Type := mk_obj {
  dict_box : option pydict;
  ins : list Inlet;
  outs : list Outlet
}.
Arguments mk_obj {Inlet Outlet}.
Arguments dict_box {Inlet Outlet}.
Arguments ins {Inlet Outlet}.
Arguments outs {Inlet Outlet}.

(** Modelled from the spec: the operations of the graph engine that the
    commands call (section 6 of the specification).  [objs] is the mapping
    from identifiers to objects in its iteration order; the operations that
    load, mutate or save a patch are computations over the world, and
    mutation returns the patch after the change. *)
Class GraphEngine : Type := {
  Inlet : Type;
  Outlet : Type;
  MaxPatch : Type;
  objs : MaxPatch -> list (string * MaxObject Inlet Outlet);
  get_unknowns : MaxPatch -> list (string * MaxObject Inlet Outlet);
  get_js_unlinked : MaxPatch -> list (string * MaxObject Inlet Outlet);
  get_abstractions : MaxPatch -> list (string * MaxObject Inlet Outlet);
  get_json : MaxPatch -> json;
  load_file : string -> bool -> M MaxPatch;
  connect : MaxPatch -> list (Outlet * Inlet) -> bool -> M MaxPatch;
  save : MaxPatch -> string -> M unit
}.

(** ** [resolve.py]: selectors, endpoints and edges *)

Section Resolve.
Context {engine : GraphEngine}.

(** [obj._dict.get("box", {}).get("varname") == alias]. *)
Definition alias_matches (alias : string) (obj : MaxObject Inlet Outlet) : bool :=
  match Dict.get "varname" (default [] (dict_box obj)) with
  | Some (JStr s) => String.eqb s alias
  | _ => false
  end.

(** The second half of [resolve_selector]: the loop over [patch.objs.items()]
    and the three outcomes. *)
Definition alias_lookup (patch : MaxPatch) (alias : string)
  : result (string * MaxObject Inlet Outlet) :=
  let matches := List.filter (fun '(label, obj) => alias_matches alias obj) (objs patch) in
  match matches with
  | [] => Raise (ObjectResolutionError ("alias not found: " +:+ alias))
  | [m] => Ok m
  | _ =>
      let match_ids := Py.join ", " (map fst matches) in
      Raise (ObjectResolutionError
               ("alias '" +:+ alias +:+ "' is ambiguous (matches: " +:+ match_ids +:+ ")"))
  end.

Definition resolve_selector (patch : MaxPatch) (selector : string)
  : result (string * MaxObject Inlet Outlet) :=
  let selector := Py.strip selector in
  if String.eqb selector "" then Raise (UsageError "selector cannot be empty")
  else
    match Dict.get selector (objs patch) with
    | Some obj => Ok (selector, obj)
    | None =>
        let* alias :=
          (if Py.startswith "@alias:" selector then
             match nth_error (Py.split1 ":" selector) 1 with
             | None => Raise (IndexError "list index out of range")
             | Some rest =>
                 let alias := Py.strip rest in
                 if String.eqb alias ""
                 then Raise (UsageError "alias selector must be formatted as @alias:<name>")
                 else Ok (Some alias)
             end
           else if negb (Py.startswith "obj-" selector) then Ok (Some selector)
           else Ok None) in
        match alias with
        | None => Raise (ObjectResolutionError ("object not found: " +:+ selector))
        | Some alias => alias_lookup patch alias
        end
    end.

End Resolve.

Definition parse_endpoint (endpoint : string) : result (string * Z) :=
  if negb (Py.contains ":" endpoint) then
    Raise (UsageError ("endpoint '" +:+ endpoint +:+ "' must be formatted as <selector>:<index>"))
  else
    match Py.rsplit1 ":" endpoint with
    | [selector; raw_index] =>
        let selector := Py.strip selector in
        let raw_index := Py.strip raw_index in
        if String.eqb selector "" then
          Raise (UsageError ("endpoint '" +:+ endpoint +:+ "' has an empty selector"))
        else
          match Py.int raw_index with
          | None =>
              Raise (UsageError ("endpoint '" +:+ endpoint +:+ "' index must be an integer"))
          | Some index =>
              if index <? 0 then
                Raise (UsageError ("endpoint '" +:+ endpoint +:+ "' index must be >= 0"))
              else Ok (selector, index)
          end
    | _ => Raise (ValueError "not enough values to unpack (expected 2, got 1)")
    end.

Definition parse_edge (edge : string) : result (string * Z * string * Z) :=
  if negb (Py.contains "->" edge) then
    Raise (UsageError ("edge '" +:+ edge +:+ "' must be formatted as <src>:<outlet>-><dst>:<inlet>"))
  else
    match Py.split1 "->" edge with
    | [src; dst] =>
        let* (src_selector, src_index) := parse_endpoint src in
        let* (dst_selector, dst_index) := parse_endpoint dst in
        Ok (src_selector, src_index, dst_selector, dst_index)
    | _ => Raise (ValueError "not enough values to unpack (expected 2, got 1)")
    end.

Section ResolvePorts.
Context {engine : GraphEngine}.

Definition resolve_outlet (patch : MaxPatch) (selector : string) (index : Z)
  : result (string * Outlet) :=
  let* (label, obj) := resolve_selector patch selector in
  if Py.len (outs obj) <=? index then
    Raise (ObjectResolutionError
             ("outlet index " +:+ Py.str_of_int index +:+ " out of range for " +:+ label
              +:+ " (" +:+ Py.str_of_int (Py.len (outs obj)) +:+ " outlet(s))"))
  else
    match Py.getitem (outs obj) index with
    | Some port => Ok (label, port)
    | None => Raise (IndexError "list index out of range")
    end.

Definition resolve_inlet (patch : MaxPatch) (selector : string) (index : Z)
  : result (string * Inlet) :=
  let* (label, obj) := resolve_selector patch selector in
  if Py.len (ins obj) <=? index then
    Raise (ObjectResolutionError
             ("inlet index " +:+ Py.str_of_int index +:+ " out of range for " +:+ label
              +:+ " (" +:+ Py.str_of_int (Py.len (ins obj)) +:+ " inlet(s))"))
  else
    match Py.getitem (ins obj) index with
    | Some port => Ok (label, port)
    | None => Raise (IndexError "list index out of range")
    end.

End ResolvePorts.

(** ** Library functions that are left abstract *)

(** [json.dumps(value, indent=2)], [str(value)] for a value that is not a
    string, and [float(text)] ([None] stands for [ValueError]). *)
Class PyRuntime : Type := {
  json_dumps : json -> string;
  str_other : json -> string;
  float_of_str : string -> option float
}.

Section Builtins.
Context {rt : PyRuntime}.

(** [str(value)]. *)
Definition py_str (v : json) : string :=
  match v with
  | JStr s => s
  | _ => str_other v
  end.

(** The truth value of a Python value. *)
Definition truthy (v : json) : bool :=
  match v with
  | JNull => false
  | JBool b => b
  | JInt z => negb (z =? 0)
  | JFloat f => negb (PrimFloat.eqb f 0%float)
  | JStr s => negb (String.eqb s "")
  | JList l => match l with [] => false | _ => true end
  | JDict d => match d with [] => false | _ => true end
  end.

(** The elements that [for x in value] visits. *)
Definition py_iter (v : json) : result (list json) :=
  match v with
  | JList l => Ok l
  | JDict d => Ok (map (fun kv => JStr (fst kv)) d)
  | JStr s => Ok (map (fun c => JStr (String c EmptyString)) (list_ascii_of_string s))
  | _ => Raise (TypeError "object is not iterable")
  end.

(** [float(value)]: an integer is rounded to the nearest double and
    overflows beyond the range of the type. *)
Definition py_float (v : json) : result float :=
  match v with
  | JFloat f => Ok f
  | JBool b => Ok (if b then 1%float else 0%float)
  | JInt z =>
      match SpecFloat.binary_normalize 53 1024 z 0 false with
      | SpecFloat.S754_infinity _ => Raise (OverflowError "int too large to convert to float")
      | sf => Ok (SF2Prim sf)
      end
  | JStr s =>
      match float_of_str s with
      | Some f => Ok f
      | None => Raise (ValueError ("could not convert string to float: " +:+ s))
      end
  | _ => Raise (TypeError "float() argument must be a string or a real number")
  end.

End Builtins.

(** [click.echo(text)]: the text and a newline go to standard output. *)
Definition newline : string := String (ascii_of_N 10) EmptyString.
Definition echo (text : string) : M unit :=
  fun w => (Ok tt, set_stdout (w_stdout w +:+ text +:+ newline) w).

(** Insertion sort of strings by code points, for [sorted(keys)]. *)
Fixpoint insert_sorted (k : string) (l : list string) : list string :=
  match l with
  | [] => [k]
  | h :: t => if String.leb k h then k :: l else h :: insert_sorted k t
  end.
Definition sorted (l : list string) : list string := fold_right insert_sorted [] l.

(** [for x in xs: body(x)] for a body that returns nothing. *)
Fixpoint for_each {A} (body : A -> M unit) (xs : list A) : M unit :=
  match xs with
  | [] => ret tt
  | x :: r => mbind (body x) (fun _ => for_each body r)
  end.

(** ** [output.py]: the report envelope *)

Definition SCHEMA_VERSION : string := "1.0.0".

Record CLIContext : Type := mk_ctx {
  json_output : bool;
  verbose : bool;
  strict : bool;
  in_place : bool
}.

Definition _schema_key (command kind : string) : string :=
  let normalized := Py.replace "-" "_" (Py.replace " " "_" (Py.strip command)) in
  "maxpylang.cli." +:+ normalized +:+ "." +:+ kind +:+ ".v1".

Definition _timestamp : M string := fun w => (Ok (w_clock w), w).

Section Output.
Context {rt : PyRuntime}.
Open Scope io_scope.

(** The dictionary [output] that [emit_success] builds. *)
Definition success_envelope (command : string) (payload : pydict) (generated_at : string)
  : pydict :=
  [ ("ok", JBool true);
    ("command", JStr command);
    ("schema_version", JStr SCHEMA_VERSION);
    ("schema", Dict.get_default "schema" (JStr (_schema_key command "success")) payload);
    ("data_schema", Dict.get_default "data_schema" (JStr (_schema_key command "data")) payload);
    ("generated_at", JStr generated_at);
    ("message", Dict.get_default "message" (JStr (command +:+ " completed")) payload);
    ("input", Dict.get_default "input" JNull payload);
    ("output", Dict.get_default "output" JNull payload);
    ("changes", Dict.get_default "changes" (JDict []) payload);
    ("warnings", Dict.get_default "warnings" (JList []) payload);
    ("data", Dict.get_default "data" JNull payload);
    ("diagnostics", Dict.get_default "diagnostics" (JList []) payload);
    ("errors", JList []) ].

Definition emit_success (ctx : CLIContext) (command : string) (payload : option pydict)
  : M unit :=
  let payload := default [] payload in
  do generated_at <- _timestamp;
  let output := success_envelope command payload generated_at in
  if json_output ctx then echo (json_dumps (JDict output))
  else
    let field k := Dict.get_default k JNull output in
    do _ <- echo (py_str (field "message"));
    do _ <- (if truthy (field "input") then echo ("input: " +:+ py_str (field "input"))
             else ret tt);
    do _ <- (if truthy (field "output") then echo ("output: " +:+ py_str (field "output"))
             else ret tt);
    let changes := field "changes" in
    do _ <- (if truthy changes then
               match changes with
               | JDict d =>
                   for_each (fun key => echo (key +:+ ": " +:+ py_str (Dict.get_default key JNull d)))
                            (sorted (map fst d))
               | _ => echo ("changes: " +:+ py_str changes)
               end
             else ret tt);
    do warnings <- lift (py_iter (field "warnings"));
    for_each (fun warning => echo ("warning: " +:+ py_str warning)) warnings.

(** The dictionary [output] that [emit_error] builds. *)
Definition error_envelope (command : string) (error : exn) (exit_code : Z)
  (generated_at : string) : pydict :=
  let message := exc_str error in
  let error_type := type_name error in
  let diagnostics := default [] (exc_cli_diagnostics error) in
  [ ("ok", JBool false);
    ("command", JStr command);
    ("schema_version", JStr SCHEMA_VERSION);
    ("schema", JStr (_schema_key command "error"));
    ("data_schema", JNull);
    ("generated_at", JStr generated_at);
    ("message", JStr message);
    ("input", JNull);
    ("output", JNull);
    ("changes", JDict []);
    ("warnings", JList []);
    ("data", JNull);
    ("diagnostics", JList (map JStr diagnostics));
    ("errors", JList [JDict [("type", JStr error_type); ("message", JStr message);
                             ("exit_code", JInt exit_code)]]) ].

Definition emit_error (ctx : CLIContext) (command : string) (error : exn) (exit_code : Z)
  : M unit :=
  do generated_at <- _timestamp;
  let output := error_envelope command error exit_code generated_at in
  if json_output ctx then echo (json_dumps (JDict output))
  else echo ("error: " +:+ exc_str error).

End Output.

(** ** Paths and files *)

Module PathLib.

(** [str(path)]. *)
Definition str (p : Path) : string := "/" +:+ Py.join "/" p.

(** [path.name], [path.suffix] and [path.parent]. *)
Definition name (p : Path) : string := List.last p "".

Definition suffix (p : Path) : string :=
  match Py.rsplit1 "." (name p) with
  | [a; b] => if String.eqb a "" || String.eqb b "" then "" else "." +:+ b
  | _ => ""
  end.

Definition parent (p : Path) : Path := removelast p.

(** [path.exists()] and [path.is_file()]. *)
Definition exists_ (p : Path) : M bool :=
  fun w => (Ok (match w_fs w !! p with Some _ => true | None => match p with [] => true | _ => false end end), w).

Definition is_file (p : Path) : M bool :=
  fun w => (Ok (match w_fs w !! p with Some (File _) => true | _ => false end), w).

(** [path.mkdir(parents=True, exist_ok=True)]: the components of [rest] are
    created below [base] one after the other. *)
Fixpoint mkdir_from (base : Path) (rest : list string) (fs : gmap (list string) node)
  : result unit * gmap (list string) node :=
  match rest with
  | [] => (Ok tt, fs)
  | c :: r =>
      let d := base ++ [c] in
      match fs !! d with
      | Some Dir => mkdir_from d r fs
      | Some (File _) =>
          (Raise (match r with
                  | [] => FileExistsError (str d)
                  | _ => NotADirectoryError (str d)
                  end), fs)
      | None => mkdir_from d r (<[d := Dir]> fs)
      end
  end.

Definition mkdir_parents (p : Path) : M unit :=
  fun w => let '(r, fs) := mkdir_from [] p (w_fs w) in (r, set_fs fs w).

(** [with path.open("w") as handle: handle.write(content)].  The file is
    created or truncated when its directory exists. *)
Definition write_text (p : Path) (content : string) : M unit :=
  fun w =>
    match w_fs w !! p with
    | Some Dir => (Raise (IsADirectoryError (str p)), w)
    | _ =>
        match p, w_fs w !! parent p with
        | [], _ => (Raise (IsADirectoryError (str p)), w)
        | [_], _ | _, Some Dir => (Ok tt, set_fs (<[p := File content]> (w_fs w)) w)
        | _, Some (File _) => (Raise (NotADirectoryError (str p)), w)
        | _, None => (Raise (FileNotFoundError (str p)), w)
        end
    end.

End PathLib.

(** [try: body except Exception as exc: raise wrap(exc)]. *)
Definition try_except_Exception {A} (body : M A) (wrap : exn -> exn) : M A :=
  fun w => match body w with
           | (Raise e, w') => if isinstance e "Exception" then (Raise (wrap e), w')
                              else (Raise e, w')
           | ok => ok
           end.

(** ** [io.py]: the configuration store *)

(** Modelled from the spec: [get_constant] of [maxpylang.tools.constants] is
    not among the sources; it reads a key of the configuration store. *)
Definition get_constant (key : string) : M json :=
  fun w => match Dict.get key (w_constants w) with
           | Some v => (Ok v, w)
           | None => (Raise (KeyError key), w)
           end.

Definition _MAX_REFPATH_SUFFIX : string := "Contents/Resources/C74/docs/refpages/".

Definition endswith (suf s : string) : bool :=
  (String.length suf <=? String.length s)%nat
  && String.eqb (Py.drop (String.length s - String.length suf) s) suf.

Open Scope io_scope.

Definition config_get (key : string) : M json :=
  if String.eqb key "max_path" then
    do refpath <- get_constant "max_refpath";
    match refpath with
    | JStr r =>
        if endswith _MAX_REFPATH_SUFFIX r
        then ret (JStr (substring 0 (String.length r - String.length _MAX_REFPATH_SUFFIX) r))
        else ret refpath
    | _ => raise (AttributeError "object has no attribute 'endswith'")
    end
  else if String.eqb key "max_refpath" then get_constant "max_refpath"
  else if String.eqb key "packages_path" then get_constant "packages_path"
  else if String.eqb key "wait_time" then get_constant "wait_time"
  else raise (UsageError ("unsupported config key: " +:+ key)).

Close Scope io_scope.

(** ** [export_amxd.py]: export, validation timeout and helper identifiers *)

(** The part of [export_amxd.py] that looks for the editor, launches it and
    polls for its write-back ([resolve_max_app_path], [run_max_validation])
    is not embedded step by step: the two functions are arbitrary
    computations over the world. *)
Class MaxValidation : Type := {
  resolve_max_app_path : M Path;
  run_max_validation : Path -> Path -> option float -> M unit
}.

Section ExportAmxd.
Context {engine : GraphEngine} {rt : PyRuntime} {validation : MaxValidation}.
Open Scope io_scope.

Definition normalize_amxd_path (output_path : Path) : result Path :=
  if negb (String.eqb (Py.lower (PathLib.suffix output_path)) ".amxd")
  then Raise (UsageError "output path must use the .amxd extension")
  else Ok output_path.

(** [timeout] is the argument as passed; [JNull] is [None]. *)
Definition resolve_validation_timeout (timeout : json) : M float :=
  do raw_timeout <- (match timeout with
                     | JNull => config_get "wait_time"
                     | _ => ret timeout
                     end);
  match py_float raw_timeout with
  | Ok resolved =>
      if PrimFloat.leb resolved 0%float
      then raise (UsageError "timeout must be greater than 0 seconds")
      else ret resolved
  | Raise exc =>
      if isinstance exc "TypeError" || isinstance exc "ValueError"
      then raise (ValidationError ("invalid validation timeout value: " +:+ py_str raw_timeout))
      else raise exc
  end.

Definition _write_patch_json (patch_dict : json) (path : Path) : M unit :=
  try_except_Exception
    (PathLib.write_text path (json_dumps patch_dict))
    (fun exc => ValidationError ("failed to write patch JSON: " +:+ PathLib.str path
                                 +:+ ": " +:+ exc_str exc)).

Definition export_amxd_file (patch : MaxPatch) (output_path : Path)
  (overwrite validate : bool) (timeout : json) : M pydict :=
  do normalized_output <- lift (normalize_amxd_path output_path);
  do present <- PathLib.exists_ normalized_output;
  if present && negb overwrite then
    raise (UsageError ("output file already exists: " +:+ PathLib.str normalized_output
                       +:+ " (pass --overwrite to replace)"))
  else
    do _ <- PathLib.mkdir_parents (PathLib.parent normalized_output);
    do _ <- _write_patch_json (get_json patch) normalized_output;
    do resolved_timeout <-
      (if validate || negb (match timeout with JNull => true | _ => false end)
       then do t <- resolve_validation_timeout timeout; ret (Some t)
       else ret None);
    do max_app_path <-
      (if validate then
         do app <- resolve_max_app_path;
         do _ <- run_max_validation normalized_output app resolved_timeout;
         ret (Some app)
       else ret None);
    let validated := validate in
    ret [ ("validated", JBool validated);
          ("validation_requested", JBool validate);
          ("max_app_path", match max_app_path with
                           | Some app => JStr (PathLib.str app)
                           | None => JNull
                           end);
          ("timeout_seconds", match resolved_timeout with
                              | Some t => JFloat t
                              | None => JNull
                              end);
          ("output_extension", JStr ".amxd") ].

End ExportAmxd.

(** [value.get(key, default)] on a value that should be a dictionary. *)
Definition py_get (v : json) (key : string) (default : json) : result json :=
  match v with
  | JDict d => Ok (Dict.get_default key default d)
  | _ => Raise (AttributeError "object has no attribute 'get'")
  end.

(** [box.get("box", {}).get("id")]. *)
Definition box_id (entry : json) : result json :=
  let* inner := py_get entry "box" (JDict []) in
  py_get inner "id" JNull.

(** The loop of [_next_object_index], with [max_id] as accumulator. *)
Fixpoint _next_object_index_from (max_id : Z) (boxes : list json) : result Z :=
  match boxes with
  | [] => Ok max_id
  | entry :: rest =>
      let* box_id := box_id entry in
      match box_id with
      | JStr box_id =>
          if negb (Py.startswith "obj-" box_id) then _next_object_index_from max_id rest
          else
            match nth_error (Py.split1 "-" box_id) 1 with
            | None => Raise (IndexError "list index out of range")
            | Some digits =>
                match Py.int digits with
                | None => _next_object_index_from max_id rest
                | Some index => _next_object_index_from (Z.max max_id index) rest
                end
            end
      | _ => _next_object_index_from max_id rest
      end
  end.

Definition _next_object_index (boxes : list json) : result Z :=
  _next_object_index_from 0 boxes.

(** The loop of [_build_helper_id_map], with [next_index] and [id_map] as
    accumulators. *)
Fixpoint _build_helper_id_map_from (next_index : Z) (id_map : list (string * string))
  (helper_boxes : list json) : result (list (string * string)) :=
  match helper_boxes with
  | [] => Ok id_map
  | helper_box :: rest =>
      let* helper_id := box_id helper_box in
      match helper_id with
      | JStr helper_id =>
          _build_helper_id_map_from (next_index + 1)
            (Dict.set helper_id ("obj-" +:+ Py.str_of_int next_index) id_map) rest
      | _ => Raise (ValidationError
                      "invalid helper box id while constructing validation patch")
      end
  end.

Definition _build_helper_id_map (boxes helper_boxes : list json)
  : result (list (string * string)) :=
  let* max_id := _next_object_index boxes in
  let next_index := max_id + 1 in
  _build_helper_id_map_from next_index [] helper_boxes.

(** ** [io.py]: loading, saving and checking a patch *)

Section PatchIO.
Context {engine : GraphEngine}.
Open Scope io_scope.

Definition load_patch (path : Path) (verbose : bool) : M MaxPatch :=
  do present <- PathLib.exists_ path;
  if negb present then raise (UsageError ("input patch not found: " +:+ PathLib.str path))
  else
    do regular <- PathLib.is_file path;
    if negb regular then
      raise (UsageError ("input patch must be a file: " +:+ PathLib.str path))
    else
      fun w =>
        match load_file (PathLib.str path) verbose w with
        | (Raise exc, w') =>
            if isinstance exc "FileNotFoundError" then
              (Raise (UsageError ("input patch not found: " +:+ PathLib.str path)), w')
            else if isinstance exc "Exception" then
              (Raise (ValidationError ("failed to load patch '" +:+ PathLib.str path
                                       +:+ "': " +:+ exc_str exc)), w')
            else (Raise exc, w')
        | ok => ok
        end.

Definition resolve_output_path (input_path output_path : option Path)
  (in_place require_output : bool) : result Path :=
  match output_path, input_path with
  | Some out, _ => Ok out
  | None, Some inp =>
      if in_place then Ok inp
      else Raise (UsageError "missing --out (or pass --in-place to overwrite --in)")
  | None, None =>
      if require_output then Raise (UsageError "missing required --out")
      else Raise (UsageError "missing output path")
  end.

Definition save_patch (patch : MaxPatch) (output_path : Path) : M unit :=
  try_except_Exception
    (do _ <- PathLib.mkdir_parents (PathLib.parent output_path);
     save patch (PathLib.str output_path))
    (fun exc => ValidationError ("failed to save patch '" +:+ PathLib.str output_path
                                 +:+ "': " +:+ exc_str exc)).

(** The entry ["warnings"] of the dictionary that [collect_patch_health]
    returns; the commands embedded here read no other entry. *)
Definition collect_patch_health (patch : MaxPatch) : list string :=
  let count {A} (l : list A) := Py.str_of_int (Py.len l) in
  (match get_unknowns patch with
   | [] => []
   | l => [count l +:+ " unknown object(s)"]
   end) ++
  (match get_js_unlinked patch with
   | [] => []
   | l => [count l +:+ " unlinked js object(s)"]
   end) ++
  (match get_abstractions patch with
   | [] => []
   | l => [count l +:+ " abstraction object(s)"]
   end).

Definition strict_guard (strict : bool) (warnings : list string) : result unit :=
  match warnings with
  | _ :: _ =>
      if strict then
        Raise (ValidationError_with ("strict mode failed: " +:+ Py.join "; " warnings)
                 [("warnings", JList (map JStr warnings))])
      else Ok tt
  | [] => Ok tt
  end.

End PatchIO.

(** ** [main.py]: the command pipeline *)

Definition is_linebreak (c : ascii) : bool :=
  let n := N_of_ascii c in
  ((10 <=? n) && (n <=? 13) || (28 <=? n) && (n <=? 30) || (n =? 133))%N.

(** [text.splitlines()]; [cur] is the line read so far. *)
Fixpoint splitlines_from (cur : string) (s : string) : list string :=
  match s with
  | EmptyString => if String.eqb cur "" then [] else [cur]
  | String c r =>
      if is_linebreak c then
        match r with
        | String d r' =>
            if Ascii.eqb c (ascii_of_N 13) && Ascii.eqb d (ascii_of_N 10)
            then cur :: splitlines_from "" r'
            else cur :: splitlines_from "" r
        | EmptyString => cur :: splitlines_from "" r
        end
      else splitlines_from (cur +:+ String c EmptyString) r
  end.

Definition _normalize_diagnostics (raw_output : string) : list string :=
  List.filter (fun line => negb (String.eqb line ""))
              (map Py.strip (splitlines_from "" raw_output)).

Definition _extract_diagnostics (exc : exn) : list string :=
  default [] (exc_cli_diagnostics exc).

Definition _attach_diagnostics (exc : exn) (diagnostics : list string) : exn :=
  match diagnostics with
  | [] => exc
  | _ => mk_exn (exc_mro exc) (exc_str exc) (exc_details exc) (Some diagnostics)
  end.

(** [a or b] for two lists. *)
Definition list_or {A} (a b : list A) : list A :=
  match a with [] => b | _ => a end.

(** How [_run_command] ends: it returns, it raises [SystemExit(code)], or an
    exception leaves it. *)
Inductive outcome : Type :=
| Returned
| SystemExit (code : Z)
| Propagated (e : exn).

Section Pipeline.
Context {engine : GraphEngine} {rt : PyRuntime}.
Open Scope io_scope.

(** The statements of [_run_command] under [if diagnostics:]. *)
Definition add_diagnostics (payload : pydict) (diagnostics : list string) : result pydict :=
  let payload :=
    if Dict.mem "diagnostics" payload then payload
    else Dict.set "diagnostics" (JList []) payload in
  let* payload :=
    match Dict.get "diagnostics" payload with
    | Some (JList l) => Ok (Dict.set "diagnostics" (JList (l ++ map JStr diagnostics)) payload)
    | _ => Raise (AttributeError "object has no attribute 'extend'")
    end in
  let payload :=
    if Dict.mem "warnings" payload then payload
    else Dict.set "warnings" (JList []) payload in
  let summary :=
    Py.str_of_int (Py.len diagnostics) +:+ " internal diagnostic line(s) captured" in
  match Dict.get "warnings" payload with
  | Some (JList l) =>
      if existsb (fun v => match v with JStr t => String.eqb t summary | _ => false end) l
      then Ok payload
      else Ok (Dict.set "warnings" (JList (l ++ [JStr summary])) payload)
  | Some (JStr t) =>
      if Py.contains summary t then Ok payload
      else Raise (AttributeError "'str' object has no attribute 'append'")
  | Some (JDict d) =>
      if Dict.mem summary d then Ok payload
      else Raise (AttributeError "'dict' object has no attribute 'append'")
  | _ => Raise (TypeError "argument is not iterable")
  end.

(** The body of the [try] statement of [_run_command].  Besides its result
    it yields the value of the local variable [diagnostics] when it ends. *)
Definition run_body (ctx_cfg : CLIContext) (command_name : string)
  (action : M (option pydict)) : world -> (result unit * list string) * world :=
  fun w =>
    let '(r, diagnostics, w1) :=
      if json_output ctx_cfg then
        let '(r, wa) := action (set_stdout "" w) in
        let captured := w_stdout wa in
        let w1 := set_stdout (w_stdout w) wa in
        match r with
        | Raise exc =>
            if isinstance exc "Exception"
            then (Raise (_attach_diagnostics exc (_normalize_diagnostics captured)), [], w1)
            else (Raise exc, [], w1)
        | Ok payload => (Ok (default [] payload), _normalize_diagnostics captured, w1)
        end
      else
        let '(r, wa) := action w in
        match r with
        | Raise exc => (Raise exc, [], wa)
        | Ok payload => (Ok (default [] payload), [], wa)
        end in
    match r with
    | Raise exc => (Raise exc, diagnostics, w1)
    | Ok payload =>
        match (match diagnostics with
               | [] => Ok payload
               | _ => add_diagnostics payload diagnostics
               end) with
        | Raise exc => (Raise exc, diagnostics, w1)
        | Ok payload =>
            let '(r, w2) := emit_success ctx_cfg command_name (Some payload) w1 in
            (r, diagnostics, w2)
        end
    end.

(** [emit_error(...)] followed by [raise SystemExit(...)], for an error
    whose attribute [exit_code] is read. *)
Definition report_and_exit (ctx_cfg : CLIContext) (command_name : string) (error : exn)
  : world -> outcome * world :=
  fun w =>
    match exit_code error with
    | None => (Propagated (AttributeError "object has no attribute 'exit_code'"), w)
    | Some code =>
        match emit_error ctx_cfg command_name error code w with
        | (Ok _, w') => (SystemExit code, w')
        | (Raise e, w') => (Propagated e, w')
        end
    end.

Definition _run_command (ctx_cfg : CLIContext) (command_name : string)
  (action : M (option pydict)) : world -> outcome * world :=
  fun w =>
    match run_body ctx_cfg command_name action w with
    | (Ok _, _, w') => (Returned, w')
    | (Raise exc, diagnostics, w') =>
        if isinstance exc "MaxPyCLIError" then
          let exc :=
            match exc_cli_diagnostics exc with
            | None | Some [] => _attach_diagnostics exc diagnostics
            | Some _ => exc
            end in
          report_and_exit ctx_cfg command_name exc w'
        else if isinstance exc "FileNotFoundError" || isinstance exc "IsADirectoryError" then
          let wrapped := UsageError (exc_str exc) in
          let wrapped :=
            _attach_diagnostics wrapped (list_or (_extract_diagnostics exc) diagnostics) in
          report_and_exit ctx_cfg command_name wrapped w'
        else if isinstance exc "AssertionError" || isinstance exc "ValueError"
                || isinstance exc "TypeError" || isinstance exc "KeyError" then
          let wrapped := ValidationError (exc_str exc) in
          let wrapped :=
            _attach_diagnostics wrapped (list_or (_extract_diagnostics exc) diagnostics) in
          report_and_exit ctx_cfg command_name wrapped w'
        else if isinstance exc "ClickException" then (Propagated exc, w')
        else if isinstance exc "Exception" then
          let wrapped := InternalError (exc_str exc) in
          let wrapped :=
            _attach_diagnostics wrapped (list_or (_extract_diagnostics exc) diagnostics) in
          report_and_exit ctx_cfg command_name wrapped w'
        else (Propagated exc, w')
    end.

Definition _finalize_mutation (ctx_cfg : CLIContext) (patch : MaxPatch)
  (input_path output_path : Path) (message : string) (changes : pydict)
  (data data_schema : json) : M (option pydict) :=
  let health := collect_patch_health patch in
  do _ <- lift (strict_guard (strict ctx_cfg) health);
  do _ <- save_patch patch output_path;
  ret (Some [ ("message", JStr message);
              ("input", JStr (PathLib.str input_path));
              ("output", JStr (PathLib.str output_path));
              ("changes", JDict changes);
              ("warnings", JList (map JStr health));
              ("data", data);
              ("data_schema", data_schema) ]).

End Pipeline.

(** ** [main.py]: the [connect] command *)

Section Connect.
Context {engine : GraphEngine} {rt : PyRuntime}.
Open Scope io_scope.

(** The dictionary appended to [resolved_edges] for one connection. *)
Definition resolved_edge (src_selector src_label : string) (src_index : Z)
  (dst_selector dst_label : string) (dst_index : Z) (mode : string) : json :=
  JDict [ ("source", JDict [("selector", JStr src_selector); ("id", JStr src_label);
                            ("outlet", JInt src_index)]);
          ("destination", JDict [("selector", JStr dst_selector); ("id", JStr dst_label);
                                 ("inlet", JInt dst_index)]);
          ("mode", JStr mode) ].

(** The body of the loop [for edge in edges]. *)
Definition resolve_edge (patch : MaxPatch) (edge : string)
  : result ((Outlet * Inlet) * json) :=
  let* (src_selector, src_index, dst_selector, dst_index) := parse_edge edge in
  let* (src_label, outlet) := resolve_outlet patch src_selector src_index in
  let* (dst_label, inlet) := resolve_inlet patch dst_selector dst_index in
  Ok ((outlet, inlet),
      resolved_edge src_selector src_label src_index dst_selector dst_label dst_index "edge").

(** The body of the loop [for raw_from, raw_to in zip(...)]. *)
Definition resolve_from_to (patch : MaxPatch) (pair : string * string)
  : result ((Outlet * Inlet) * json) :=
  let '(raw_from, raw_to) := pair in
  let* (src_selector, src_index) := parse_endpoint raw_from in
  let* (dst_selector, dst_index) := parse_endpoint raw_to in
  let* (src_label, outlet) := resolve_outlet patch src_selector src_index in
  let* (dst_label, inlet) := resolve_inlet patch dst_selector dst_index in
  Ok ((outlet, inlet),
      resolved_edge src_selector src_label src_index dst_selector dst_label dst_index "from_to").

(** A loop that appends the result of [body] for each item and stops at the
    first exception. *)
Fixpoint collect {A B} (body : A -> result B) (items : list A) : result (list B) :=
  match items with
  | [] => Ok []
  | x :: rest =>
      let* y := body x in
      let* ys := collect body rest in
      Ok (y :: ys)
  end.

(** The two loops of [connect_command], which fill [connections] and
    [resolved_edges]. *)
Definition resolve_connections (patch : MaxPatch) (edges from_endpoints to_endpoints : list string)
  : result (list ((Outlet * Inlet) * json)) :=
  let* by_edge := collect (resolve_edge patch) edges in
  let* by_pair := collect (resolve_from_to patch) (combine from_endpoints to_endpoints) in
  Ok (by_edge ++ by_pair).

(** The closure [_action] of [connect_command]. *)
Definition connect_action (ctx_cfg : CLIContext) (input_path : Path)
  (output_path : option Path) (edges from_endpoints to_endpoints : list string)
  : M (option pydict) :=
  let empty {A} (l : list A) := match l with [] => true | _ => false end in
  if empty edges && empty from_endpoints && empty to_endpoints then
    raise (UsageError "connect requires at least one --edge or one --from/--to pair")
  else if negb (Bool.eqb (negb (empty from_endpoints)) (negb (empty to_endpoints))) then
    raise (UsageError "--from and --to must be provided together")
  else if negb (length from_endpoints =? length to_endpoints)%nat then
    raise (UsageError "--from and --to must appear the same number of times")
  else
    do patch <- load_patch input_path (verbose ctx_cfg);
    do resolved_output <-
      lift (resolve_output_path (Some input_path) output_path (in_place ctx_cfg) false);
    do resolved <- lift (resolve_connections patch edges from_endpoints to_endpoints);
    let connections := map fst resolved in
    let resolved_edges := map snd resolved in
    do patch <- connect patch connections (verbose ctx_cfg);
    _finalize_mutation ctx_cfg patch input_path resolved_output
      ("connected " +:+ Py.str_of_int (Py.len connections) +:+ " edge(s)")
      [("connected", JInt (Py.len connections))]
      (JDict [("connections", JList resolved_edges)])
      (JStr "maxpylang.cli.connect.data.v1").

Definition connect_command (ctx_cfg : CLIContext) (input_path : Path)
  (output_path : option Path) (edges from_endpoints to_endpoints : list string)
  : world -> outcome * world :=
  _run_command ctx_cfg "connect"
    (connect_action ctx_cfg input_path output_path edges from_endpoints to_endpoints).

End Connect.

(** ** More built-ins *)

(** [x in values] for a list, a tuple or a set of strings. *)
Definition py_in (x : string) (values : list string) : bool :=
  existsb (String.eqb x) values.

(** [s.split(sep)] for a non-empty separator: [cur] is the part read so
    far and [skip] counts the characters of a separator that are still to be
    passed over. *)
Fixpoint split_from (sep : string) (skip : nat) (cur s : string) : list string :=
  match s with
  | EmptyString => [cur]
  | String c r =>
      match skip with
      | S k => split_from sep k cur r
      | O =>
          if Py.startswith sep s
          then cur :: split_from sep (String.length sep - 1) "" r
          else split_from sep 0 (cur +:+ String c EmptyString) r
      end
  end.

Definition py_split (sep s : string) : list string := split_from sep 0 "" s.

(** [list(dict.fromkeys(keys))]: the keys without repetition, each at the
    place of its first occurrence. *)
Definition dict_fromkeys (keys : list string) : list (string * json) :=
  fold_left (fun d k => Dict.set k JNull d) keys [].

(** The double quote and the backslash as texts. *)
Definition dquote : string := String (ascii_of_N 34) EmptyString.
Definition backslash : string := String (ascii_of_N 92) EmptyString.

(** ** [io.py]: values given on the command line *)

Section ParseValues.
Context {rt : PyRuntime}.

Definition parse_point (text : string) : result (list float) :=
  let parts := map Py.strip (py_split "," text) in
  match parts with
  | [x; y] =>
      match float_of_str x with
      | None => Raise (UsageError ("point '" +:+ text +:+ "' must contain numeric x,y values"))
      | Some fx =>
          match float_of_str y with
          | None =>
              Raise (UsageError ("point '" +:+ text +:+ "' must contain numeric x,y values"))
          | Some fy => Ok [fx; fy]
          end
      end
  | _ => Raise (UsageError ("point '" +:+ text +:+ "' must be formatted as x,y"))
  end.

Definition parse_points (values : list string) : result (list (list float)) :=
  collect parse_point values.

Definition _parse_scalar (value : string) : json :=
  let lowered := Py.lower value in
  if String.eqb lowered "true" then JBool true
  else if String.eqb lowered "false" then JBool false
  else if Py.contains "." value then
    match float_of_str value with
    | Some f => JFloat f
    | None => JStr value
    end
  else
    match Py.int value with
    | Some n => JInt n
    | None => JStr value
    end.

(** The loop of [parse_attr_pairs], with [attrs] as accumulator. *)
Fixpoint parse_attr_pairs_from (attrs : pydict) (items : list string) : result pydict :=
  match items with
  | [] => Ok attrs
  | item :: rest =>
      if negb (Py.contains "=" item) then
        Raise (UsageError ("attribute '" +:+ item +:+ "' must be formatted as key=value"))
      else
        match Py.split1 "=" item with
        | [key; raw_value] =>
            let key := Py.strip key in
            let raw_value := Py.strip raw_value in
            if String.eqb key "" then
              Raise (UsageError ("attribute '" +:+ item +:+ "' has an empty key"))
            else parse_attr_pairs_from (Dict.set key (_parse_scalar raw_value) attrs) rest
        | _ => Raise (ValueError "not enough values to unpack (expected 2, got 1)")
        end
  end.

Definition parse_attr_pairs (items : list string) : result pydict :=
  parse_attr_pairs_from [] items.

End ParseValues.

(** ** [io.py]: writing the configuration *)

(** Modelled from the spec: the setters of [maxpylang.tools.constants] are
    not among the sources (the configuration collaborator of section 6 of the
    specification); they are computations over the world. *)
Class ConfigSetters : Type := {
  set_constant : string -> json -> M unit;
  set_max_path : string -> M unit;
  set_packages_path : string -> M unit;
  set_wait_time : float -> M unit
}.

Section ConfigSet.
Context {rt : PyRuntime} {setters : ConfigSetters}.
Open Scope io_scope.

Definition config_set (key value : string) : M json :=
  if String.eqb key "max_path" then
    do _ <- set_max_path value;
    config_get "max_path"
  else if String.eqb key "max_refpath" then
    do _ <- set_constant "max_refpath" (JStr value);
    config_get "max_refpath"
  else if String.eqb key "packages_path" then
    do _ <- set_packages_path value;
    config_get "packages_path"
  else if String.eqb key "wait_time" then
    match float_of_str value with
    | None => raise (UsageError "wait_time must be numeric")
    | Some numeric =>
        do _ <- set_wait_time numeric;
        config_get "wait_time"
    end
  else raise (UsageError ("unsupported config key: " +:+ key)).

End ConfigSet.

(** ** [main.py]: the command named on the command line *)

Definition _KNOWN_COMMANDS : list string :=
  ["new"; "list-objects"; "place"; "connect"; "replace"; "delete"; "check"; "save";
   "export-amxd"; "config"].

Definition _context_from_args (args : list string) : CLIContext :=
  mk_ctx (py_in "--json" args) (py_in "--verbose" args) (py_in "--strict" args)
         (py_in "--in-place" args).

(** The first token that does not start with a hyphen: the loops
    [for sub in args[idx + 1:]] and [for token in args]. *)
Fixpoint first_word (args : list string) : option string :=
  match args with
  | [] => None
  | token :: rest => if Py.startswith "-" token then first_word rest else Some token
  end.

(** The first loop of [_infer_command_from_args]; [None] when it ends
    without a [return]. *)
Fixpoint known_command (args : list string) : option string :=
  match args with
  | [] => None
  | token :: rest =>
      if Py.startswith "-" token then known_command rest
      else if py_in token _KNOWN_COMMANDS then
        if String.eqb token "config" then
          match first_word rest with
          | Some sub => Some ("config " +:+ sub)
          | None => Some token
          end
        else Some token
      else known_command rest
  end.

Definition _infer_command_from_args (args : list string) : string :=
  match known_command args with
  | Some command => command
  | None =>
      match first_word args with
      | Some token => token
      | None => "cli"
      end
  end.

(** ** [main.py]: the order in which objects are listed *)

(** The value of [_sort_key]: the tuple [(0, index)] or [(1, label)]. *)
Inductive sort_key : Type :=
| Numbered (index : Z)
| Labelled (label : string).

Definition _sort_key (label : string) : result sort_key :=
  if Py.startswith "obj-" label then
    match nth_error (Py.split1 "-" label) 1 with
    | None => Raise (IndexError "list index out of range")
    | Some digits =>
        match Py.int digits with
        | Some index => Ok (Numbered index)
        | None => Ok (Labelled label)
        end
    end
  else Ok (Labelled label).

(** [a < b] on the keys, as tuples compare. *)
Definition key_lt (a b : sort_key) : bool :=
  match a, b with
  | Numbered i, Numbered j => i <? j
  | Numbered _, Labelled _ => true
  | Labelled _, Numbered _ => false
  | Labelled s, Labelled t => String.ltb s t
  end.

(** [sorted(items, key=...)] on items that carry their key: a stable
    insertion sort, an item going before the first one whose key is not
    smaller. *)
Fixpoint insert_by_key {A} (k : sort_key) (x : A) (l : list (sort_key * A))
  : list (sort_key * A) :=
  match l with
  | [] => [(k, x)]
  | (k', y) :: t => if key_lt k' k then (k', y) :: insert_by_key k x t else (k, x) :: l
  end.

Definition sorted_by_key {A} (l : list (sort_key * A)) : list (sort_key * A) :=
  fold_right (fun kx acc => insert_by_key (fst kx) (snd kx) acc) [] l.

Section ListObjects.
Context {engine : GraphEngine}.

Definition _sorted_object_items (patch : MaxPatch)
  : result (list (string * MaxObject Inlet Outlet)) :=
  let* keyed := collect (fun item => let* k := _sort_key (fst item) in Ok (k, item))
                        (objs patch) in
  Ok (map snd (sorted_by_key keyed)).

End ListObjects.

(** ** [export_amxd.py]: the helper of the validation copy *)

(** [_build_helper_id_map] for helper boxes that need not be a list: the
    loop visits what iteration over the value yields. *)
Definition build_helper_id_map_of (boxes : list json) (helper_boxes : json)
  : result (list (string * string)) :=
  let* max_id := _next_object_index boxes in
  let next_index := max_id + 1 in
  let* helper_boxes := py_iter helper_boxes in
  _build_helper_id_map_from next_index [] helper_boxes.

(** [id_map.get(key)] for a key that is any value: the keys of [id_map] are
    strings, a list or a dictionary cannot be hashed. *)
Definition id_map_get (id_map : list (string * string)) (key : json)
  : result (option string) :=
  match key with
  | JStr s => Ok (Dict.get s id_map)
  | JList _ | JDict _ => Raise (TypeError "unhashable type")
  | _ => Ok None
  end.

(** The statements of the first loop of [_inject_validation_helper] that
    change [box_data]. *)
Definition inject_box_data (id_map : list (string * string)) (validation_path : Path)
  (box_data : pydict) : result pydict :=
  let original_id := Dict.get_default "id" JNull box_data in
  let* mapped := id_map_get id_map original_id in
  let box_data :=
    match mapped with
    | Some new_id => Dict.set "id" (JStr new_id) box_data
    | None => box_data
    end in
  let box_data := Dict.set "hidden" (JInt 1) box_data in
  match Dict.get "text" box_data with
  | Some (JStr text) =>
      if String.eqb text "write" then
        let escaped_path :=
          Py.replace dquote (backslash +:+ dquote)
            (Py.replace backslash (backslash +:+ backslash) (PathLib.str validation_path)) in
        Ok (Dict.set "text" (JStr ("write " +:+ dquote +:+ escaped_path +:+ dquote)) box_data)
      else Ok box_data
  | _ => Ok box_data
  end.

(** The body of the first loop, which yields the value appended to
    [boxes].  The copy is changed through [box_data] when it has the key
    ["box"]; otherwise [box_data] is a dictionary of its own. *)
Definition inject_helper_box (id_map : list (string * string)) (validation_path : Path)
  (helper_box : json) : result json :=
  match helper_box with
  | JDict cloned =>
      match Dict.get "box" cloned with
      | Some (JDict box_data) =>
          let* box_data := inject_box_data id_map validation_path box_data in
          Ok (JDict (Dict.set "box" (JDict box_data) cloned))
      | Some _ => Raise (AttributeError "object has no attribute 'get'")
      | None =>
          let* _ := inject_box_data id_map validation_path [] in
          Ok helper_box
      end
  | _ => Raise (AttributeError "object has no attribute 'get'")
  end.

(** [source] or [destination] after the statements under
    [if isinstance(source, list) and source]. *)
Definition remap_port (id_map : list (string * string)) (port : json) : result json :=
  match port with
  | JList (first :: rest) =>
      let* mapped := id_map_get id_map first in
      match mapped with
      | Some new_id => if String.eqb new_id "" then Ok port else Ok (JList (JStr new_id :: rest))
      | None => Ok port
      end
  | _ => Ok port
  end.

(** The statements of the second loop that change [patchline]. *)
Definition inject_patchline (id_map : list (string * string)) (patchline : pydict)
  : result pydict :=
  let source := Dict.get "source" patchline in
  let destination := Dict.get "destination" patchline in
  let* patchline :=
    match source with
    | Some source =>
        let* source := remap_port id_map source in
        Ok (Dict.set "source" source patchline)
    | None => Ok patchline
    end in
  match destination with
  | Some destination =>
      let* destination := remap_port id_map destination in
      Ok (Dict.set "destination" destination patchline)
  | None => Ok patchline
  end.

(** The body of the second loop, which yields the value appended to
    [lines]. *)
Definition inject_helper_line (id_map : list (string * string)) (helper_line : json)
  : result json :=
  match helper_line with
  | JDict cloned =>
      match Dict.get "patchline" cloned with
      | Some (JDict patchline) =>
          let* patchline := inject_patchline id_map patchline in
          Ok (JDict (Dict.set "patchline" (JDict patchline) cloned))
      | Some _ => Raise (AttributeError "object has no attribute 'get'")
      | None => Ok helper_line
      end
  | _ => Raise (AttributeError "object has no attribute 'get'")
  end.

(** [_inject_validation_helper].  The function changes [patch_dict] in
    place and returns nothing: the result here is the dictionary when the
    function returns (when it raises, its caller drops the dictionary).
    [loaded] is the outcome of the [try] block that reads the helper library
    from [_IMPORT_TOOLS_PATH]: the value read or the exception raised. *)
Definition _inject_validation_helper (_IMPORT_TOOLS_PATH : Path) (loaded : result json)
  (patch_dict : json) (validation_path : Path) : result json :=
  let* patcher := py_get patch_dict "patcher" JNull in
  match patch_dict, patcher with
  | JDict patch_fields, JDict patcher =>
      let patcher :=
        if Dict.mem "boxes" patcher then patcher else Dict.set "boxes" (JList []) patcher in
      let patcher :=
        if Dict.mem "lines" patcher then patcher else Dict.set "lines" (JList []) patcher in
      match Dict.get "boxes" patcher, Dict.get "lines" patcher with
      | Some (JList boxes), Some (JList lines) =>
          let* helper_tools :=
            match loaded with
            | Ok helper_tools => Ok helper_tools
            | Raise exc =>
                if isinstance exc "Exception" then
                  Raise (ValidationError ("failed to load import tools from "
                                          +:+ PathLib.str _IMPORT_TOOLS_PATH
                                          +:+ ": " +:+ exc_str exc))
                else Raise exc
            end in
          let* helper_boxes := py_get helper_tools "boxes" (JList []) in
          let* helper_lines := py_get helper_tools "lines" (JList []) in
          let* id_map := build_helper_id_map_of boxes helper_boxes in
          let* helper_boxes := py_iter helper_boxes in
          let* new_boxes := collect (inject_helper_box id_map validation_path) helper_boxes in
          let* helper_lines := py_iter helper_lines in
          let* new_lines := collect (inject_helper_line id_map) helper_lines in
          let patcher := Dict.set "boxes" (JList (boxes ++ new_boxes)) patcher in
          let patcher := Dict.set "lines" (JList (lines ++ new_lines)) patcher in
          Ok (JDict (Dict.set "patcher" (JDict patcher) patch_fields))
      | _, _ =>
          Raise (ValidationError "invalid patch format: patcher boxes/lines must be arrays")
      end
  | _, _ =>
      Raise (ValidationError "invalid patch format: missing top-level patcher dictionary")
  end.

(** ** [main.py]: the [delete] and [export-amxd] commands *)

(** Modelled from the spec: two more members of the graph engine (section 6
    of the specification), the number of objects of a patch and the deletion
    of objects and connections, which returns the patch after the change. *)
Class GraphMutations {engine : GraphEngine} : Type := {
  num_objs : MaxPatch -> Z;
  patch_delete : MaxPatch -> list string -> list (Outlet * Inlet) -> bool -> M MaxPatch
}.

Section Commands.
Context {engine : GraphEngine} {rt : PyRuntime} {validation : MaxValidation}
        {mutations : GraphMutations}.
Open Scope io_scope.

(** The body of the loop [for selector in selectors]. *)
Definition resolve_label (patch : MaxPatch) (selector : string) : result string :=
  let* (label, _) := resolve_selector patch selector in
  Ok label.

(** The body of the loop [for edge in edges] of [delete_command]. *)
Definition resolve_cord (patch : MaxPatch) (edge : string) : result (Outlet * Inlet) :=
  let* (src_selector, src_index, dst_selector, dst_index) := parse_edge edge in
  let* (_, outlet) := resolve_outlet patch src_selector src_index in
  let* (_, inlet) := resolve_inlet patch dst_selector dst_index in
  Ok (outlet, inlet).

(** The closure [_action] of [delete_command]. *)
Definition delete_action (ctx_cfg : CLIContext) (input_path : Path)
  (output_path : option Path) (selectors edges : list string) : M (option pydict) :=
  let empty {A} (l : list A) := match l with [] => true | _ => false end in
  if empty selectors && empty edges then
    raise (UsageError "delete requires at least one --obj or --edge")
  else
    do patch <- load_patch input_path (verbose ctx_cfg);
    do resolved_output <-
      lift (resolve_output_path (Some input_path) output_path (in_place ctx_cfg) false);
    do object_ids <- lift (collect (resolve_label patch) selectors);
    let dedup_ids := map fst (dict_fromkeys object_ids) in
    do cords <- lift (collect (resolve_cord patch) edges);
    do patch <- patch_delete patch dedup_ids cords (verbose ctx_cfg);
    _finalize_mutation ctx_cfg patch input_path resolved_output
      "deleted requested objects/edges"
      [("deleted_objects", JInt (Py.len dedup_ids)); ("deleted_edges", JInt (Py.len cords))]
      (JDict [("deleted_object_ids", JList (map JStr dedup_ids));
              ("deleted_edges", JInt (Py.len cords))])
      (JStr "maxpylang.cli.delete.data.v1").

Definition delete_command (ctx_cfg : CLIContext) (input_path : Path)
  (output_path : option Path) (selectors edges : list string) : world -> outcome * world :=
  _run_command ctx_cfg "delete" (delete_action ctx_cfg input_path output_path selectors edges).

(** The closure [_action] of [export_amxd_command]. *)
Definition export_amxd_action (ctx_cfg : CLIContext) (input_path output_path : Path)
  (validate : bool) (timeout : json) (overwrite : bool) : M (option pydict) :=
  do patch <- load_patch input_path (verbose ctx_cfg);
  let health := collect_patch_health patch in
  do _ <- lift (strict_guard (strict ctx_cfg) health);
  do export_data <- export_amxd_file patch output_path overwrite validate timeout;
  let message := "exported .amxd" in
  do validated <- (match Dict.get "validated" export_data with
                   | Some v => ret v
                   | None => raise (KeyError "'validated'")
                   end);
  let message :=
    if truthy validated then message +:+ " and validated in Max"
    else if validate then message +:+ " (validation requested)"
    else message +:+ " (validation skipped)" in
  ret (Some [ ("message", JStr message);
              ("input", JStr (PathLib.str input_path));
              ("output", JStr (PathLib.str output_path));
              ("changes", JDict [("objects", JInt (num_objs patch)); ("exported", JInt 1)]);
              ("warnings", JList (map JStr health));
              ("data", JDict export_data);
              ("data_schema", JStr "maxpylang.cli.export_amxd.data.v1") ]).

Definition export_amxd_command (ctx_cfg : CLIContext) (input_path output_path : Path)
  (validate : bool) (timeout : json) (overwrite : bool) : world -> outcome * world :=
  _run_command ctx_cfg "export-amxd"
    (export_amxd_action ctx_cfg input_path output_path validate timeout overwrite).

End Commands.

(* ================================================================== *)
(** * Part II: the vocabulary of the properties *)
(* ================================================================== *)

(** ** Texts of errors *)

(** The message of an error names a text when the text occurs in it. *)
Definition names (msg text : string) : Prop :=
  exists before after, msg = before +:+ text +:+ after.

(** What [parse_endpoint] does once the text is cut at its last colon. *)
Definition endpoint_outcome (endpoint selector raw_index : string) : result (string * Z) :=
  if String.eqb (Py.strip selector) "" then
    Raise (UsageError ("endpoint '" +:+ endpoint +:+ "' has an empty selector"))
  else
    match Py.int (Py.strip raw_index) with
    | None => Raise (UsageError ("endpoint '" +:+ endpoint +:+ "' index must be an integer"))
    | Some index =>
        if index <? 0
        then Raise (UsageError ("endpoint '" +:+ endpoint +:+ "' index must be >= 0"))
        else Ok (Py.strip selector, index)
    end.

(** The text of the error for a port index that is too large. *)
Definition out_of_range (kind label : string) (index count : Z) : string :=
  kind +:+ " index " +:+ Py.str_of_int index +:+ " out of range for " +:+ label
  +:+ " (" +:+ Py.str_of_int count +:+ " " +:+ kind +:+ "(s))".

(** ** Decimal digits *)

(** The value of a digit sequence read from the left with [acc] as the value
    of the digits read before. *)
Fixpoint uint_val (d : Decimal.uint) (acc : Z) : Z :=
  match d with
  | Decimal.Nil => acc
  | Decimal.D0 l => uint_val l (10 * acc)
  | Decimal.D1 l => uint_val l (10 * acc + 1)
  | Decimal.D2 l => uint_val l (10 * acc + 2)
  | Decimal.D3 l => uint_val l (10 * acc + 3)
  | Decimal.D4 l => uint_val l (10 * acc + 4)
  | Decimal.D5 l => uint_val l (10 * acc + 5)
  | Decimal.D6 l => uint_val l (10 * acc + 6)
  | Decimal.D7 l => uint_val l (10 * acc + 7)
  | Decimal.D8 l => uint_val l (10 * acc + 8)
  | Decimal.D9 l => uint_val l (10 * acc + 9)
  end.

(** No character of the text is white space for [int]. *)
Definition no_int_space (s : string) : Prop :=
  Forall (fun c => Py.int_space c = false) (list_ascii_of_string s).

(** ** Identifiers of boxes *)

(** The number that [_next_object_index] reads off an identifier: the text
    after the prefix [obj-] when [int] accepts it. *)
Definition numeric_suffix (id : string) : option Z :=
  if Py.startswith "obj-" id then Py.int (Py.drop 4 id) else None.

(** The entry is a box whose identifier is a string with numeric suffix [n]. *)
Definition has_suffix (entry : json) (n : Z) : Prop :=
  exists id, box_id entry = Ok (JStr id) /\ numeric_suffix id = Some n.

(** [m] is the largest numeric suffix among the identifiers of [boxes], and
    zero when there is none above zero. *)
Definition max_suffix (boxes : list json) (m : Z) : Prop :=
  0 <= m
  /\ (forall entry n, In entry boxes -> has_suffix entry n -> n <= m)
  /\ (m = 0 \/ exists entry, In entry boxes /\ has_suffix entry m).

(** The entry is a dictionary whose ["box"] value, when present, is a
    dictionary: reading its identifier does not fail. *)
Definition is_box (entry : json) : Prop := exists v, box_id entry = Ok v.

(** The identifiers numbered [first], [first + 1], ... *)
Definition fresh_ids (first : Z) (k : nat) : list string :=
  map (fun i => "obj-" +:+ Py.str_of_int (first + Z.of_nat i)) (seq 0 k).

(** The numeric suffix of the identifier of an entry, as a function. *)
Definition suffix_of (entry : json) : option Z :=
  match box_id entry with
  | Ok (JStr id) => numeric_suffix id
  | _ => None
  end.

(** One turn of the loop of [_next_object_index]. *)
Definition max_step (acc : Z) (entry : json) : Z :=
  match suffix_of entry with
  | Some n => Z.max acc n
  | None => acc
  end.

(** A box entry with the given fields. *)
Definition mk_box (fields : pydict) : json := JDict [("box", JDict fields)].

(** ** Schema identifiers as the specification words them *)

(** The schema identifier as the specification words it: the command name
    in lower case, spaces and hyphens replaced by the separator. *)
Definition schema_key_lowercased (command kind : string) : string :=
  let normalized := Py.replace "-" "_" (Py.replace " " "_" (Py.lower command)) in
  "maxpylang.cli." +:+ normalized +:+ "." +:+ kind +:+ ".v1".

(** A space or a hyphen becomes the separator; any other character stays. *)
Definition to_separator (c : ascii) : ascii :=
  if Ascii.eqb c " " || Ascii.eqb c "-" then "_"%char else c.

(** The text with [f] applied to each character. *)
Fixpoint map_chars (f : ascii -> ascii) (s : string) : string :=
  match s with
  | EmptyString => EmptyString
  | String c r => String (f c) (map_chars f r)
  end.

(** ** Running a command *)

(** The argument checks at the start of [connect_command] pass. *)
Definition connect_args_ok (edges from_endpoints to_endpoints : list string) : Prop :=
  (edges <> [] \/ from_endpoints <> []) /\ length from_endpoints = length to_endpoints.

(** The world in which the handlers of [_run_command] run when the action
    has raised: in JSON mode the captured text is dropped and standard
    output is what it was before the action. *)
Definition world_after_failure (ctx_cfg : CLIContext) (w wa : world) : world :=
  if json_output ctx_cfg then set_stdout (w_stdout w) wa else wa.

(** The world in which the action runs: in JSON mode standard output is a
    fresh buffer. *)
Definition action_world (ctx_cfg : CLIContext) (w : world) : world :=
  if json_output ctx_cfg then set_stdout "" w else w.

Section Vocabulary.
Context {engine : GraphEngine} {rt : PyRuntime} {validation : MaxValidation}.

(** The objects whose alias field equals [alias], in the iteration order of
    the mapping. *)
Definition alias_matches_of (patch : MaxPatch) (alias : string)
  : list (string * MaxObject Inlet Outlet) :=
  List.filter (fun kv => alias_matches alias (snd kv)) (objs patch).

(** The selector leads to a lookup of [alias]: its trimmed text is not empty
    and not a key, and it is either [@alias:<name>] with a non-empty trimmed
    name, or a bare token without the prefix [obj-]. *)
Definition selects_alias (patch : MaxPatch) (selector alias : string) : Prop :=
  let s := Py.strip selector in
  s <> "" /\ Dict.get s (objs patch) = None /\
  ((Py.startswith "@alias:" s = true /\ alias = Py.strip (Py.drop 7 s) /\ alias <> "")
   \/ (Py.startswith "@alias:" s = false /\ Py.startswith "obj-" s = false /\ alias = s)).

(** The pipeline reports [error] with exit code [code]: the envelope is
    emitted and [SystemExit(code)] is raised. *)
Definition reports (ctx_cfg : CLIContext) (command : string) (action : M (option pydict))
  (w w1 : world) (error : exn) (code : Z) : Prop :=
  _run_command ctx_cfg command action w =
    (SystemExit code, snd (emit_error ctx_cfg command error code w1)).

(** The pipeline reports the failure [exc] under the class name [cls] with
    exit code [code]: the error of the envelope has that class, the message
    of [exc] and that code. *)
Definition wrapped_as (ctx_cfg : CLIContext) (command : string) (action : M (option pydict))
  (w w1 : world) (exc : exn) (cls : string) (code : Z) : Prop :=
  exists error, type_name error = cls /\ exc_str error = exc_str exc
                /\ exit_code error = Some code
                /\ reports ctx_cfg command action w w1 error code.

(** The failure [exc] leaves the pipeline: nothing is reported. *)
Definition unhandled (ctx_cfg : CLIContext) (command : string) (action : M (option pydict))
  (w w1 : world) (exc : exn) : Prop :=
  _run_command ctx_cfg command action w = (Propagated exc, w1).

(** What [export_amxd_file] does after [_write_patch_json]. *)
Definition after_write (normalized_output : Path) (validate : bool) (timeout : json)
  : M pydict :=
  (do resolved_timeout <-
     (if validate || negb (match timeout with JNull => true | _ => false end)
      then do t <- resolve_validation_timeout timeout; ret (Some t)
      else ret None);
   do max_app_path <-
     (if validate then
        do app <- resolve_max_app_path;
        do _ <- run_max_validation normalized_output app resolved_timeout;
        ret (Some app)
      else ret None);
   ret [ ("validated", JBool validate);
         ("validation_requested", JBool validate);
         ("max_app_path", match max_app_path with
                          | Some app => JStr (PathLib.str app)
                          | None => JNull
                          end);
         ("timeout_seconds", match resolved_timeout with
                             | Some t => JFloat t
                             | None => JNull
                             end);
         ("output_extension", JStr ".amxd") ])%io.

End Vocabulary.

(** ** Test doubles of [tests/test_resolve.py] *)

(** [_FakePatch(objs)] with objects [_FakeObject(alias)]: the patch is its
    mapping and a port is an opaque object.  Loading yields a patch of two
    objects; connecting prints a line and saving writes a file, so that a
    call of either shows in the world. *)
Definition _FakeObject (alias : json) (n_ins n_outs : nat) : MaxObject unit unit :=
  mk_obj (Some [("varname", alias)]) (repeat tt n_ins) (repeat tt n_outs).

#[local] Instance fake_engine : GraphEngine := {|
  Inlet := unit;
  Outlet := unit;
  MaxPatch := list (string * MaxObject unit unit);
  objs := fun p => p;
  get_unknowns := fun _ => [];
  get_js_unlinked := fun _ => [];
  get_abstractions := fun _ => [];
  get_json := fun p => JDict [("patcher", JDict [("boxes", JList []); ("lines", JList [])])];
  load_file := fun _ _ =>
    ret [("obj-1", _FakeObject (JStr "osc") 1 1); ("obj-2", _FakeObject JNull 2 1)];
  connect := fun p _ _ => mbind (echo "connect") (fun _ => ret p);
  save := fun _ filename w =>
    (Ok tt, set_fs (<[ [filename] := File "saved" ]> (w_fs w)) w)
|}.

(** A runtime for examples: the abstract library functions return fixed
    texts. *)
Definition stub_runtime : PyRuntime :=
  {| json_dumps := fun _ => "{}"; str_other := fun _ => "?"; float_of_str := fun _ => None |}.

(** A validation for examples: the editor is found at once and accepts
    every file; each step leaves a line on standard output. *)
Definition stub_validation : MaxValidation :=
  {| resolve_max_app_path := mbind (echo "resolve") (fun _ => ret ["Applications"; "Max.app"]);
     run_max_validation := fun _ _ _ => echo "validate" |}.

(** A world for examples: an empty file system, nothing printed, the
    wait time of the configuration store set to a text. *)
Definition demo_world : world :=
  mk_world ∅ "" [("wait_time", JStr "soon")] "2026-01-01T00:00:00+00:00".

(** The global flags with only [--json] set or not. *)
Definition demo_ctx (json_mode : bool) : CLIContext := mk_ctx json_mode false false false.

(** ** Vocabulary and test doubles of the further properties *)

(** ** Values given on the command line *)

(** The key of an attribute [key=value]: the trimmed text before the first
    equals sign. *)
Definition attr_key (item : string) : string := Py.strip (hd "" (Py.split1 "=" item)).

(** The attribute has an equals sign and a key that is not blank. *)
Definition attr_ok (item : string) : Prop :=
  Py.contains "=" item = true /\ attr_key item <> "".

(** The keys that [config_get] and [config_set] know. *)
Definition config_keys : list string := ["max_path"; "max_refpath"; "packages_path"; "wait_time"].

(** A configuration store for examples: each setter writes its key of the
    constants. *)
Definition store_constant (key : string) (value : json) : M unit :=
  fun w => (Ok tt, mk_world (w_fs w) (w_stdout w) (Dict.set key value (w_constants w))
                            (w_clock w)).

Definition store_setters : ConfigSetters :=
  {| set_constant := store_constant;
     set_max_path := fun value => store_constant "max_refpath" (JStr (value +:+ _MAX_REFPATH_SUFFIX));
     set_packages_path := fun value => store_constant "packages_path" (JStr value);
     set_wait_time := fun value => store_constant "wait_time" (JFloat value) |}.

(** ** The order of a listing *)

(** The key of a label as a function: [_sort_key] never fails. *)
Definition sort_key_of (label : string) : sort_key :=
  match numeric_suffix label with
  | Some index => Numbered index
  | None => Labelled label
  end.

(** [a <= b] on keys: [b < a] does not hold. *)
Definition key_le (a b : sort_key) : Prop := key_lt b a = false.

(** The warning that [_run_command] adds for captured diagnostics. *)
Definition diagnostics_summary (diagnostics : list string) : string :=
  Py.str_of_int (Py.len diagnostics) +:+ " internal diagnostic line(s) captured".

(** A graph engine for examples that extends [fake_engine]: deleting prints
    a line and removes the named objects from the mapping. *)
Definition fake_mutations : GraphMutations (engine := fake_engine) :=
  @Build_GraphMutations fake_engine
    (fun p : list (string * MaxObject unit unit) => Py.len p)
    (fun (p : list (string * MaxObject unit unit)) ids _ _ =>
       mbind (echo "delete")
             (fun _ => ret (List.filter (fun kv => negb (py_in (fst kv) ids)) p))).

(** A graph engine for examples in which every object of a patch is
    unknown; otherwise it is [fake_engine]. *)
Definition unknown_engine : GraphEngine :=
  {| Inlet := unit;
     Outlet := unit;
     MaxPatch := list (string * MaxObject unit unit);
     objs := fun p => p;
     get_unknowns := fun p => p;
     get_js_unlinked := fun _ => [];
     get_abstractions := fun _ => [];
     get_json := fun p => JDict [("patcher", JDict [("boxes", JList []); ("lines", JList [])])];
     load_file := fun _ _ => ret [("obj-1", _FakeObject (JStr "osc") 1 1)];
     connect := fun p _ _ => mbind (echo "connect") (fun _ => ret p);
     save := fun _ filename w =>
       (Ok tt, set_fs (<[ [filename] := File "saved" ]> (w_fs w)) w) |}.

(** A world for examples with one patch file. *)
Definition patch_world : world :=
  set_fs (<[ ["a.maxpat"] := File "{}" ]> ∅) demo_world.

(** ** What a computation leaves alone *)

(** From [w] to [w'] only standard output has changed, by text added at its
    end. *)
Definition only_printed (w w' : world) : Prop :=
  w_fs w' = w_fs w /\ w_constants w' = w_constants w /\ w_clock w' = w_clock w
  /\ exists text, w_stdout w' = w_stdout w +:+ text.

(** The computation only prints. *)
Definition prints_only {A} (m : M A) : Prop := forall w, only_printed w (snd (m w)).

(** From [w] to [w'] every node of the file system other than [target] is
    still there, and standard output and the configuration are the same. *)
Definition keeps_other_files (target : Path) (w w' : world) : Prop :=
  (forall q node, w_fs w !! q = Some node -> q <> target -> w_fs w' !! q = Some node)
  /\ w_stdout w' = w_stdout w /\ w_constants w' = w_constants w.

(** ** The patch document *)

(** [patch_dict["patcher"][key]], when the document has that shape. *)
Definition patcher_field (key : string) (patch_dict : json) : option json :=
  match patch_dict with
  | JDict fields =>
      match Dict.get "patcher" fields with
      | Some (JDict patcher) => Dict.get key patcher
      | _ => None
      end
  | _ => None
  end.

(** The list under [patch_dict["patcher"][key]]; empty when the key is
    missing. *)
Definition patcher_list (key : string) (patch_dict : json) : list json :=
  match patcher_field key patch_dict with
  | Some (JList l) => l
  | _ => []
  end.

(** [entry["box"][key]] and [entry["patchline"][key]], when the entry has
    that shape. *)
Definition entry_field (kind key : string) (entry : json) : option json :=
  match entry with
  | JDict fields =>
      match Dict.get kind fields with
      | Some (JDict inner) => Dict.get key inner
      | _ => None
      end
  | _ => None
  end.

(** The text of the helper box that writes the validation copy. *)
Definition write_text_for (validation_path : Path) : string :=
  "write " +:+ dquote
  +:+ Py.replace dquote (backslash +:+ dquote)
        (Py.replace backslash (backslash +:+ backslash) (PathLib.str validation_path))
  +:+ dquote.

(** The identifier that [id_map] gives to [old]; [old] itself when the map
    has no entry for it. *)
Definition remapped (id_map : list (string * string)) (old : string) : string :=
  Dict.get_default old old id_map.

(** A helper library and a patch document for examples: two helper boxes,
    the first of which writes the file, and a line from the second to the
    first; a patch with one box. *)
Definition demo_tools : json :=
  JDict [("boxes",
          JList [JDict [("box", JDict [("id", JStr "obj-1"); ("text", JStr "write")])];
                 JDict [("box", JDict [("id", JStr "obj-2"); ("text", JStr "loadbang")])]]);
         ("lines",
          JList [JDict [("patchline",
                         JDict [("source", JList [JStr "obj-2"; JInt 0]);
                                ("destination", JList [JStr "obj-1"; JInt 0])])]])].

Definition demo_patch : json :=
  JDict [("patcher", JDict [("boxes", JList [JDict [("box", JDict [("id", JStr "obj-7")])]])])].

(* ================================================================== *)
(** * Part III: properties *)
(* ================================================================== *)

(** ** Strings *)

Lemma startswith_app (p r : string) : Py.startswith p (p +:+ r) = true.
Proof.
  induction p as [|c p IH]; simpl; [reflexivity|].
  rewrite Ascii.eqb_refl. exact IH.
Qed.

Lemma startswith_inv (p s : string) :
  Py.startswith p s = true -> exists r, s = p +:+ r.
Proof.
  revert s. induction p as [|c p IH]; intros s H; simpl in *.
  - exists s. reflexivity.
  - destruct s as [|d s]; [discriminate|].
    apply andb_prop in H as [Hc Hp]. apply Ascii.eqb_eq in Hc. subst d.
    destruct (IH _ Hp) as [r ->]. exists r. reflexivity.
Qed.

Lemma drop_app (p r : string) : Py.drop (String.length p) (p +:+ r) = r.
Proof. induction p as [|c p IH]; simpl; [destruct r; reflexivity | exact IH]. Qed.

Lemma append_assoc (a b c : string) : (a +:+ b) +:+ c = a +:+ (b +:+ c).
Proof. induction a as [|x a IH]; simpl; [reflexivity | now rewrite IH]. Qed.

Lemma append_nil_r (a : string) : a +:+ "" = a.
Proof. induction a as [|x a IH]; simpl; [reflexivity | now rewrite IH]. Qed.

Lemma length_append (a b : string) :
  String.length (a +:+ b) = (String.length a + String.length b)%nat.
Proof. induction a as [|x a IH]; simpl; [reflexivity | now rewrite IH]. Qed.

Lemma startswith_contains (sub s : string) :
  Py.startswith sub s = true -> Py.contains sub s = true.
Proof. intros H. destruct s; simpl; rewrite H; reflexivity. Qed.

(** [sub in s] holds exactly when [s] can be cut around an occurrence. *)
Lemma contains_iff (sub s : string) :
  Py.contains sub s = true <-> exists a b, s = a +:+ sub +:+ b.
Proof.
  split.
  - induction s as [|c s IH]; simpl; intros H.
    + rewrite orb_false_r in H. apply startswith_inv in H as [r ->].
      exists "", r. reflexivity.
    + apply orb_prop in H as [H|H].
      * apply startswith_inv in H as [r ->]. exists "", r. reflexivity.
      * destruct (IH H) as (a & b & ->). exists (String c a), b. reflexivity.
  - intros (a & b & ->). induction a as [|c a IH].
    + simpl. apply startswith_contains, startswith_app.
    + simpl. rewrite IH. apply orb_true_r.
Qed.

Lemma contains_startswith (sub s : string) :
  Py.contains sub s = false -> Py.startswith sub s = false.
Proof. destruct s; simpl; intros H; apply orb_false_elim in H; tauto. Qed.

Lemma split1_absent (sep s : string) :
  Py.contains sep s = false -> Py.split1 sep s = [s].
Proof.
  induction s as [|c s IH]; intros H; pose proof (contains_startswith _ _ H) as Hs.
  - simpl in *. now rewrite Hs.
  - simpl in H. apply orb_false_elim in H as [_ H].
    cbn [Py.split1]. rewrite Hs, (IH H). reflexivity.
Qed.

(** [split(sep, 1)] cuts at the first occurrence: the part before the cut is
    the shortest one possible. *)
Lemma split1_first (sep a b : string) :
  (forall a' b', a +:+ sep +:+ b = a' +:+ sep +:+ b' ->
                 (String.length a <= String.length a')%nat) ->
  Py.split1 sep (a +:+ sep +:+ b) = [a; b].
Proof.
  induction a as [|c a IH]; intros Hmin.
  - change ("" +:+ sep +:+ b) with (sep +:+ b).
    destruct (sep +:+ b) eqn:E; simpl; rewrite <- E, startswith_app, drop_app; reflexivity.
  - change (String c a +:+ sep +:+ b) with (String c (a +:+ sep +:+ b)).
    cbn [Py.split1].
    destruct (Py.startswith sep (String c (a +:+ sep +:+ b))) eqn:E.
    + apply startswith_inv in E as [r E].
      specialize (Hmin "" r). simpl in Hmin. specialize (Hmin E). simpl in Hmin. lia.
    + rewrite IH; [reflexivity|].
      intros a' b' Heq. specialize (Hmin (String c a') b'). simpl in Hmin.
      rewrite Heq in Hmin. specialize (Hmin eq_refl). lia.
Qed.

Lemma split1_present (sep s : string) :
  Py.contains sep s = true ->
  exists a b, Py.split1 sep s = [a; b] /\ s = a +:+ sep +:+ b.
Proof.
  induction s as [|c s IH]; intros H.
  - destruct sep; simpl in H; [|discriminate]. exists "", "". split; reflexivity.
  - cbn [Py.split1]. destruct (Py.startswith sep (String c s)) eqn:E.
    + destruct (startswith_inv _ _ E) as [r Hr]. rewrite Hr, drop_app.
      exists "", r. split; reflexivity.
    + simpl in H. rewrite E in H. simpl in H.
      destruct (IH H) as (a & b & -> & ->). exists (String c a), b. split; reflexivity.
Qed.

Lemma rsplit1_absent (sep s : string) :
  Py.contains sep s = false -> Py.rsplit1 sep s = [s].
Proof.
  induction s as [|c s IH]; intros H; [reflexivity|].
  pose proof (contains_startswith _ _ H) as Hs.
  simpl in H. apply orb_false_elim in H as [_ H].
  cbn [Py.rsplit1]. rewrite (IH H), Hs. reflexivity.
Qed.

(** [rsplit(":", 1)] cuts at the last colon. *)
Lemma rsplit1_last_colon (a b : string) :
  Py.contains ":" b = false -> Py.rsplit1 ":" (a +:+ ":" +:+ b) = [a; b].
Proof.
  intros Hb. induction a as [|c a IH].
  - change ("" +:+ ":" +:+ b) with (String ":" b). cbn [Py.rsplit1].
    rewrite (rsplit1_absent _ _ Hb). destruct b; reflexivity.
  - change (String c a +:+ ":" +:+ b) with (String c (a +:+ ":" +:+ b)).
    cbn [Py.rsplit1]. rewrite IH. reflexivity.
Qed.

Lemma rsplit1_present (sep s : string) :
  sep <> "" -> Py.contains sep s = true ->
  exists a b, Py.rsplit1 sep s = [a; b] /\ s = a +:+ sep +:+ b.
Proof.
  intros Hsep. induction s as [|c s IH]; intros H.
  - destruct sep; [congruence | discriminate].
  - cbn [Py.rsplit1]. destruct (Py.contains sep s) eqn:Hs.
    + destruct (IH eq_refl) as (a & b & -> & ->). exists (String c a), b.
      split; reflexivity.
    + rewrite (rsplit1_absent _ _ Hs).
      simpl in H. rewrite Hs, orb_false_r in H.
      destruct (startswith_inv _ _ H) as [r Hr]. rewrite H, Hr, drop_app.
      exists "", r. split; [destruct s|]; reflexivity.
Qed.

Lemma names_intro (before text after : string) : names (before +:+ text +:+ after) text.
Proof. exists before, after. reflexivity. Qed.

(** ** [parse_endpoint] and [parse_edge] *)

Lemma parse_endpoint_no_colon (endpoint : string) :
  Py.contains ":" endpoint = false ->
  parse_endpoint endpoint =
    Raise (UsageError ("endpoint '" +:+ endpoint +:+ "' must be formatted as <selector>:<index>")).
Proof. intros H. unfold parse_endpoint. rewrite H. reflexivity. Qed.

Lemma parse_endpoint_last_colon (selector raw_index : string) :
  Py.contains ":" raw_index = false ->
  parse_endpoint (selector +:+ ":" +:+ raw_index) =
    endpoint_outcome (selector +:+ ":" +:+ raw_index) selector raw_index.
Proof.
  intros H. unfold parse_endpoint.
  assert (Hc : Py.contains ":" (selector +:+ ":" +:+ raw_index) = true)
    by (apply contains_iff; eauto).
  rewrite Hc, (rsplit1_last_colon _ _ H). reflexivity.
Qed.

Lemma endpoint_outcome_cases (endpoint selector raw_index : string) :
  (exists index, endpoint_outcome endpoint selector raw_index = Ok (Py.strip selector, index)
                 /\ Py.strip selector <> "" /\ Py.int (Py.strip raw_index) = Some index
                 /\ 0 <= index)
  \/ (exists msg, endpoint_outcome endpoint selector raw_index = Raise (UsageError msg)
                  /\ names msg endpoint
                  /\ (Py.strip selector = ""
                      \/ Py.int (Py.strip raw_index) = None
                      \/ exists index, Py.int (Py.strip raw_index) = Some index /\ index < 0)).
Proof.
  unfold endpoint_outcome.
  destruct (String.eqb (Py.strip selector) "") eqn:Es.
  - right. apply String.eqb_eq in Es. eexists. split; [reflexivity|].
    split; [apply names_intro | auto].
  - apply String.eqb_neq in Es.
    destruct (Py.int (Py.strip raw_index)) as [index|] eqn:Ei.
    + destruct (index <? 0) eqn:En.
      * right. apply Z.ltb_lt in En. eexists. split; [reflexivity|].
        split; [apply names_intro | eauto].
      * left. apply Z.ltb_ge in En. exists index. auto.
    + right. eexists. split; [reflexivity|]. split; [apply names_intro | auto].
Qed.

Lemma endpoint_outcome_ok (endpoint selector raw_index : string) (index : Z) :
  Py.strip selector <> "" -> Py.int (Py.strip raw_index) = Some index -> 0 <= index ->
  endpoint_outcome endpoint selector raw_index = Ok (Py.strip selector, index).
Proof.
  intros Hs Hi Hn. unfold endpoint_outcome.
  apply String.eqb_neq in Hs. rewrite Hs, Hi.
  apply Z.ltb_ge in Hn. rewrite Hn. reflexivity.
Qed.

Lemma endpoint_outcome_error (endpoint selector raw_index : string) :
  Py.strip selector = "" \/ Py.int (Py.strip raw_index) = None
  \/ (exists index, Py.int (Py.strip raw_index) = Some index /\ index < 0) ->
  exists msg, endpoint_outcome endpoint selector raw_index = Raise (UsageError msg)
              /\ names msg endpoint.
Proof.
  intros H.
  destruct (endpoint_outcome_cases endpoint selector raw_index)
    as [(index & _ & Hs & Hi & Hn) | (msg & -> & Hm & _)]; [|eauto].
  destruct H as [H | [H | (i & H & Hneg)]]; congruence || (rewrite Hi in H; inversion H; lia).
Qed.

(** [parse_endpoint] either returns a non-empty trimmed selector with an
    index that is not negative, or raises [UsageError] naming its input. *)
Lemma parse_endpoint_total (endpoint : string) :
  (exists selector index,
      parse_endpoint endpoint = Ok (Py.strip selector, index)
      /\ Py.strip selector <> "" /\ 0 <= index)
  \/ (exists msg, parse_endpoint endpoint = Raise (UsageError msg) /\ names msg endpoint).
Proof.
  destruct (Py.contains ":" endpoint) eqn:Hc.
  - destruct (rsplit1_present ":" endpoint ltac:(discriminate) Hc) as (a & b & Hsplit & _).
    assert (E : parse_endpoint endpoint = endpoint_outcome endpoint a b).
    { unfold parse_endpoint. rewrite Hc, Hsplit. reflexivity. }
    rewrite E.
    destruct (endpoint_outcome_cases endpoint a b)
      as [(index & -> & Hs & _ & Hn) | (msg & -> & Hm & _)]; [left | right]; eauto.
  - right. rewrite (parse_endpoint_no_colon _ Hc).
    eexists. split; [reflexivity | apply names_intro].
Qed.

Lemma parse_edge_no_arrow (edge : string) :
  Py.contains "->" edge = false ->
  parse_edge edge =
    Raise (UsageError ("edge '" +:+ edge
                       +:+ "' must be formatted as <src>:<outlet>-><dst>:<inlet>")).
Proof. intros H. unfold parse_edge. rewrite H. reflexivity. Qed.

Lemma parse_edge_first_arrow (src dst : string) :
  (forall a' b', src +:+ "->" +:+ dst = a' +:+ "->" +:+ b' ->
                 (String.length src <= String.length a')%nat) ->
  parse_edge (src +:+ "->" +:+ dst) =
    (let* (src_selector, src_index) := parse_endpoint src in
     let* (dst_selector, dst_index) := parse_endpoint dst in
     Ok (src_selector, src_index, dst_selector, dst_index)).
Proof.
  intros Hmin. unfold parse_edge.
  assert (Hc : Py.contains "->" (src +:+ "->" +:+ dst) = true)
    by (apply contains_iff; eauto).
  rewrite Hc, (split1_first _ _ _ Hmin). reflexivity.
Qed.

(** C4.  [parse_edge] cuts its input at the first arrow and raises
    [UsageError] when there is none; each side goes through
    [parse_endpoint], which cuts at the last colon, wants a non-empty trimmed
    selector and an integer index that is not negative, and raises
    [UsageError] with a message that names the endpoint otherwise. The edge
    [obj-1:0->obj-2:1] gives [("obj-1", 0, "obj-2", 1)]. *)
Theorem parse_edge_spec :
  parse_edge "obj-1:0->obj-2:1" = Ok ("obj-1", 0, "obj-2", 1)
  /\ (forall edge, Py.contains "->" edge = false ->
        exists msg, parse_edge edge = Raise (UsageError msg))
  /\ (forall src dst,
        (forall a' b', src +:+ "->" +:+ dst = a' +:+ "->" +:+ b' ->
                       (String.length src <= String.length a')%nat) ->
        parse_edge (src +:+ "->" +:+ dst) =
          (let* (src_selector, src_index) := parse_endpoint src in
           let* (dst_selector, dst_index) := parse_endpoint dst in
           Ok (src_selector, src_index, dst_selector, dst_index)))
  /\ (forall endpoint, Py.contains ":" endpoint = false ->
        exists msg, parse_endpoint endpoint = Raise (UsageError msg) /\ names msg endpoint)
  /\ (forall selector raw_index index,
        Py.contains ":" raw_index = false ->
        Py.strip selector <> "" -> Py.int (Py.strip raw_index) = Some index -> 0 <= index ->
        parse_endpoint (selector +:+ ":" +:+ raw_index) = Ok (Py.strip selector, index))
  /\ (forall selector raw_index,
        Py.contains ":" raw_index = false ->
        Py.strip selector = "" \/ Py.int (Py.strip raw_index) = None
        \/ (exists index, Py.int (Py.strip raw_index) = Some index /\ index < 0) ->
        exists msg, parse_endpoint (selector +:+ ":" +:+ raw_index) = Raise (UsageError msg)
                    /\ names msg (selector +:+ ":" +:+ raw_index))
  /\ (forall endpoint,
        (exists selector index,
            parse_endpoint endpoint = Ok (Py.strip selector, index)
            /\ Py.strip selector <> "" /\ 0 <= index)
        \/ (exists msg, parse_endpoint endpoint = Raise (UsageError msg)
                        /\ names msg endpoint)).
Proof.
  split; [reflexivity|].
  split; [intros edge H; rewrite (parse_edge_no_arrow _ H); eauto|].
  split; [exact parse_edge_first_arrow|].
  split.
  { intros endpoint H. rewrite (parse_endpoint_no_colon _ H).
    eexists. split; [reflexivity | apply names_intro]. }
  split.
  { intros selector raw_index index Hc Hs Hi Hn.
    rewrite (parse_endpoint_last_colon _ _ Hc). now apply endpoint_outcome_ok. }
  split; [|exact parse_endpoint_total].
  intros selector raw_index Hc H.
  rewrite (parse_endpoint_last_colon _ _ Hc). now apply endpoint_outcome_error.
Qed.

Lemma parse_edge_spec_witness :
  (exists msg, parse_edge "obj-1:0 obj-2:1" = Raise (UsageError msg))
  /\ parse_edge ("a:0" +:+ "->" +:+ "b:1->c:2") = Ok ("a", 0, "b:1->c", 2)
  /\ (exists msg, parse_endpoint "obj-1" = Raise (UsageError msg) /\ names msg "obj-1")
  /\ parse_endpoint ("@alias:osc " +:+ ":" +:+ " 3") = Ok ("@alias:osc", 3)
  /\ (exists msg, parse_endpoint ("obj-1" +:+ ":" +:+ "-1") = Raise (UsageError msg)
                  /\ names msg ("obj-1" +:+ ":" +:+ "-1")).
Proof.
  destruct parse_edge_spec as (_ & Hno & Hfirst & Hcolon & Hok & Herr & _).
  split; [apply Hno; reflexivity|].
  split.
  { rewrite Hfirst; [reflexivity|].
    intros a' b' H.
    destruct a' as [|c1 [|c2 [|c3 a']]]; simpl in *; try discriminate; lia. }
  split; [apply Hcolon; reflexivity|].
  split; [apply (Hok "@alias:osc " " 3" 3); [reflexivity | discriminate | reflexivity | lia]|].
  apply (Herr "obj-1" "-1"); [reflexivity|].
  right. right. exists (-1). split; [reflexivity | lia].
Defined.

Example strip_ex : Py.strip "  obj-1 	" = "obj-1".
Proof. reflexivity. Qed.
Example split1_ex : Py.split1 "->" "a:0->b:1->c:2" = ["a:0"; "b:1->c:2"].
Proof. reflexivity. Qed.
Example rsplit1_ex : Py.rsplit1 ":" "@alias:osc:3" = ["@alias:osc"; "3"].
Proof. reflexivity. Qed.
Example int_ex : Py.int " +1_0 " = Some 10 /\ Py.int "1__0" = None /\ Py.int "-7" = Some (-7)
                 /\ Py.int "" = None /\ Py.int "0x1" = None.
Proof. repeat split; reflexivity. Qed.
Example str_ex : Py.str_of_int 120 = "120" /\ Py.str_of_int 0 = "0".
Proof. split; reflexivity. Qed.
Example replace_ex : Py.replace "-" "_" "list-objects-x" = "list_objects_x".
Proof. reflexivity. Qed.

Example parse_edge_ex : parse_edge "obj-1:0->obj-2:1" = Ok ("obj-1", 0, "obj-2", 1).
Proof. reflexivity. Qed.
Example parse_edge_ex2 : parse_edge " a : 0 -> @alias:b : 1 " = Ok ("a", 0, "@alias:b", 1).
Proof. reflexivity. Qed.

(** ** [resolve_selector] *)

Section ResolveFacts.
Context {engine : GraphEngine}.

(** C2.  When the trimmed selector is not empty and is a key of
    [patch.objs], [resolve_selector] returns that key and its object,
    whatever the aliases of the objects of the patch are. *)
Theorem resolve_selector_id_wins (patch : MaxPatch) (selector : string)
  (obj : MaxObject Inlet Outlet) :
  Py.strip selector <> "" ->
  Dict.get (Py.strip selector) (objs patch) = Some obj ->
  resolve_selector patch selector = Ok (Py.strip selector, obj).
Proof.
  intros Hne Hget. unfold resolve_selector.
  apply String.eqb_neq in Hne. rewrite Hne, Hget. reflexivity.
Qed.

Lemma alias_form_rest (s : string) :
  Py.startswith "@alias:" s = true ->
  nth_error (Py.split1 ":" s) 1 = Some (Py.drop 7 s).
Proof.
  intros H. destruct (startswith_inv _ _ H) as [r ->]. reflexivity.
Qed.

Lemma alias_lookup_matches (patch : MaxPatch) (alias : string) :
  alias_lookup patch alias =
    match alias_matches_of patch alias with
    | [] => Raise (ObjectResolutionError ("alias not found: " +:+ alias))
    | [m] => Ok m
    | ms => Raise (ObjectResolutionError
                     ("alias '" +:+ alias +:+ "' is ambiguous (matches: "
                      +:+ Py.join ", " (map fst ms) +:+ ")"))
    end.
Proof.
  unfold alias_lookup, alias_matches_of.
  replace (List.filter (fun '(_, obj) => alias_matches alias obj) (objs patch))
    with (List.filter (fun kv => alias_matches alias (snd kv)) (objs patch)).
  - destruct (List.filter _ (objs patch)) as [|m1 [|m2 ms]]; reflexivity.
  - apply List.filter_ext. intros [label obj]. reflexivity.
Qed.

Lemma resolve_selector_alias_lookup (patch : MaxPatch) (selector alias : string) :
  selects_alias patch selector alias ->
  resolve_selector patch selector = alias_lookup patch alias.
Proof.
  intros (Hne & Hget & Hform). unfold resolve_selector.
  apply String.eqb_neq in Hne. rewrite Hne, Hget.
  destruct Hform as [(Hp & -> & Ha) | (Hp & Ho & ->)].
  - rewrite Hp, (alias_form_rest _ Hp). apply String.eqb_neq in Ha. rewrite Ha.
    reflexivity.
  - rewrite Hp, Ho. reflexivity.
Qed.

(** C3.  For a selector that leads to an alias lookup: one matching object
    is returned; no match raises [ObjectResolutionError] "alias not found";
    two or more raise [ObjectResolutionError] "ambiguous" with the
    identifiers of all matches in the iteration order of the mapping. *)
Theorem resolve_selector_alias (patch : MaxPatch) (selector alias : string) :
  selects_alias patch selector alias ->
  (forall m, alias_matches_of patch alias = [m] -> resolve_selector patch selector = Ok m)
  /\ (alias_matches_of patch alias = [] ->
      resolve_selector patch selector =
        Raise (ObjectResolutionError ("alias not found: " +:+ alias)))
  /\ ((2 <= length (alias_matches_of patch alias))%nat ->
      resolve_selector patch selector =
        Raise (ObjectResolutionError
                 ("alias '" +:+ alias +:+ "' is ambiguous (matches: "
                  +:+ Py.join ", " (map fst (alias_matches_of patch alias)) +:+ ")"))).
Proof.
  intros H. rewrite (resolve_selector_alias_lookup _ _ _ H), alias_lookup_matches.
  repeat split.
  - intros m ->. reflexivity.
  - intros ->. reflexivity.
  - intros Hlen. destruct (alias_matches_of patch alias) as [|m1 [|m2 ms]];
      simpl in Hlen; try lia. reflexivity.
Qed.

End ResolveFacts.

Lemma resolve_selector_id_wins_witness :
  resolve_selector (engine := fake_engine)
    [("obj-1", _FakeObject JNull 1 1); ("obj-2", _FakeObject (JStr "obj-1") 1 1)] " obj-1 "
  = Ok ("obj-1", _FakeObject JNull 1 1).
Proof.
  apply (resolve_selector_id_wins (engine := fake_engine)); [discriminate | reflexivity].
Defined.

Lemma resolve_selector_alias_witness :
  let patch := [("obj-1", _FakeObject (JStr "dup") 1 1);
                ("obj-2", _FakeObject (JStr "osc") 1 1);
                ("obj-3", _FakeObject (JStr "dup") 1 1)] in
  resolve_selector (engine := fake_engine) patch "@alias: osc" = Ok ("obj-2", _FakeObject (JStr "osc") 1 1)
  /\ resolve_selector (engine := fake_engine) patch "gain" =
       Raise (ObjectResolutionError "alias not found: gain")
  /\ resolve_selector (engine := fake_engine) patch "dup" =
       Raise (ObjectResolutionError "alias 'dup' is ambiguous (matches: obj-1, obj-3)").
Proof.
  intros patch. split; [|split].
  - apply (resolve_selector_alias (engine := fake_engine) patch "@alias: osc" "osc").
    + split; [discriminate|]. split; [reflexivity|]. left.
      split; [reflexivity|]. split; [reflexivity | discriminate].
    + reflexivity.
  - apply (resolve_selector_alias (engine := fake_engine) patch "gain" "gain").
    + split; [discriminate|]. split; [reflexivity|]. right. repeat split; reflexivity.
    + reflexivity.
  - apply (resolve_selector_alias (engine := fake_engine) patch "dup" "dup").
    + split; [discriminate|]. split; [reflexivity|]. right. repeat split; reflexivity.
    + simpl. lia.
Defined.

(** ** [resolve_outlet] and [resolve_inlet] *)

Lemma getitem_in_range {A} (l : list A) (i : Z) :
  - Py.len l <= i < Py.len l ->
  exists x, Py.getitem l i = Some x
            /\ nth_error l (Z.to_nat (if 0 <=? i then i else Py.len l + i)) = Some x.
Proof.
  unfold Py.getitem, Py.len. intros H.
  destruct (0 <=? i) eqn:E.
  - apply Z.leb_le in E.
    destruct (nth_error l (Z.to_nat i)) as [x|] eqn:N; [eauto|].
    apply nth_error_None in N. lia.
  - apply Z.leb_gt in E.
    assert (Hle : (- Z.of_nat (length l) <=? i) = true) by (apply Z.leb_le; lia).
    rewrite Hle.
    destruct (nth_error l (Z.to_nat (Z.of_nat (length l) + i))) as [x|] eqn:N; [eauto|].
    apply nth_error_None in N. lia.
Qed.

Lemma getitem_below {A} (l : list A) (i : Z) :
  i < - Py.len l -> Py.getitem l i = None.
Proof.
  unfold Py.getitem, Py.len. intros H.
  assert (E1 : (0 <=? i) = false) by (apply Z.leb_gt; lia).
  assert (E2 : (- Z.of_nat (length l) <=? i) = false) by (apply Z.leb_gt; lia).
  now rewrite E1, E2.
Qed.

Section PortFacts.
Context {engine : GraphEngine}.

(** The two functions on every integer.  They compare the index with the
    number of ports from above only, so the cases are three: an index at or
    above the number of outlets (inlets) raises [ObjectResolutionError]; an
    index from [-count] up to [count - 1] returns the port that indexing the
    list gives; an index below [-count] leaves the function as
    [IndexError]. *)
Lemma resolve_port_cases (patch : MaxPatch) (selector label : string)
  (obj : MaxObject Inlet Outlet) (index : Z) :
  resolve_selector patch selector = Ok (label, obj) ->
  (Py.len (outs obj) <= index ->
     resolve_outlet patch selector index =
       Raise (ObjectResolutionError (out_of_range "outlet" label index (Py.len (outs obj)))))
  /\ (- Py.len (outs obj) <= index < Py.len (outs obj) ->
      exists port,
        nth_error (outs obj)
          (Z.to_nat (if 0 <=? index then index else Py.len (outs obj) + index)) = Some port
        /\ resolve_outlet patch selector index = Ok (label, port))
  /\ (index < - Py.len (outs obj) ->
      resolve_outlet patch selector index = Raise (IndexError "list index out of range"))
  /\ (Py.len (ins obj) <= index ->
      resolve_inlet patch selector index =
        Raise (ObjectResolutionError (out_of_range "inlet" label index (Py.len (ins obj)))))
  /\ (- Py.len (ins obj) <= index < Py.len (ins obj) ->
      exists port,
        nth_error (ins obj)
          (Z.to_nat (if 0 <=? index then index else Py.len (ins obj) + index)) = Some port
        /\ resolve_inlet patch selector index = Ok (label, port))
  /\ (index < - Py.len (ins obj) ->
      resolve_inlet patch selector index = Raise (IndexError "list index out of range")).
Proof.
  intros Hsel. unfold resolve_outlet, resolve_inlet. rewrite Hsel. cbn [bind].
  repeat split.
  - intros H. apply Z.leb_le in H. rewrite H. reflexivity.
  - intros H. assert (E : (Py.len (outs obj) <=? index) = false) by (apply Z.leb_gt; lia).
    rewrite E. destruct (getitem_in_range _ _ H) as (port & -> & Hn). eauto.
  - intros H. pose proof (getitem_below (outs obj) index H) as G.
    assert (E : (Py.len (outs obj) <=? index) = false)
      by (apply Z.leb_gt; unfold Py.len in *; lia).
    now rewrite E, G.
  - intros H. apply Z.leb_le in H. rewrite H. reflexivity.
  - intros H. assert (E : (Py.len (ins obj) <=? index) = false) by (apply Z.leb_gt; lia).
    rewrite E. destruct (getitem_in_range _ _ H) as (port & -> & Hn). eauto.
  - intros H. pose proof (getitem_below (ins obj) index H) as G.
    assert (E : (Py.len (ins obj) <=? index) = false)
      by (apply Z.leb_gt; unfold Py.len in *; lia).
    now rewrite E, G.
Qed.

(** C9.  Once the selector resolves to [label] and [obj], and for an index
    that is not negative, as the index of an endpoint is: an index at or
    above the number of outlets (inlets) raises [ObjectResolutionError] with
    the index, the identifier and the exact number of ports in its message;
    an index below that number returns the identifier and the port at that
    index. *)
Theorem resolve_port_bounds (patch : MaxPatch) (selector label : string)
  (obj : MaxObject Inlet Outlet) (index : Z) :
  resolve_selector patch selector = Ok (label, obj) ->
  0 <= index ->
  (Py.len (outs obj) <= index ->
     resolve_outlet patch selector index =
       Raise (ObjectResolutionError (out_of_range "outlet" label index (Py.len (outs obj)))))
  /\ (index < Py.len (outs obj) ->
      exists port,
        nth_error (outs obj) (Z.to_nat index) = Some port
        /\ resolve_outlet patch selector index = Ok (label, port))
  /\ (Py.len (ins obj) <= index ->
      resolve_inlet patch selector index =
        Raise (ObjectResolutionError (out_of_range "inlet" label index (Py.len (ins obj)))))
  /\ (index < Py.len (ins obj) ->
      exists port,
        nth_error (ins obj) (Z.to_nat index) = Some port
        /\ resolve_inlet patch selector index = Ok (label, port)).
Proof.
  intros Hsel Hindex.
  destruct (resolve_port_cases patch selector label obj index Hsel)
    as (Hout_high & Hout & _ & Hin_high & Hin & _).
  assert (E : (0 <=? index) = true) by (apply Z.leb_le; exact Hindex).
  rewrite E in Hout, Hin.
  repeat split.
  - exact Hout_high.
  - intros H. apply Hout. unfold Py.len in *. lia.
  - exact Hin_high.
  - intros H. apply Hin. unfold Py.len in *. lia.
Qed.

End PortFacts.

Lemma resolve_port_bounds_witness :
  let patch := [("obj-1", _FakeObject (JStr "osc") 1 2)] in
  resolve_outlet (engine := fake_engine) patch "osc" 2 =
    Raise (ObjectResolutionError "outlet index 2 out of range for obj-1 (2 outlet(s))")
  /\ resolve_outlet (engine := fake_engine) patch "osc" 1 = Ok ("obj-1", tt)
  /\ resolve_inlet (engine := fake_engine) patch "osc" 1 =
       Raise (ObjectResolutionError "inlet index 1 out of range for obj-1 (1 inlet(s))")
  /\ resolve_inlet (engine := fake_engine) patch "osc" 0 = Ok ("obj-1", tt).
Proof.
  intros patch.
  assert (Hsel : resolve_selector (engine := fake_engine) patch "osc"
                 = Ok ("obj-1", _FakeObject (JStr "osc") 1 2)) by reflexivity.
  split; [apply (resolve_port_bounds (engine := fake_engine) patch "osc" _ _ 2 Hsel);
          unfold Py.len; simpl; lia|].
  split.
  { destruct (proj1 (proj2 (resolve_port_bounds (engine := fake_engine) patch "osc" _ _ 1
                              Hsel ltac:(lia))))
      as (port & _ & ->); [unfold Py.len; simpl; lia|]. destruct port. reflexivity. }
  split; [apply (resolve_port_bounds (engine := fake_engine) patch "osc" _ _ 1 Hsel);
          unfold Py.len; simpl; lia|].
  destruct (proj2 (proj2 (proj2 (resolve_port_bounds (engine := fake_engine) patch "osc" _ _ 0
                                   Hsel ltac:(lia)))))
    as (port & _ & ->); [unfold Py.len; simpl; lia|]. destruct port. reflexivity.
Defined.

(** Below zero, where no endpoint has its index, the lower bound is not
    tested: for an object without ports the index [-1] reaches the indexing
    of the empty list. *)
Example resolve_port_negative_ex :
  let patch := [("obj-1", _FakeObject JNull 0 0)] in
  resolve_selector (engine := fake_engine) patch "obj-1" = Ok ("obj-1", _FakeObject JNull 0 0)
  /\ resolve_outlet (engine := fake_engine) patch "obj-1" (-1)
     = Raise (IndexError "list index out of range")
  /\ resolve_inlet (engine := fake_engine) patch "obj-1" (-1)
     = Raise (IndexError "list index out of range").
Proof. repeat split. Qed.

(** ** [int] reads back what [str] prints *)

Lemma digits_acc_uint (d : Decimal.uint) (acc : Z) :
  Py.digits_acc true acc (NilEmpty.string_of_uint d) = Some (uint_val d acc).
Proof.
  revert acc. induction d; intros acc; cbn [NilEmpty.string_of_uint uint_val];
    [reflexivity | cbn [Py.digits_acc]; change (Py.is_digit _) with true; cbv iota;
                   rewrite IHd; f_equal; f_equal; unfold Py.digit_val; simpl; lia ..].
Qed.

Lemma digits_acc_uint_start (d : Decimal.uint) :
  d <> Decimal.Nil ->
  Py.digits_acc false 0 (NilEmpty.string_of_uint d) = Some (uint_val d 0).
Proof.
  intros Hd. destruct d; [congruence | ..];
    cbn [NilEmpty.string_of_uint uint_val Py.digits_acc];
    change (Py.is_digit _) with true; cbv iota;
    rewrite digits_acc_uint; f_equal.
Qed.

Lemma uint_val_acc (d : Decimal.uint) (acc : positive) :
  Z.pos (Pos.of_uint_acc d acc) = uint_val d (Z.pos acc).
Proof.
  revert acc. induction d; intros acc; cbn [Pos.of_uint_acc uint_val];
    [reflexivity | rewrite IHd; f_equal; lia ..].
Qed.

Lemma uint_val_of_uint (d : Decimal.uint) : Z.of_N (Pos.of_uint d) = uint_val d 0.
Proof.
  induction d; cbn [Pos.of_uint uint_val];
    [reflexivity | exact IHd | cbn [Z.of_N]; rewrite uint_val_acc; reflexivity ..].
Qed.

Lemma int_lstrip_id (s : string) :
  match s with String c _ => Py.int_space c = false | EmptyString => True end ->
  Py.int_lstrip s = s.
Proof. destruct s as [|c s]; simpl; [reflexivity | intros ->; reflexivity]. Qed.

Lemma int_rstrip_id (s : string) : no_int_space s -> Py.int_rstrip s = s.
Proof.
  unfold no_int_space. induction s as [|c s IH]; simpl; intros H; [reflexivity|].
  inversion H as [|? ? Hc Hs]; subst. rewrite (IH Hs), Hc. destruct s; reflexivity.
Qed.

Lemma no_int_space_digits (d : Decimal.uint) : no_int_space (NilEmpty.string_of_uint d).
Proof. unfold no_int_space. induction d; simpl; constructor; auto. Qed.

Lemma int_of_digits (d : Decimal.uint) :
  d <> Decimal.Nil ->
  Py.int (NilEmpty.string_of_uint d) = Some (Z.of_N (Pos.of_uint d)).
Proof.
  intros Hd. unfold Py.int.
  rewrite int_lstrip_id, (int_rstrip_id _ (no_int_space_digits d)).
  - rewrite uint_val_of_uint, <- (digits_acc_uint_start d Hd).
    destruct d; try congruence; reflexivity.
  - destruct d; simpl; auto.
Qed.

Lemma int_of_neg_digits (d : Decimal.uint) :
  d <> Decimal.Nil ->
  Py.int (String "-" (NilEmpty.string_of_uint d)) = Some (- Z.of_N (Pos.of_uint d)).
Proof.
  intros Hd. unfold Py.int.
  rewrite int_lstrip_id by reflexivity.
  rewrite int_rstrip_id.
  - rewrite (digits_acc_uint_start d Hd), uint_val_of_uint. reflexivity.
  - constructor; [reflexivity | apply no_int_space_digits].
Qed.

Lemma string_of_uint_nonnil (d : Decimal.uint) :
  d <> Decimal.Nil -> NilZero.string_of_uint d = NilEmpty.string_of_uint d.
Proof. destruct d; [congruence | reflexivity ..]. Qed.

(** [int(str(n)) == n] for every integer. *)
Lemma int_str_of_int (n : Z) : Py.int (Py.str_of_int n) = Some n.
Proof.
  unfold Py.str_of_int. destruct n as [|p|p]; [reflexivity | ..];
    cbn [Z.to_int NilZero.string_of_int];
    rewrite (string_of_uint_nonnil _ (Unsigned.to_uint_nonnil p)).
  - rewrite (int_of_digits _ (Unsigned.to_uint_nonnil p)), DecimalPos.Unsigned.of_to.
    reflexivity.
  - rewrite (int_of_neg_digits _ (Unsigned.to_uint_nonnil p)), DecimalPos.Unsigned.of_to.
    reflexivity.
Qed.

Lemma str_of_int_inj (a b : Z) : Py.str_of_int a = Py.str_of_int b -> a = b.
Proof.
  intros H. pose proof (int_str_of_int a) as Ha. rewrite H, int_str_of_int in Ha.
  congruence.
Qed.

(** ** [_next_object_index] and [_build_helper_id_map] *)

Lemma suffix_of_iff (entry : json) (n : Z) : suffix_of entry = Some n <-> has_suffix entry n.
Proof.
  unfold suffix_of, has_suffix. split.
  - destruct (box_id entry) as [[| | | |id| |]|]; try discriminate. eauto.
  - intros (id & -> & H). exact H.
Qed.

Lemma obj_prefix_rest (s : string) :
  Py.startswith "obj-" s = true -> nth_error (Py.split1 "-" s) 1 = Some (Py.drop 4 s).
Proof. intros H. destruct (startswith_inv _ _ H) as [r ->]. reflexivity. Qed.

Lemma next_index_from_fold (boxes : list json) (acc : Z) :
  Forall is_box boxes ->
  _next_object_index_from acc boxes = Ok (fold_left max_step boxes acc).
Proof.
  intros H. revert acc. induction H as [|entry rest [v Hv] _ IH]; intros acc.
  - reflexivity.
  - cbn [_next_object_index_from fold_left]. unfold max_step at 2, suffix_of.
    rewrite Hv. cbn [bind].
    destruct v as [| | | |id| |]; try apply IH.
    unfold numeric_suffix. destruct (Py.startswith "obj-" id) eqn:E; cbn [negb].
    + rewrite (obj_prefix_rest _ E). destruct (Py.int (Py.drop 4 id)); apply IH.
    + apply IH.
Qed.

Lemma fold_max_step_ge (boxes : list json) (acc : Z) : acc <= fold_left max_step boxes acc.
Proof.
  revert acc. induction boxes as [|e r IH]; intros acc; simpl; [lia|].
  specialize (IH (max_step acc e)). unfold max_step in *.
  destruct (suffix_of e); lia.
Qed.

Lemma fold_max_step_bound (boxes : list json) (acc : Z) (entry : json) (n : Z) :
  In entry boxes -> suffix_of entry = Some n -> n <= fold_left max_step boxes acc.
Proof.
  revert acc. induction boxes as [|e r IH]; intros acc Hin Hs; [destruct Hin|].
  simpl. destruct Hin as [-> | Hin].
  - pose proof (fold_max_step_ge r (max_step acc entry)) as G.
    assert (n <= max_step acc entry) by (unfold max_step; rewrite Hs; lia). lia.
  - now apply IH.
Qed.

Lemma fold_max_step_attained (boxes : list json) (acc : Z) :
  fold_left max_step boxes acc = acc
  \/ exists entry, In entry boxes /\ suffix_of entry = Some (fold_left max_step boxes acc).
Proof.
  revert acc. induction boxes as [|e r IH]; intros acc; simpl; [auto|].
  destruct (IH (max_step acc e)) as [H | (entry & Hin & H)].
  - rewrite H. unfold max_step. destruct (suffix_of e) as [n|] eqn:E; [|auto].
    destruct (Z.max_spec acc n) as [[_ ->] | [_ ->]]; [right; exists e; auto | auto].
  - right. exists entry. auto.
Qed.

Lemma max_suffix_unique (boxes : list json) (m1 m2 : Z) :
  max_suffix boxes m1 -> max_suffix boxes m2 -> m1 = m2.
Proof.
  intros (P1 & U1 & A1) (P2 & U2 & A2).
  assert (m1 <= m2).
  { destruct A1 as [-> | (e & Hin & Hs)]; [lia | exact (U2 e m1 Hin Hs)]. }
  assert (m2 <= m1).
  { destruct A2 as [-> | (e & Hin & Hs)]; [lia | exact (U1 e m2 Hin Hs)]. }
  lia.
Qed.

Lemma next_object_index_max (boxes : list json) :
  Forall is_box boxes ->
  exists m, _next_object_index boxes = Ok m /\ max_suffix boxes m.
Proof.
  intros H. exists (fold_left max_step boxes 0). split.
  - apply (next_index_from_fold _ _ H).
  - split; [apply fold_max_step_ge|]. split.
    + intros entry n Hin Hs. apply suffix_of_iff in Hs.
      exact (fold_max_step_bound boxes 0 entry n Hin Hs).
    + destruct (fold_max_step_attained boxes 0) as [-> | (e & Hin & Hs)]; [auto|].
      right. exists e. split; [exact Hin | now apply suffix_of_iff].
Qed.

Lemma numeric_suffix_fresh (n : Z) :
  numeric_suffix ("obj-" +:+ Py.str_of_int n) = Some n.
Proof.
  unfold numeric_suffix. rewrite startswith_app.
  change 4%nat with (String.length "obj-"). rewrite drop_app. apply int_str_of_int.
Qed.

Lemma fresh_ids_not_existing (boxes : list json) (m first : Z) (k : nat) (entry : json)
  (id : string) :
  max_suffix boxes m -> m < first ->
  In entry boxes -> box_id entry = Ok (JStr id) -> ~ In id (fresh_ids first k).
Proof.
  intros (_ & U & _) Hlt Hin Hid Hfresh. unfold fresh_ids in Hfresh.
  apply in_map_iff in Hfresh as (i & <- & _).
  assert (first + Z.of_nat i <= m); [|lia].
  apply (U entry _ Hin). eexists. split; [exact Hid | apply numeric_suffix_fresh].
Qed.

Lemma fresh_ids_NoDup (first : Z) (k : nat) : List.NoDup (fresh_ids first k).
Proof.
  unfold fresh_ids. apply Finite.Injective_map_NoDup; [|apply seq_NoDup].
  intros i j H. injection H as H. apply str_of_int_inj in H. lia.
Qed.

Lemma fresh_ids_succ (first : Z) (k : nat) :
  fresh_ids first (S k) = ("obj-" +:+ Py.str_of_int first) :: fresh_ids (first + 1) k.
Proof.
  unfold fresh_ids. cbn [seq map]. rewrite Z.add_0_r. f_equal.
  rewrite <- seq_shift, map_map. apply map_ext. intros i. do 2 f_equal. lia.
Qed.

Lemma dict_set_new {V} (k : string) (v : V) (d : list (string * V)) :
  ~ In k (map fst d) -> Dict.set k v d = d ++ [(k, v)].
Proof.
  induction d as [|[k' v'] d IH]; simpl; intros H; [reflexivity|].
  destruct (String.eqb k k') eqn:E.
  - apply String.eqb_eq in E. subst. exfalso. apply H. now left.
  - rewrite IH; [reflexivity | intros Hin; apply H; now right].
Qed.

Lemma combine_fst {A B} (l1 : list A) (l2 : list B) :
  length l1 = length l2 -> map fst (combine l1 l2) = l1.
Proof.
  revert l2. induction l1 as [|a l1 IH]; intros [|b l2] H; simpl in *;
    try discriminate; [reflexivity|]. f_equal. apply IH. lia.
Qed.

Lemma combine_snd {A B} (l1 : list A) (l2 : list B) :
  length l1 = length l2 -> map snd (combine l1 l2) = l2.
Proof.
  revert l2. induction l1 as [|a l1 IH]; intros [|b l2] H; simpl in *;
    try discriminate; [reflexivity|]. f_equal. apply IH. lia.
Qed.

Lemma build_from_distinct (helper_boxes : list json) (ids : list string) :
  Forall2 (fun hb id => box_id hb = Ok (JStr id)) helper_boxes ids ->
  List.NoDup ids ->
  forall next_index id_map,
    (forall id, In id ids -> ~ In id (map fst id_map)) ->
    _build_helper_id_map_from next_index id_map helper_boxes =
      Ok (id_map ++ combine ids (fresh_ids next_index (length ids))).
Proof.
  induction 1 as [|hb id hbs ids Hid _ IH]; intros Hnd next_index id_map Hnew.
  - simpl. now rewrite app_nil_r.
  - inversion Hnd as [|? ? Hnotin Hnd']; subst.
    cbn [_build_helper_id_map_from]. rewrite Hid. cbn [bind].
    rewrite dict_set_new by (apply Hnew; now left).
    rewrite IH; [|exact Hnd'|].
    + cbn [length]. rewrite fresh_ids_succ. cbn [combine].
      now rewrite <- app_assoc.
    + intros x Hx. rewrite map_app, in_app_iff. cbn. intros [Hin | [<- | []]].
      * apply (Hnew x); [now right | exact Hin].
      * exact (Hnotin Hx).
Qed.

Lemma build_from_not_string (helper_boxes : list json) :
  Forall is_box helper_boxes ->
  Exists (fun hb => forall id, box_id hb <> Ok (JStr id)) helper_boxes ->
  forall next_index id_map,
    _build_helper_id_map_from next_index id_map helper_boxes =
      Raise (ValidationError "invalid helper box id while constructing validation patch").
Proof.
  induction 1 as [|hb hbs [v Hv] _ IH]; intros Hex next_index id_map.
  - inversion Hex.
  - cbn [_build_helper_id_map_from]. rewrite Hv. cbn [bind].
    destruct v as [| | | |id| |]; try reflexivity.
    inversion Hex as [? ? Hbad | ? ? Hrest]; subst.
    + exfalso. exact (Hbad id Hv).
    + apply IH. exact Hrest.
Qed.

(** C1, as the code has it.  Let the existing boxes be well-formed entries
    whose largest numeric suffix is [m].  When the [k] helper boxes carry
    pairwise distinct string identifiers, [_build_helper_id_map] maps them,
    in the order of the fragment, to [obj-(m+1)], ..., [obj-(m+k)]; these
    are [k] distinct identifiers and none of them is the identifier of an
    existing box.  When some helper box carries an identifier that is not a
    string, the function raises [ValidationError]. *)
Theorem build_helper_id_map_fresh (boxes helper_boxes : list json) (m : Z) :
  Forall is_box boxes ->
  max_suffix boxes m ->
  (forall ids,
      Forall2 (fun hb id => box_id hb = Ok (JStr id)) helper_boxes ids ->
      List.NoDup ids ->
      let fresh := fresh_ids (m + 1) (length helper_boxes) in
      exists id_map,
        _build_helper_id_map boxes helper_boxes = Ok id_map
        /\ map fst id_map = ids
        /\ map snd id_map = fresh
        /\ length fresh = length helper_boxes
        /\ List.NoDup fresh
        /\ (forall entry id, In entry boxes -> box_id entry = Ok (JStr id) -> ~ In id fresh))
  /\ (Forall is_box helper_boxes ->
      Exists (fun hb => forall id, box_id hb <> Ok (JStr id)) helper_boxes ->
      exists msg, _build_helper_id_map boxes helper_boxes = Raise (ValidationError msg)).
Proof.
  intros Hboxes Hmax.
  destruct (next_object_index_max boxes Hboxes) as (m' & Hnext & Hmax').
  assert (m' = m) by (eapply max_suffix_unique; eauto). subst m'.
  unfold _build_helper_id_map. rewrite Hnext. cbn [bind]. split.
  - intros ids Hids Hnd.
    assert (Hlen : length helper_boxes = length ids)
      by (eapply Forall2_length; exact Hids).
    rewrite Hlen.
    assert (Hfresh : length (fresh_ids (m + 1) (length ids)) = length ids)
      by (unfold fresh_ids; now rewrite length_map, length_seq).
    exists (combine ids (fresh_ids (m + 1) (length ids))).
    split; [rewrite (build_from_distinct _ _ Hids Hnd); [reflexivity | auto]|].
    split; [apply combine_fst; now rewrite Hfresh|].
    split; [apply combine_snd; now rewrite Hfresh|].
    split; [exact Hfresh|].
    split; [apply fresh_ids_NoDup|].
    intros entry id Hin Hid. eapply fresh_ids_not_existing; eauto. lia.
  - intros Hshape Hbad. eexists. now apply build_from_not_string.
Qed.

Lemma build_helper_id_map_fresh_witness :
  _build_helper_id_map
    [mk_box [("id", JStr "obj-10")]; mk_box [("id", JStr "toggle")]; mk_box [("id", JStr "obj-3")]]
    [mk_box [("id", JStr "obj-1")]; mk_box [("id", JStr "obj-2")]]
  = Ok [("obj-1", "obj-11"); ("obj-2", "obj-12")]
  /\ exists msg,
      _build_helper_id_map [mk_box [("id", JStr "obj-10")]]
        [mk_box [("id", JStr "obj-1")]; mk_box [("id", JInt 2)]]
      = Raise (ValidationError msg).
Proof.
  split.
  - destruct (proj1 (build_helper_id_map_fresh
                       [mk_box [("id", JStr "obj-10")]; mk_box [("id", JStr "toggle")];
                        mk_box [("id", JStr "obj-3")]]
                       [mk_box [("id", JStr "obj-1")]; mk_box [("id", JStr "obj-2")]] 10
                       ltac:(repeat constructor; eexists; reflexivity)
                       ltac:(split; [lia|]; split;
                             [intros entry n [<- | [<- | [<- | []]]] (id & Hid & Hs);
                              injection Hid as <-; vm_compute in Hs; inversion Hs; lia
                             |right; exists (mk_box [("id", JStr "obj-10")]);
                              split; [now left|]; exists "obj-10"; split; reflexivity]))
                ["obj-1"; "obj-2"]
                ltac:(repeat constructor)
                ltac:(repeat constructor; simpl; intuition discriminate))
      as (id_map & -> & Hk & Hv & _).
    destruct id_map as [|[k1 v1] [|[k2 v2] [|]]]; try discriminate Hk.
    injection Hk as -> ->. injection Hv as -> ->. reflexivity.
  - refine (proj2 (build_helper_id_map_fresh _ _ 10 _ _) _ _).
    + repeat constructor; eexists; reflexivity.
    + split; [lia|]. split.
      * intros entry n [<- | []] (id & Hid & Hs);
          injection Hid as <-; vm_compute in Hs; inversion Hs; lia.
      * right. exists (mk_box [("id", JStr "obj-10")]). split; [now left|].
        exists "obj-10". split; reflexivity.
    + repeat constructor; eexists; reflexivity.
    + apply Exists_cons_tl, Exists_cons_hd. intros id H. discriminate H.
Defined.

(** Against C1 as stated: two helper boxes that carry the same identifier
    get one entry, numbered [m + 2], instead of two entries numbered [m + 1]
    and [m + 2]. *)
Lemma build_helper_id_map_duplicate :
  let helper_boxes := [mk_box [("id", JStr "a")]; mk_box [("id", JStr "a")]] in
  _next_object_index [] = Ok 0
  /\ Forall (fun hb => exists id, box_id hb = Ok (JStr id)) helper_boxes
  /\ _build_helper_id_map [] helper_boxes = Ok [("a", "obj-2")]
  /\ forall id_map, _build_helper_id_map [] helper_boxes = Ok id_map ->
                    length id_map <> length helper_boxes
                    /\ ~ In "obj-1" (map snd id_map).
Proof.
  intros helper_boxes. split; [reflexivity|].
  split; [repeat constructor; eexists; reflexivity|].
  split; [reflexivity|].
  intros id_map H. vm_compute in H. injection H as <-.
  split; [discriminate | simpl; intuition discriminate].
Qed.

(** ** Schema identifiers *)

Lemma replace_one_char (old new : ascii) (s : string) :
  Py.replace (String old "") (String new "") s =
    map_chars (fun c => if Ascii.eqb old c then new else c) s.
Proof.
  unfold Py.replace. induction s as [|c r IH]; [reflexivity|].
  cbn [Py.replace_from Py.startswith map_chars String.length Nat.sub].
  rewrite andb_true_r. destruct (Ascii.eqb old c); cbn; now rewrite IH.
Qed.

Lemma normalized_map (s : string) :
  Py.replace "-" "_" (Py.replace " " "_" s) = map_chars to_separator s.
Proof.
  rewrite !replace_one_char. induction s as [|c r IH]; [reflexivity|].
  cbn [map_chars]. rewrite IH. f_equal. unfold to_separator.
  rewrite (Ascii.eqb_sym c " "), (Ascii.eqb_sym c "-").
  destruct (Ascii.eqb " " c) eqn:E; [reflexivity|].
  destruct (Ascii.eqb "-" c); reflexivity.
Qed.

(** C8, as the code has it.  The schema identifier of a command is
    [maxpylang.cli.<name>.<kind>.v1], where [<name>] is the command name
    with the white space around it removed and every space and hyphen
    turned into an underscore; the case of the letters is kept.  It agrees
    with the lower-cased form of the specification on every name that is
    already trimmed and in lower case.  The error envelope carries the
    identifier of kind [error] and a null data schema; the success envelope
    carries the identifiers of kind [success] and [data] unless the payload
    brings its own. *)
Theorem schema_key_derivation (command : string) :
  (forall kind,
      _schema_key command kind =
        "maxpylang.cli." +:+ map_chars to_separator (Py.strip command)
        +:+ "." +:+ kind +:+ ".v1")
  /\ (Py.strip command = command -> Py.lower command = command ->
      forall kind, _schema_key command kind = schema_key_lowercased command kind)
  /\ (forall error exit_code generated_at,
        Dict.get "schema" (error_envelope command error exit_code generated_at)
          = Some (JStr (_schema_key command "error"))
        /\ Dict.get "data_schema" (error_envelope command error exit_code generated_at)
          = Some JNull)
  /\ (forall payload generated_at,
        Dict.get "schema" payload = None -> Dict.get "data_schema" payload = None ->
        Dict.get "schema" (success_envelope command payload generated_at)
          = Some (JStr (_schema_key command "success"))
        /\ Dict.get "data_schema" (success_envelope command payload generated_at)
          = Some (JStr (_schema_key command "data")))
  /\ (forall payload generated_at,
        Dict.get "schema" (success_envelope command payload generated_at)
          = Some (Dict.get_default "schema" (JStr (_schema_key command "success")) payload)
        /\ Dict.get "data_schema" (success_envelope command payload generated_at)
          = Some (Dict.get_default "data_schema" (JStr (_schema_key command "data")) payload)).
Proof.
  split; [intros kind; unfold _schema_key; now rewrite normalized_map|].
  split.
  { intros Hs Hl kind. unfold _schema_key, schema_key_lowercased. now rewrite Hs, Hl. }
  split; [intros; split; reflexivity|].
  split; [|intros; split; reflexivity].
  intros payload generated_at H1 H2. unfold success_envelope, Dict.get_default.
  rewrite H1, H2. split; reflexivity.
Qed.

Lemma schema_key_derivation_witness :
  _schema_key "list-objects" "data" = schema_key_lowercased "list-objects" "data"
  /\ Dict.get "data_schema" (success_envelope "config get" [] "2026-01-01T00:00:00+00:00")
     = Some (JStr (_schema_key "config get" "data")).
Proof.
  split.
  - apply (proj1 (proj2 (schema_key_derivation "list-objects")));
      reflexivity.
  - apply (proj1 (proj2 (proj2 (proj2 (schema_key_derivation "config get")))));
      reflexivity.
Defined.

(** Against C8 as stated: the command name [New] is not put in lower case. *)
Lemma schema_key_keeps_case :
  _schema_key "New" "error" = "maxpylang.cli.New.error.v1"
  /\ schema_key_lowercased "New" "error" = "maxpylang.cli.new.error.v1"
  /\ _schema_key "New" "error" <> schema_key_lowercased "New" "error".
Proof. repeat split. discriminate. Qed.

(** ** The command pipeline: failures and exit codes *)

Lemma attach_mro (exc : exn) (diagnostics : list string) :
  exc_mro (_attach_diagnostics exc diagnostics) = exc_mro exc.
Proof. destruct diagnostics; reflexivity. Qed.

Lemma attach_str (exc : exn) (diagnostics : list string) :
  exc_str (_attach_diagnostics exc diagnostics) = exc_str exc.
Proof. destruct diagnostics; reflexivity. Qed.

Lemma attach_isinstance (exc : exn) (diagnostics : list string) (cls : string) :
  isinstance (_attach_diagnostics exc diagnostics) cls = isinstance exc cls.
Proof. unfold isinstance. now rewrite attach_mro. Qed.

Lemma attach_type_name (exc : exn) (diagnostics : list string) :
  type_name (_attach_diagnostics exc diagnostics) = type_name exc.
Proof. unfold type_name. now rewrite attach_mro. Qed.

Lemma attach_exit_code (exc : exn) (diagnostics : list string) :
  exit_code (_attach_diagnostics exc diagnostics) = exit_code exc.
Proof. unfold exit_code. now rewrite attach_mro. Qed.

(** An instance of [MaxPyCLIError] always has an exit code. *)
Lemma taxonomy_exit_code (exc : exn) :
  isinstance exc "MaxPyCLIError" = true -> exists code, exit_code exc = Some code.
Proof.
  unfold isinstance, exit_code.
  induction (exc_mro exc) as [|cls mro IH]; cbn [existsb lookup_exit_code].
  - discriminate.
  - intros H. destruct (class_exit_code cls) eqn:E; [eauto|].
    apply orb_prop in H as [H | H]; [|auto].
    apply String.eqb_eq in H. subst cls. discriminate E.
Qed.

Section PipelineFacts.
Context {engine : GraphEngine} {rt : PyRuntime}.

Lemma emit_error_returns (ctx_cfg : CLIContext) (command : string) (error : exn)
  (code : Z) (w : world) :
  fst (emit_error ctx_cfg command error code w) = Ok tt.
Proof. unfold emit_error, mbind, _timestamp, echo. destruct (json_output ctx_cfg); reflexivity. Qed.

Lemma report_and_exit_code (ctx_cfg : CLIContext) (command : string) (error : exn)
  (code : Z) (w : world) :
  exit_code error = Some code ->
  report_and_exit ctx_cfg command error w =
    (SystemExit code, snd (emit_error ctx_cfg command error code w)).
Proof.
  intros H. unfold report_and_exit. rewrite H.
  pose proof (emit_error_returns ctx_cfg command error code w) as E.
  destruct (emit_error ctx_cfg command error code w) as [[[]|e] w']; simpl in *;
    [reflexivity | discriminate].
Qed.

Lemma run_body_raise (ctx_cfg : CLIContext) (command : string) (action : M (option pydict))
  (w wa : world) (exc : exn) :
  action (action_world ctx_cfg w) = (Raise exc, wa) ->
  exists diagnostics,
    run_body ctx_cfg command action w =
      (Raise (_attach_diagnostics exc diagnostics), [], world_after_failure ctx_cfg w wa).
Proof.
  unfold run_body, action_world, world_after_failure. intros H.
  destruct (json_output ctx_cfg); rewrite H.
  - destruct (isinstance exc "Exception"); [eauto | exists []; reflexivity].
  - exists []. reflexivity.
Qed.

(** The tests of a chain of conditionals are settled by the hypotheses at
    hand. *)
Ltac rewrite_tests :=
  repeat match goal with
         | H : _ = true |- _ => rewrite H
         | H : _ = false |- _ => rewrite H
         end.

Lemma wrapped_as_intro (ctx_cfg : CLIContext) (command : string) (action : M (option pydict))
  (w w1 : world) (exc error : exn) (cls : string) (code : Z) :
  type_name error = cls -> exc_str error = exc_str exc -> exit_code error = Some code ->
  _run_command ctx_cfg command action w = report_and_exit ctx_cfg command error w1 ->
  wrapped_as ctx_cfg command action w w1 exc cls code.
Proof.
  intros Ht Hs Hc Hrun. exists error. repeat split; try assumption.
  unfold reports. rewrite Hrun. now apply report_and_exit_code.
Qed.

(** C7, as the code has it.  When the body of the [try] statement (the
    action, or the emission of the success report after it) raises [exc]:
    an error of the taxonomy is reported under its own class name with its
    own exit code; [FileNotFoundError] and [IsADirectoryError] are reported
    as [UsageError] with code 2; [AssertionError], [ValueError], [TypeError]
    and [KeyError] as [ValidationError] with code 4; a [ClickException]
    leaves the pipeline as it is, with nothing reported; any other
    [Exception] is reported as [InternalError] with code 5; and what is not
    an [Exception] leaves the pipeline as it is.  The error envelope names
    the class, the message and the code.  The exit codes of the classes are
    2, 3, 4 and 5, and 5 for the base class and for a class that derives
    from it without its own code. *)
Theorem run_command_failure (ctx_cfg : CLIContext) (command : string)
  (action : M (option pydict)) (w w1 : world) (exc : exn) (diagnostics : list string) :
  run_body ctx_cfg command action w = (Raise exc, diagnostics, w1) ->
  let wrapped := wrapped_as ctx_cfg command action w w1 exc in
  let left_alone := unhandled ctx_cfg command action w w1 exc in
  (isinstance exc "MaxPyCLIError" = true ->
     exists code, exit_code exc = Some code /\ wrapped (type_name exc) code)
  /\ (isinstance exc "MaxPyCLIError" = false ->
      (isinstance exc "FileNotFoundError" || isinstance exc "IsADirectoryError" = true ->
         wrapped "UsageError" 2)
      /\ (isinstance exc "FileNotFoundError" || isinstance exc "IsADirectoryError" = false ->
          (isinstance exc "AssertionError" || isinstance exc "ValueError"
           || isinstance exc "TypeError" || isinstance exc "KeyError" = true ->
             wrapped "ValidationError" 4)
          /\ (isinstance exc "AssertionError" || isinstance exc "ValueError"
              || isinstance exc "TypeError" || isinstance exc "KeyError" = false ->
              (isinstance exc "ClickException" = true -> left_alone)
              /\ (isinstance exc "ClickException" = false ->
                  (isinstance exc "Exception" = true -> wrapped "InternalError" 5)
                  /\ (isinstance exc "Exception" = false -> left_alone)))))
  /\ (forall error code generated_at,
        Dict.get "errors" (error_envelope command error code generated_at)
        = Some (JList [JDict [("type", JStr (type_name error));
                              ("message", JStr (exc_str error));
                              ("exit_code", JInt code)]]))
  /\ (forall msg, exit_code (UsageError msg) = Some 2
                  /\ exit_code (ObjectResolutionError msg) = Some 3
                  /\ exit_code (ValidationError msg) = Some 4
                  /\ exit_code (InternalError msg) = Some 5
                  /\ exit_code (MaxPyCLIError msg) = Some 5)
  /\ (forall cls msg details,
        class_exit_code cls = None -> exit_code (cli_error [cls] msg details) = Some 5).
Proof.
  intros Hbody wrapped left_alone. subst wrapped left_alone.
  split; [|split; [|split; [|split]]].
  - intros Hcli. destruct (taxonomy_exit_code exc Hcli) as [code Hcode].
    exists code. split; [exact Hcode|].
    eapply wrapped_as_intro; cycle 3;
      [unfold _run_command; rewrite Hbody; rewrite_tests; reflexivity | ..];
      destruct (exc_cli_diagnostics exc) as [[|]|];
      rewrite ?attach_type_name, ?attach_str, ?attach_exit_code; auto.
  - intros Hcli. split; [|intros Hfs; split; [|intros Hval; split; [|intros Hclick; split]]].
    + intros Hfs. eapply wrapped_as_intro; cycle 3;
        [unfold _run_command; rewrite Hbody; rewrite_tests; reflexivity | ..];
        now rewrite ?attach_type_name, ?attach_str, ?attach_exit_code.
    + intros Hval. eapply wrapped_as_intro; cycle 3;
        [unfold _run_command; rewrite Hbody; rewrite_tests; reflexivity | ..];
        now rewrite ?attach_type_name, ?attach_str, ?attach_exit_code.
    + intros Hclick. unfold unhandled, _run_command. rewrite Hbody. rewrite_tests.
      reflexivity.
    + intros Hexc. eapply wrapped_as_intro; cycle 3;
        [unfold _run_command; rewrite Hbody; rewrite_tests; reflexivity | ..];
        now rewrite ?attach_type_name, ?attach_str, ?attach_exit_code.
    + intros Hexc. unfold unhandled, _run_command. rewrite Hbody. rewrite_tests.
      reflexivity.
  - reflexivity.
  - intros msg. repeat split.
  - intros cls msg details H. unfold exit_code. simpl. now rewrite H.
Qed.

End PipelineFacts.

Lemma run_command_failure_witness :
  fst (_run_command (rt := stub_runtime) (demo_ctx true) "connect"
         (raise (ObjectResolutionError "alias not found: osc")) demo_world) = SystemExit 3
  /\ fst (_run_command (rt := stub_runtime) (demo_ctx false) "connect"
            (raise (FileNotFoundError "missing.maxpat")) demo_world) = SystemExit 2
  /\ fst (_run_command (rt := stub_runtime) (demo_ctx true) "connect"
            (raise (KeyError "'box'")) demo_world) = SystemExit 4
  /\ fst (_run_command (rt := stub_runtime) (demo_ctx false) "connect"
            (raise (AttributeError "no attribute")) demo_world) = SystemExit 5
  /\ fst (_run_command (rt := stub_runtime) (demo_ctx false) "connect"
            (ret (Some [("warnings", JInt 3)])) demo_world) = SystemExit 4.
Proof.
  split; [|split; [|split; [|split]]].
  - destruct (run_command_failure (rt := stub_runtime) (demo_ctx true) "connect"
                (raise (ObjectResolutionError "alias not found: osc")) demo_world _ _ _ eq_refl)
      as (H & _).
    destruct (H eq_refl) as (code & Hcode & error & _ & _ & _ & Hrep).
    injection Hcode as <-. unfold reports in Hrep. now rewrite Hrep.
  - destruct (run_command_failure (rt := stub_runtime) (demo_ctx false) "connect"
                (raise (FileNotFoundError "missing.maxpat")) demo_world _ _ _ eq_refl)
      as (_ & H & _).
    destruct (proj1 (H eq_refl) eq_refl) as (error & _ & _ & _ & Hrep).
    unfold reports in Hrep. now rewrite Hrep.
  - destruct (run_command_failure (rt := stub_runtime) (demo_ctx true) "connect"
                (raise (KeyError "'box'")) demo_world _ _ _ eq_refl)
      as (_ & H & _).
    destruct (proj1 (proj2 (H eq_refl) eq_refl) eq_refl) as (error & _ & _ & _ & Hrep).
    unfold reports in Hrep. now rewrite Hrep.
  - destruct (run_command_failure (rt := stub_runtime) (demo_ctx false) "connect"
                (raise (AttributeError "no attribute")) demo_world _ _ _ eq_refl)
      as (_ & H & _).
    destruct (proj1 (proj2 (proj2 (proj2 (H eq_refl) eq_refl) eq_refl) eq_refl) eq_refl)
      as (error & _ & _ & _ & Hrep).
    unfold reports in Hrep. now rewrite Hrep.
  - destruct (run_command_failure (rt := stub_runtime) (demo_ctx false) "connect"
                (ret (Some [("warnings", JInt 3)])) demo_world _ _ _ eq_refl)
      as (_ & H & _).
    destruct (proj1 (proj2 (H eq_refl) eq_refl) eq_refl) as (error & _ & _ & _ & Hrep).
    unfold reports in Hrep. now rewrite Hrep.
Defined.

(** Against C7 as stated: a [ClickException] is an [Exception] outside the
    taxonomy that is neither a file-system nor a value error, yet it is not
    turned into [InternalError]: it leaves [_run_command] unchanged and
    nothing is printed. *)
Lemma run_command_click_exception :
  let exc := ClickException "No such option" in
  isinstance exc "Exception" = true
  /\ isinstance exc "MaxPyCLIError" = false
  /\ isinstance exc "FileNotFoundError" || isinstance exc "IsADirectoryError" = false
  /\ isinstance exc "AssertionError" || isinstance exc "ValueError"
     || isinstance exc "TypeError" || isinstance exc "KeyError" = false
  /\ _run_command (rt := stub_runtime) (demo_ctx true) "connect" (raise exc) demo_world
     = (Propagated exc, demo_world)
  /\ _run_command (rt := stub_runtime) (demo_ctx false) "connect" (raise exc) demo_world
     = (Propagated exc, demo_world).
Proof. repeat split. Qed.

(** ** [export_amxd_file]: what happens before the file is written *)

Section ExportFacts.
Context {engine : GraphEngine} {rt : PyRuntime} {validation : MaxValidation}.

(** C5.  An output path whose extension is not [.amxd] (letter case aside)
    makes [export_amxd_file] raise [UsageError]; so does an output path that
    exists when [overwrite] is not set.  In both cases the world, and with
    it every file, is what it was before the call. *)
Theorem export_refuses_before_writing (patch : MaxPatch) (output_path : Path)
  (overwrite validate : bool) (timeout : json) (w : world) :
  (Py.lower (PathLib.suffix output_path) <> ".amxd" ->
     exists msg,
       export_amxd_file patch output_path overwrite validate timeout w
       = (Raise (UsageError msg), w))
  /\ (forall existing,
        Py.lower (PathLib.suffix output_path) = ".amxd" ->
        w_fs w !! output_path = Some existing ->
        overwrite = false ->
        (exists msg,
            export_amxd_file patch output_path overwrite validate timeout w
            = (Raise (UsageError msg), w))
        /\ w_fs (snd (export_amxd_file patch output_path overwrite validate timeout w))
             !! output_path = Some existing).
Proof.
  split.
  - intros H. apply String.eqb_neq in H. eexists.
    unfold export_amxd_file, mbind, lift, normalize_amxd_path. rewrite H. reflexivity.
  - intros existing Hs Hfs ->.
    assert (E : export_amxd_file patch output_path false validate timeout w
                = (Raise (UsageError ("output file already exists: "
                                      +:+ PathLib.str output_path
                                      +:+ " (pass --overwrite to replace)")), w)).
    { apply String.eqb_eq in Hs.
      unfold export_amxd_file, mbind, lift, normalize_amxd_path, PathLib.exists_.
      rewrite Hs. cbn [negb]. rewrite Hfs. reflexivity. }
    rewrite E. split; [eauto | exact Hfs].
Qed.

End ExportFacts.

Lemma export_refuses_before_writing_witness :
  let w := set_fs (<[ ["out"; "device.amxd"] := File "{}" ]> (<[ ["out"] := Dir ]> ∅)) demo_world in
  (exists msg,
      export_amxd_file (engine := fake_engine) (rt := stub_runtime) (validation := stub_validation)
        [] ["out"; "device.maxpat"] true false JNull w = (Raise (UsageError msg), w))
  /\ (exists msg,
        export_amxd_file (engine := fake_engine) (rt := stub_runtime) (validation := stub_validation)
          [] ["out"; "device.amxd"] false false JNull w = (Raise (UsageError msg), w)).
Proof.
  intros w. split.
  - apply (export_refuses_before_writing (engine := fake_engine) (rt := stub_runtime)
             (validation := stub_validation)). discriminate.
  - apply (proj2 (export_refuses_before_writing (engine := fake_engine) (rt := stub_runtime)
                    (validation := stub_validation) [] ["out"; "device.amxd"] false false JNull w)
             (File "{}")); reflexivity.
Defined.

(** ** [export_amxd_file]: the timeout is checked after the file is written *)

Lemma mkdir_parents_constants (p : Path) (w : world) :
  w_constants (snd (PathLib.mkdir_parents p w)) = w_constants w.
Proof.
  unfold PathLib.mkdir_parents. destruct (PathLib.mkdir_from [] p (w_fs w)). reflexivity.
Qed.

Section TimeoutFacts.
Context {engine : GraphEngine} {rt : PyRuntime} {validation : MaxValidation}.

Lemma write_patch_json_written (patch_dict : json) (p : Path) (w : world) :
  fst (_write_patch_json patch_dict p w) = Ok tt ->
  w_fs (snd (_write_patch_json patch_dict p w)) !! p = Some (File (json_dumps patch_dict))
  /\ w_constants (snd (_write_patch_json patch_dict p w)) = w_constants w.
Proof.
  unfold _write_patch_json, try_except_Exception, PathLib.write_text.
  destruct (w_fs w !! p) as [[c|]|] eqn:E; cbn [fst snd].
  - destruct p as [|a [|b q]]; cbn [fst snd]; intros H;
      try (split; [apply lookup_insert_eq | reflexivity]);
      try (destruct (isinstance _ _); discriminate H).
    destruct (w_fs w !! PathLib.parent (a :: b :: q)) as [[c'|]|]; cbn [fst snd] in *;
      try (split; [apply lookup_insert_eq | reflexivity]);
      destruct (isinstance _ _); discriminate H.
  - intros H. destruct (isinstance _ _); discriminate H.
  - destruct p as [|a [|b q]]; cbn [fst snd]; intros H;
      try (split; [apply lookup_insert_eq | reflexivity]);
      try (destruct (isinstance _ _); discriminate H).
    destruct (w_fs w !! PathLib.parent (a :: b :: q)) as [[c'|]|]; cbn [fst snd] in *;
      try (split; [apply lookup_insert_eq | reflexivity]);
      destruct (isinstance _ _); discriminate H.
Qed.

Lemma export_written (patch : MaxPatch) (p : Path) (overwrite validate : bool)
  (timeout : json) (w : world) :
  Py.lower (PathLib.suffix p) = ".amxd" ->
  w_fs w !! p = None \/ overwrite = true ->
  fst (PathLib.mkdir_parents (PathLib.parent p) w) = Ok tt ->
  let w1 := snd (PathLib.mkdir_parents (PathLib.parent p) w) in
  fst (_write_patch_json (get_json patch) p w1) = Ok tt ->
  let w2 := snd (_write_patch_json (get_json patch) p w1) in
  export_amxd_file patch p overwrite validate timeout w = after_write p validate timeout w2.
Proof.
  intros Hs Hfree Hmk w1 Hwr w2.
  assert (Hp : p <> []) by (intros ->; discriminate Hs).
  apply String.eqb_eq in Hs.
  unfold export_amxd_file, mbind at 1 2, lift, normalize_amxd_path, PathLib.exists_.
  rewrite Hs. cbn [negb].
  assert (Hcheck : match w_fs w !! p with
                   | Some _ => true
                   | None => match p with [] => true | _ => false end
                   end && negb overwrite = false).
  { destruct Hfree as [-> | ->]; [destruct p; [congruence | reflexivity]|].
    apply andb_false_r. }
  rewrite Hcheck. unfold mbind at 1.
  destruct (PathLib.mkdir_parents (PathLib.parent p) w) as [[[]|e1] w1'] eqn:E1;
    cbn [fst snd] in *; [|discriminate Hmk].
  subst w1. unfold mbind at 1.
  destruct (_write_patch_json (get_json patch) p w1') as [[[]|e2] w2'] eqn:E2;
    cbn [fst snd] in *; [|discriminate Hwr].
  subst w2. reflexivity.
Qed.

End TimeoutFacts.

Section TimeoutClaim.
Context {engine : GraphEngine} {rt : PyRuntime} {validation : MaxValidation}.

Lemma resolve_timeout_explicit (timeout : json) (w : world) :
  timeout <> JNull ->
  resolve_validation_timeout timeout w =
    match py_float timeout with
    | Ok resolved =>
        if PrimFloat.leb resolved 0%float
        then (Raise (UsageError "timeout must be greater than 0 seconds"), w)
        else (Ok resolved, w)
    | Raise exc =>
        if isinstance exc "TypeError" || isinstance exc "ValueError"
        then (Raise (ValidationError ("invalid validation timeout value: " +:+ py_str timeout)), w)
        else (Raise exc, w)
    end.
Proof.
  intros H. unfold resolve_validation_timeout, mbind.
  replace (match timeout with JNull => config_get "wait_time" | _ => ret timeout end w)
    with (@Ok json timeout, w) by (destruct timeout; congruence || reflexivity).
  destruct (py_float timeout) as [t|e]; [destruct (PrimFloat.leb t 0) | destruct (_ || _)];
    reflexivity.
Qed.

Lemma resolve_timeout_configured (v : json) (w : world) :
  Dict.get "wait_time" (w_constants w) = Some v ->
  resolve_validation_timeout JNull w =
    match py_float v with
    | Ok resolved =>
        if PrimFloat.leb resolved 0%float
        then (Raise (UsageError "timeout must be greater than 0 seconds"), w)
        else (Ok resolved, w)
    | Raise exc =>
        if isinstance exc "TypeError" || isinstance exc "ValueError"
        then (Raise (ValidationError ("invalid validation timeout value: " +:+ py_str v)), w)
        else (Raise exc, w)
    end.
Proof.
  intros H. unfold resolve_validation_timeout, mbind.
  replace (config_get "wait_time" w) with (@Ok json v, w)
    by (unfold config_get, get_constant; cbn; now rewrite H).
  destruct (py_float v) as [t|e]; [destruct (PrimFloat.leb t 0) | destruct (_ || _)];
    reflexivity.
Qed.

(** C10, as the code has it.  Suppose the path checks pass and the
    directory and the file are written, which leads to the world [w2]
    where the output path holds the serialised patch.  Then: without
    validation and without a timeout argument, the timeout is not resolved and the call returns; with a
    timeout argument, whatever [validate] is, a value that is not positive
    raises [UsageError] and a value that [float] rejects raises
    [ValidationError]; with validation and no timeout argument, the same
    holds of the configured wait time.  Each of these failures leaves the
    world [w2]: the file is there and no validation step has run. *)
Theorem export_timeout_after_write (patch : MaxPatch) (p : Path) (overwrite validate : bool)
  (timeout : json) (w : world) :
  Py.lower (PathLib.suffix p) = ".amxd" ->
  w_fs w !! p = None \/ overwrite = true ->
  fst (PathLib.mkdir_parents (PathLib.parent p) w) = Ok tt ->
  let w1 := snd (PathLib.mkdir_parents (PathLib.parent p) w) in
  fst (_write_patch_json (get_json patch) p w1) = Ok tt ->
  let w2 := snd (_write_patch_json (get_json patch) p w1) in
  let export := export_amxd_file patch p overwrite validate timeout w in
  let not_positive := Raise (UsageError "timeout must be greater than 0 seconds") in
  let not_numeric raw :=
    Raise (ValidationError ("invalid validation timeout value: " +:+ py_str raw)) in
  w_fs w2 !! p = Some (File (json_dumps (get_json patch)))
  /\ (validate = false -> timeout = JNull ->
      export = (Ok [ ("validated", JBool false); ("validation_requested", JBool false);
                     ("max_app_path", JNull); ("timeout_seconds", JNull);
                     ("output_extension", JStr ".amxd") ], w2))
  /\ (timeout <> JNull ->
      (forall t, py_float timeout = Ok t -> PrimFloat.leb t 0%float = true ->
                 export = (not_positive, w2))
      /\ (forall e, py_float timeout = Raise e ->
                    isinstance e "TypeError" || isinstance e "ValueError" = true ->
                    export = (not_numeric timeout, w2)))
  /\ (validate = true -> timeout = JNull ->
      forall configured, Dict.get "wait_time" (w_constants w) = Some configured ->
        (forall t, py_float configured = Ok t -> PrimFloat.leb t 0%float = true ->
                   export = (not_positive, w2))
        /\ (forall e, py_float configured = Raise e ->
                      isinstance e "TypeError" || isinstance e "ValueError" = true ->
                      export = (not_numeric configured, w2))).
Proof.
  intros Hs Hfree Hmk w1 Hwr w2 export not_positive not_numeric.
  subst export not_positive not_numeric. cbv beta.
  rewrite (export_written patch p overwrite validate timeout w Hs Hfree Hmk Hwr).
  fold w1. fold w2.
  destruct (write_patch_json_written _ _ _ Hwr) as [Hfile Hconst]. fold w2 in Hfile, Hconst.
  split; [exact Hfile|]. split; [|split].
  - intros -> ->. reflexivity.
  - intros Hexplicit.
    assert (Hres : validate || negb (match timeout with JNull => true | _ => false end) = true)
      by (destruct timeout; try congruence; apply orb_true_r).
    split.
    + intros t Ht Hle. unfold after_write, mbind at 1 2. rewrite Hres.
      rewrite (resolve_timeout_explicit _ _ Hexplicit), Ht, Hle. reflexivity.
    + intros e He Hcls. unfold after_write, mbind at 1 2. rewrite Hres.
      rewrite (resolve_timeout_explicit _ _ Hexplicit), He, Hcls. reflexivity.
  - intros -> -> configured Hcfg.
    assert (Hcfg2 : Dict.get "wait_time" (w_constants w2) = Some configured).
    { rewrite Hconst. subst w1. now rewrite mkdir_parents_constants. }
    split.
    + intros t Ht Hle. unfold after_write, mbind at 1 2. cbn [orb].
      rewrite (resolve_timeout_configured _ _ Hcfg2), Ht, Hle. reflexivity.
    + intros e He Hcls. unfold after_write, mbind at 1 2. cbn [orb].
      rewrite (resolve_timeout_configured _ _ Hcfg2), He, Hcls. reflexivity.
Qed.

End TimeoutClaim.

Lemma export_timeout_after_write_witness :
  let p := ["out"; "device.amxd"] in
  let export validate timeout :=
    export_amxd_file (engine := fake_engine) (rt := stub_runtime) (validation := stub_validation)
      [] p false validate timeout demo_world in
  fst (export false (JFloat 0%float))
    = Raise (UsageError "timeout must be greater than 0 seconds")
  /\ w_fs (snd (export false (JFloat 0%float))) !! p = Some (File "{}")
  /\ w_stdout (snd (export false (JFloat 0%float))) = ""
  /\ fst (export false (JStr "abc"))
     = Raise (ValidationError "invalid validation timeout value: abc")
  /\ fst (export true JNull)
     = Raise (ValidationError "invalid validation timeout value: soon")
  /\ w_stdout (snd (export true JNull)) = ""
  /\ exists data, fst (export false JNull) = Ok data.
Proof.
  intros p export.
  pose proof (fun validate timeout =>
    export_timeout_after_write (engine := fake_engine) (rt := stub_runtime)
      (validation := stub_validation) [] p false validate timeout demo_world
      eq_refl (or_introl eq_refl) eq_refl eq_refl) as H.
  cbv zeta in H.
  destruct (H false (JFloat 0%float)) as (_ & _ & Hexplicit & _).
  destruct (H false (JStr "abc")) as (_ & _ & Htext & _).
  destruct (H true JNull) as (_ & _ & _ & Hcfg).
  destruct (H false JNull) as (_ & Hskip & _).
  subst export. cbv beta.
  rewrite (proj1 (Hexplicit ltac:(discriminate)) 0%float eq_refl eq_refl).
  rewrite (proj2 (Htext ltac:(discriminate)) _ eq_refl eq_refl).
  rewrite (proj2 (Hcfg eq_refl eq_refl (JStr "soon") eq_refl) _ eq_refl eq_refl).
  rewrite (Hskip eq_refl eq_refl).
  repeat split; eauto.
Defined.

(** ** The [connect] command: resolution comes before mutation *)

Lemma collect_raise {A B} (body : A -> result B) (items : list A) (x : A) (e : exn) :
  In x items -> body x = Raise e -> exists e', collect body items = Raise e'.
Proof.
  induction items as [|y r IH]; intros Hin Hx; [destruct Hin|].
  cbn [collect]. destruct Hin as [-> | Hin].
  - rewrite Hx. eauto.
  - destruct (body y); cbn [bind]; [|eauto].
    destruct (IH Hin Hx) as [e' ->]. eauto.
Qed.

Section PipelineFs.
Context {rt : PyRuntime}.

Lemma emit_error_fs (ctx_cfg : CLIContext) (command : string) (error : exn) (code : Z)
  (w : world) :
  w_fs (snd (emit_error ctx_cfg command error code w)) = w_fs w.
Proof. unfold emit_error, mbind, _timestamp, echo. destruct (json_output ctx_cfg); reflexivity. Qed.

Lemma report_and_exit_fs (ctx_cfg : CLIContext) (command : string) (error : exn) (w : world) :
  w_fs (snd (report_and_exit ctx_cfg command error w)) = w_fs w
  /\ fst (report_and_exit ctx_cfg command error w) <> Returned.
Proof.
  unfold report_and_exit. destruct (exit_code error) as [code|]; [|split; [reflexivity | discriminate]].
  pose proof (emit_error_fs ctx_cfg command error code w) as E.
  destruct (emit_error ctx_cfg command error code w) as [[[]|e] w']; cbn [fst snd] in *;
    (split; [exact E | discriminate]).
Qed.

(** When the action raises, [_run_command] does not return normally and
    leaves the files as the action left them. *)
Lemma run_command_raise_fs (ctx_cfg : CLIContext) (command : string)
  (action : M (option pydict)) (w wa : world) (exc : exn) :
  action (action_world ctx_cfg w) = (Raise exc, wa) ->
  w_fs (snd (_run_command ctx_cfg command action w)) = w_fs wa
  /\ fst (_run_command ctx_cfg command action w) <> Returned.
Proof.
  intros Hact. destruct (run_body_raise ctx_cfg command action w wa exc Hact) as [d Hbody].
  assert (Hfs : w_fs (world_after_failure ctx_cfg w wa) = w_fs wa)
    by (unfold world_after_failure; destruct (json_output ctx_cfg); reflexivity).
  unfold _run_command. rewrite Hbody.
  repeat match goal with
         | |- context [if ?b then _ else _] => destruct b
         end;
    try (rewrite <- Hfs; apply report_and_exit_fs);
    (split; [exact Hfs | discriminate]).
Qed.

End PipelineFs.

Section ConnectFacts.
Context {engine : GraphEngine} {rt : PyRuntime}.

Lemma resolve_connections_raise (patch : MaxPatch)
  (edges from_endpoints to_endpoints : list string) :
  (exists edge e, In edge edges /\ resolve_edge patch edge = Raise e)
  \/ (exists pair e, In pair (combine from_endpoints to_endpoints)
                     /\ resolve_from_to patch pair = Raise e) ->
  exists e, resolve_connections patch edges from_endpoints to_endpoints = Raise e.
Proof.
  unfold resolve_connections. intros [(edge & e & Hin & He) | (pair & e & Hin & He)].
  - destruct (collect_raise _ _ _ _ Hin He) as [e' ->]. eauto.
  - destruct (collect (resolve_edge patch) edges); cbn [bind]; [|eauto].
    destruct (collect_raise _ _ _ _ Hin He) as [e' ->]. eauto.
Qed.

Lemma connect_action_checked (ctx_cfg : CLIContext) (input_path : Path)
  (output_path : option Path) (edges from_endpoints to_endpoints : list string) :
  connect_args_ok edges from_endpoints to_endpoints ->
  connect_action ctx_cfg input_path output_path edges from_endpoints to_endpoints =
    (do patch <- load_patch input_path (verbose ctx_cfg);
     do resolved_output <-
       lift (resolve_output_path (Some input_path) output_path (in_place ctx_cfg) false);
     do resolved <- lift (resolve_connections patch edges from_endpoints to_endpoints);
     do patch <- connect patch (map fst resolved) (verbose ctx_cfg);
     _finalize_mutation ctx_cfg patch input_path resolved_output
       ("connected " +:+ Py.str_of_int (Py.len (map fst resolved)) +:+ " edge(s)")
       [("connected", JInt (Py.len (map fst resolved)))]
       (JDict [("connections", JList (map snd resolved))])
       (JStr "maxpylang.cli.connect.data.v1"))%io.
Proof.
  intros [Hsome Hlen]. unfold connect_action.
  apply Nat.eqb_eq in Hlen. rewrite Hlen. cbn [negb].
  destruct edges as [|e1 edges], from_endpoints as [|f1 fs], to_endpoints as [|t1 ts];
    try discriminate Hlen; cbn; try reflexivity.
  destruct Hsome; congruence.
Qed.

(** C6.  Let the patch be loaded, which leads to the world [w1].  An edge
    or a from/to pair that fails to parse or resolve makes the two
    resolution loops fail as a whole.  When they fail, the action raises in
    a world that is the one before the call or [w1]: [patch.connect] and
    the save have not run.  When the argument checks pass and the output
    path is settled, it raises that very exception in [w1]; the command as
    a whole then does not return normally and the files are those of [w1].
    When the loops succeed, [patch.connect] receives all connections at
    once, after them. *)
Theorem connect_resolves_before_mutation (ctx_cfg : CLIContext) (input_path : Path)
  (output_path : option Path) (edges from_endpoints to_endpoints : list string)
  (w w1 : world) (patch : MaxPatch) :
  let w0 := action_world ctx_cfg w in
  let action :=
    connect_action ctx_cfg input_path output_path edges from_endpoints to_endpoints in
  load_patch input_path (verbose ctx_cfg) w0 = (Ok patch, w1) ->
  ((exists edge e, In edge edges /\ resolve_edge patch edge = Raise e)
   \/ (exists pair e, In pair (combine from_endpoints to_endpoints)
                      /\ resolve_from_to patch pair = Raise e) ->
   exists e, resolve_connections patch edges from_endpoints to_endpoints = Raise e)
  /\ (forall e,
        resolve_connections patch edges from_endpoints to_endpoints = Raise e ->
        (exists e' w', action w0 = (Raise e', w') /\ (w' = w0 \/ w' = w1))
        /\ (forall out,
              connect_args_ok edges from_endpoints to_endpoints ->
              resolve_output_path (Some input_path) output_path (in_place ctx_cfg) false
                = Ok out ->
              action w0 = (Raise e, w1)
              /\ fst (connect_command ctx_cfg input_path output_path
                        edges from_endpoints to_endpoints w) <> Returned
              /\ w_fs (snd (connect_command ctx_cfg input_path output_path
                              edges from_endpoints to_endpoints w)) = w_fs w1))
  /\ (forall out resolved,
        connect_args_ok edges from_endpoints to_endpoints ->
        resolve_output_path (Some input_path) output_path (in_place ctx_cfg) false = Ok out ->
        resolve_connections patch edges from_endpoints to_endpoints = Ok resolved ->
        action w0 =
          (do patch' <- connect patch (map fst resolved) (verbose ctx_cfg);
           _finalize_mutation ctx_cfg patch' input_path out
             ("connected " +:+ Py.str_of_int (Py.len (map fst resolved)) +:+ " edge(s)")
             [("connected", JInt (Py.len (map fst resolved)))]
             (JDict [("connections", JList (map snd resolved))])
             (JStr "maxpylang.cli.connect.data.v1"))%io w1).
Proof.
  intros w0 action Hload. subst action.
  split; [apply resolve_connections_raise|]. split.
  - intros e He.
    assert (Hchecked : forall out,
               connect_args_ok edges from_endpoints to_endpoints ->
               resolve_output_path (Some input_path) output_path (in_place ctx_cfg) false
                 = Ok out ->
               connect_action ctx_cfg input_path output_path edges from_endpoints
                 to_endpoints w0 = (Raise e, w1)).
    { intros out Hargs Hout. rewrite (connect_action_checked _ _ _ _ _ _ Hargs).
      unfold mbind at 1. rewrite Hload. unfold mbind at 1, lift at 1. rewrite Hout.
      unfold mbind at 1, lift at 1. rewrite He. reflexivity. }
    split.
    + unfold connect_action.
      destruct (_ && _ && _); [unfold raise; eauto|].
      destruct (negb (Bool.eqb _ _)); [unfold raise; eauto|].
      destruct (negb (_ =? _)%nat); [unfold raise; eauto|].
      unfold mbind at 1. rewrite Hload. unfold mbind at 1, lift at 1.
      destruct (resolve_output_path _ _ _ _) as [out|e']; [|eauto].
      unfold mbind at 1, lift at 1. rewrite He. eauto.
    + intros out Hargs Hout. pose proof (Hchecked out Hargs Hout) as Hact.
      split; [exact Hact|].
      destruct (run_command_raise_fs ctx_cfg "connect" _ w w1 e Hact) as [Hfs Hret].
      split; [exact Hret | exact Hfs].
  - intros out resolved Hargs Hout Hres. rewrite (connect_action_checked _ _ _ _ _ _ Hargs).
    unfold mbind at 1. rewrite Hload. unfold mbind at 1, lift at 1. rewrite Hout.
    unfold mbind at 1, lift at 1. rewrite Hres. reflexivity.
Qed.

End ConnectFacts.

Lemma connect_resolves_before_mutation_witness :
  let w := set_fs (<[ ["in.maxpat"] := File "{}" ]> ∅) demo_world in
  let run edges :=
    connect_command (engine := fake_engine) (rt := stub_runtime) (demo_ctx false)
      ["in.maxpat"] (Some ["out.maxpat"]) edges [] [] w in
  fst (run ["obj-1:0->obj-2:1"; "obj-1:0->obj-2:5"]) <> Returned
  /\ w_fs (snd (run ["obj-1:0->obj-2:1"; "obj-1:0->obj-2:5"])) = w_fs w
  /\ fst (run ["obj-1:0->obj-2:1"; "obj-1:0->gain:0"]) <> Returned
  /\ w_fs (snd (run ["obj-1:0->obj-2:1"; "obj-1:0->gain:0"])) = w_fs w
  /\ fst (run ["obj-1:0->obj-2:1"; "osc:0->obj-2:0"]) = Returned
  /\ w_fs (snd (run ["obj-1:0->obj-2:1"; "osc:0->obj-2:0"])) !! ["/out.maxpat"]
     = Some (File "saved").
Proof.
  intros w run. subst run. cbv beta.
  assert (Hload : load_patch (engine := fake_engine) ["in.maxpat"] false
                    (action_world (demo_ctx false) w)
                  = (Ok [("obj-1", _FakeObject (JStr "osc") 1 1); ("obj-2", _FakeObject JNull 2 1)],
                     w)) by reflexivity.
  assert (Hargs : forall e1 e2, connect_args_ok [e1; e2] [] [])
    by (intros; split; [left; discriminate | reflexivity]).
  pose proof (fun edges =>
    proj1 (proj2 (connect_resolves_before_mutation (engine := fake_engine) (rt := stub_runtime)
                    (demo_ctx false) ["in.maxpat"] (Some ["out.maxpat"]) edges [] [] w w _ Hload)))
    as H.
  destruct (proj2 (H ["obj-1:0->obj-2:1"; "obj-1:0->obj-2:5"] _ eq_refl)
              ["out.maxpat"] (Hargs _ _) eq_refl) as (_ & R1 & F1).
  destruct (proj2 (H ["obj-1:0->obj-2:1"; "obj-1:0->gain:0"] _ eq_refl)
              ["out.maxpat"] (Hargs _ _) eq_refl) as (_ & R2 & F2).
  split; [exact R1|]. split; [exact F1|]. split; [exact R2|]. split; [exact F2|].
  split; reflexivity.
Defined.

(** Against C10 as stated: without validation the configured wait time is
    never read.  The store holds the text [soon], which [float] rejects,
    and the export returns normally, with or without a timeout argument. *)
Lemma export_ignores_configured_timeout :
  Dict.get "wait_time" (w_constants demo_world) = Some (JStr "soon")
  /\ (exists e, py_float (rt := stub_runtime) (JStr "soon") = Raise e
                /\ isinstance e "ValueError" = true)
  /\ fst (export_amxd_file (engine := fake_engine) (rt := stub_runtime)
            (validation := stub_validation) [] ["out"; "device.amxd"] false false JNull
            demo_world)
     = Ok [ ("validated", JBool false); ("validation_requested", JBool false);
            ("max_app_path", JNull); ("timeout_seconds", JNull);
            ("output_extension", JStr ".amxd") ]
  /\ fst (export_amxd_file (engine := fake_engine) (rt := stub_runtime)
            (validation := stub_validation) [] ["out"; "device.amxd"] false false
            (JFloat 2.5%float) demo_world)
     = Ok [ ("validated", JBool false); ("validation_requested", JBool false);
            ("max_app_path", JNull); ("timeout_seconds", JFloat 2.5%float);
            ("output_extension", JStr ".amxd") ].
Proof.
  split; [reflexivity|]. split; [eexists; split; reflexivity|].
  split; reflexivity.
Qed.

(* ================================================================== *)
(** * Part III, continued: further properties of the sources *)
(* ================================================================== *)

(** ** Trimming *)

Lemma lstrip_head (s : string) :
  match Py.lstrip s with
  | EmptyString => True
  | String c _ => Py.isspace c = false
  end.
Proof.
  induction s as [|c r IH]; simpl; [exact I|].
  destruct (Py.isspace c) eqn:Hc; [exact IH | exact Hc].
Qed.

Lemma rstrip_idem (s : string) : Py.rstrip (Py.rstrip s) = Py.rstrip s.
Proof.
  induction s as [|c r IH]; simpl; [reflexivity|].
  destruct (Py.rstrip r) as [|d r'] eqn:Hr.
  - destruct (Py.isspace c) eqn:Hc; simpl; [reflexivity | rewrite Hc; reflexivity].
  - simpl in IH |- *. rewrite IH. reflexivity.
Qed.

Lemma rstrip_head (c : ascii) (r : string) :
  Py.isspace c = false -> exists r', Py.rstrip (String c r) = String c r'.
Proof.
  intros Hc. simpl. destruct (Py.rstrip r) as [|d r'].
  - rewrite Hc. eexists; reflexivity.
  - eexists; reflexivity.
Qed.

Lemma strip_idem (s : string) : Py.strip (Py.strip s) = Py.strip s.
Proof.
  unfold Py.strip. pose proof (lstrip_head s) as H.
  destruct (Py.lstrip s) as [|c r]; [reflexivity|].
  destruct (rstrip_head c r H) as [r' Hr]. rewrite Hr.
  simpl Py.lstrip. rewrite H. rewrite <- Hr. apply rstrip_idem.
Qed.

(** ** Dictionaries *)

Lemma dict_get_In {V} (k : string) (v : V) (d : list (string * V)) :
  Dict.get k d = Some v -> In (k, v) d.
Proof.
  induction d as [|[k' v'] r IH]; simpl; [discriminate|].
  destruct (String.eqb k k') eqn:E.
  - apply String.eqb_eq in E. subst k'. intros [= ->]. left; reflexivity.
  - intros H. right. exact (IH H).
Qed.

Section SelectorFacts.
Context {engine : GraphEngine}.

(** The alias that the second half of [resolve_selector] looks up. *)
Lemma resolve_selector_cases (patch : MaxPatch) (selector : string) :
  let s := Py.strip selector in
  (s = "" /\ resolve_selector patch selector = Raise (UsageError "selector cannot be empty"))
  \/ (s <> "" /\ exists obj, Dict.get s (objs patch) = Some obj
                             /\ resolve_selector patch selector = Ok (s, obj))
  \/ (s <> "" /\ Dict.get s (objs patch) = None /\ Py.startswith "@alias:" s = true
      /\ Py.strip (Py.drop 7 s) = ""
      /\ resolve_selector patch selector
         = Raise (UsageError "alias selector must be formatted as @alias:<name>"))
  \/ (s <> "" /\ Dict.get s (objs patch) = None /\ Py.startswith "@alias:" s = false
      /\ Py.startswith "obj-" s = true
      /\ resolve_selector patch selector
         = Raise (ObjectResolutionError ("object not found: " +:+ s)))
  \/ (exists alias, selects_alias patch selector alias
                    /\ resolve_selector patch selector = alias_lookup patch alias).
Proof.
  intros s. subst s. unfold resolve_selector.
  destruct (String.eqb (Py.strip selector) "") eqn:He.
  { left. apply String.eqb_eq in He. split; [exact He | reflexivity]. }
  apply String.eqb_neq in He. right.
  destruct (Dict.get (Py.strip selector) (objs patch)) as [obj|] eqn:Hg.
  { left. split; [exact He|]. exists obj. split; reflexivity. }
  right.
  destruct (Py.startswith "@alias:" (Py.strip selector)) eqn:Ha.
  - rewrite (alias_form_rest _ Ha).
    destruct (String.eqb (Py.strip (Py.drop 7 (Py.strip selector))) "") eqn:Hn.
    + left. apply String.eqb_eq in Hn. repeat split; assumption.
    + right. right. apply String.eqb_neq in Hn.
      exists (Py.strip (Py.drop 7 (Py.strip selector))). split; [|reflexivity].
      unfold selects_alias. repeat split; try assumption. left. repeat split; assumption.
  - right. destruct (Py.startswith "obj-" (Py.strip selector)) eqn:Ho; simpl.
    + left. repeat split; assumption.
    + right. exists (Py.strip selector). split; [|reflexivity].
      unfold selects_alias. repeat split; try assumption. right. repeat split; assumption.
Qed.

Lemma alias_lookup_In (patch : MaxPatch) (alias label : string)
  (obj : MaxObject Inlet Outlet) :
  alias_lookup patch alias = Ok (label, obj) ->
  In (label, obj) (objs patch) /\ alias_matches alias obj = true.
Proof.
  rewrite alias_lookup_matches. unfold alias_matches_of.
  destruct (List.filter _ (objs patch)) as [|m [|m' ms]] eqn:Hf; try discriminate.
  intros [= ->].
  assert (Hin : In (label, obj) (List.filter (fun kv => alias_matches alias (snd kv)) (objs patch)))
    by (rewrite Hf; left; reflexivity).
  apply filter_In in Hin. exact Hin.
Qed.

Lemma alias_lookup_error (patch : MaxPatch) (alias : string) (e : exn) :
  alias_lookup patch alias = Raise e ->
  exists msg, e = ObjectResolutionError msg /\ names msg alias.
Proof.
  rewrite alias_lookup_matches.
  destruct (alias_matches_of patch alias) as [|m [|m' ms]]; try discriminate; intros [= <-].
  - eexists. split; [reflexivity|]. exists "alias not found: ", "".
    now rewrite append_nil_r.
  - eexists. split; [reflexivity|]. exists "alias '". eexists. reflexivity.
Qed.

End SelectorFacts.

(** ** More on [resolve_selector] *)

Section SelectorProperties.
Context {engine : GraphEngine}.

(** X1.  Whatever [resolve_selector] returns is an entry of the mapping of
    the patch: the label comes with its own object.  The label is the
    trimmed selector, or the object carries the alias that the selector
    names. *)
Theorem resolve_selector_returns_member (patch : MaxPatch) (selector label : string)
  (obj : MaxObject Inlet Outlet) :
  resolve_selector patch selector = Ok (label, obj) ->
  In (label, obj) (objs patch)
  /\ (label = Py.strip selector
      \/ exists alias, selects_alias patch selector alias /\ alias_matches alias obj = true).
Proof.
  intros H.
  destruct (resolve_selector_cases patch selector)
    as [[_ E]|[(_ & o & Hg & E)|[(_ & _ & _ & _ & E)|[(_ & _ & _ & _ & E)|(alias & Hs & E)]]]];
    rewrite E in H; try discriminate.
  - injection H as <- <-. split; [apply dict_get_In; exact Hg | left; reflexivity].
  - destruct (alias_lookup_In _ _ _ _ H) as [Hin Hm].
    split; [exact Hin|]. right. exists alias. split; assumption.
Qed.

(** X2.  [resolve_selector] fails in two ways only.  It raises [UsageError]
    (exit code 2) when the trimmed selector is empty or is [@alias:] followed
    by nothing but blanks; otherwise it raises [ObjectResolutionError] (exit
    code 3), the trimmed selector is not a key of the patch, and the message
    names the text that was looked up. *)
Theorem resolve_selector_failure_kinds (patch : MaxPatch) (selector : string) (e : exn) :
  resolve_selector patch selector = Raise e ->
  let s := Py.strip selector in
  (exists msg, e = UsageError msg /\ exit_code e = Some 2
               /\ (s = "" \/ (Py.startswith "@alias:" s = true
                              /\ Py.strip (Py.drop 7 s) = "")))
  \/ (exists msg text, e = ObjectResolutionError msg /\ exit_code e = Some 3
                       /\ s <> "" /\ Dict.get s (objs patch) = None
                       /\ names msg text
                       /\ (text = s \/ text = Py.strip (Py.drop 7 s))).
Proof.
  intros H s. subst s.
  destruct (resolve_selector_cases patch selector)
    as [[Hs E]|[(_ & o & Hg & E)|[(Hs & Hg & Ha & Hn & E)|[(Hs & Hg & Ha & Ho & E)
                                                          |(alias & Hs & E)]]]];
    rewrite E in H; try discriminate.
  - injection H as <-. left. eexists. repeat split. left. exact Hs.
  - injection H as <-. left. eexists. repeat split. right. split; assumption.
  - injection H as <-. right. eexists. exists (Py.strip selector).
    repeat split; try assumption; [|left; reflexivity].
    exists "object not found: ", "". now rewrite append_nil_r.
  - destruct (alias_lookup_error _ _ _ H) as (msg & -> & Hnames).
    destruct Hs as (Hne & Hg & Hform).
    right. exists msg, alias. repeat split; try assumption.
    destruct Hform as [(_ & -> & _)|(_ & _ & ->)]; [right | left]; reflexivity.
Qed.

(** X3.  Blanks around a selector do not matter: the trimmed selector
    resolves as the selector does, for objects, outlets and inlets. *)
Theorem resolve_selector_ignores_blanks (patch : MaxPatch) (selector : string) (index : Z) :
  resolve_selector patch (Py.strip selector) = resolve_selector patch selector
  /\ resolve_outlet patch (Py.strip selector) index = resolve_outlet patch selector index
  /\ resolve_inlet patch (Py.strip selector) index = resolve_inlet patch selector index.
Proof.
  assert (H : resolve_selector patch (Py.strip selector) = resolve_selector patch selector)
    by (unfold resolve_selector; rewrite strip_idem; reflexivity).
  unfold resolve_outlet, resolve_inlet. rewrite H. repeat split.
Qed.

End SelectorProperties.

Lemma resolve_selector_returns_member_witness :
  let patch := [("obj-1", _FakeObject (JStr "osc") 1 1); ("obj-2", _FakeObject JNull 1 1)] in
  In ("obj-1", _FakeObject (JStr "osc") 1 1) patch
  /\ ("obj-1" = Py.strip " @alias:osc "
      \/ exists alias, selects_alias (engine := fake_engine) patch " @alias:osc " alias
                       /\ alias_matches (engine := fake_engine) alias
                            (_FakeObject (JStr "osc") 1 1) = true).
Proof.
  intros patch.
  apply (resolve_selector_returns_member (engine := fake_engine) patch " @alias:osc ").
  reflexivity.
Defined.

Lemma resolve_selector_failure_kinds_witness :
  let patch := [("obj-1", _FakeObject (JStr "osc") 1 1)] in
  let e := ObjectResolutionError "object not found: obj-7" in
  let s := Py.strip "obj-7 " in
  (exists msg, e = UsageError msg /\ exit_code e = Some 2
               /\ (s = "" \/ (Py.startswith "@alias:" s = true
                              /\ Py.strip (Py.drop 7 s) = "")))
  \/ (exists msg text, e = ObjectResolutionError msg /\ exit_code e = Some 3
                       /\ s <> "" /\ Dict.get s (objs (GraphEngine := fake_engine) patch) = None
                       /\ names msg text
                       /\ (text = s \/ text = Py.strip (Py.drop 7 s))).
Proof.
  intros patch e.
  apply (resolve_selector_failure_kinds (engine := fake_engine) patch "obj-7 " e).
  reflexivity.
Defined.

(** ** Texts without blanks, digits *)

Lemma rstrip_app_id (p a : string) :
  Py.rstrip a = a -> a <> "" -> Py.rstrip (p +:+ a) = p +:+ a.
Proof.
  intros Ha Hne. induction p as [|c p IH]; simpl; [exact Ha|].
  rewrite IH. destruct (p +:+ a) eqn:E; [|reflexivity].
  destruct p; simpl in E; [contradiction | discriminate].
Qed.

Lemma rstrip_no_space (s : string) :
  Forall (fun c => Py.isspace c = false) (list_ascii_of_string s) -> Py.rstrip s = s.
Proof.
  induction s as [|c r IH]; simpl; [reflexivity|].
  intros H. inversion H as [|? ? Hc Hr]; subst. rewrite (IH Hr).
  destruct r; [rewrite Hc|]; reflexivity.
Qed.

Lemma strip_no_space (s : string) :
  Forall (fun c => Py.isspace c = false) (list_ascii_of_string s) -> Py.strip s = s.
Proof.
  intros H. unfold Py.strip.
  assert (Hl : Py.lstrip s = s).
  { destruct s as [|c r]; [reflexivity|]. simpl. inversion H; subst.
    match goal with Hc : Py.isspace c = false |- _ => rewrite Hc end. reflexivity. }
  rewrite Hl. apply rstrip_no_space. exact H.
Qed.

Lemma digit_not_space (c : ascii) : Py.is_digit c = true -> Py.isspace c = false.
Proof.
  unfold Py.is_digit, Py.isspace. intros H.
  apply andb_prop in H as [H1 H2]. apply N.leb_le in H1, H2.
  repeat match goal with
         | |- _ || _ = false => apply orb_false_intro
         | |- _ && _ = false => apply andb_false_iff
         end;
    try (apply N.eqb_neq; lia);
    try (left; apply N.leb_gt; lia); try (right; apply N.leb_gt; lia).
Qed.

Lemma uint_all_digits (d : Decimal.uint) :
  Forall (fun c => Py.is_digit c = true) (list_ascii_of_string (NilEmpty.string_of_uint d)).
Proof. induction d; simpl; constructor; auto. Qed.

Lemma str_of_int_digits (n : Z) :
  0 <= n -> Forall (fun c => Py.is_digit c = true) (list_ascii_of_string (Py.str_of_int n)).
Proof.
  intros Hn. unfold Py.str_of_int. destruct n as [|p|p]; [| |lia].
  - simpl. repeat constructor.
  - simpl. destruct (Pos.to_uint p) eqn:E; try apply uint_all_digits.
    simpl. repeat constructor.
Qed.

Lemma contains_no_first (c0 : ascii) (sep s : string) :
  Forall (fun c => c <> c0) (list_ascii_of_string s) -> Py.contains (String c0 sep) s = false.
Proof.
  induction s as [|c r IH]; simpl; [reflexivity|].
  intros H. inversion H as [|? ? Hc Hr]; subst.
  rewrite (IH Hr). destruct (Ascii.eqb c0 c) eqn:E; [|reflexivity].
  apply Ascii.eqb_eq in E. congruence.
Qed.

Lemma digits_without (c0 : ascii) (sep s : string) :
  Py.is_digit c0 = false ->
  Forall (fun c => Py.is_digit c = true) (list_ascii_of_string s) ->
  Py.contains (String c0 sep) s = false.
Proof.
  intros H0 H. apply contains_no_first.
  eapply List.Forall_impl; [|exact H]. simpl. intros c Hc ->. congruence.
Qed.

Lemma str_of_int_strip (n : Z) : 0 <= n -> Py.strip (Py.str_of_int n) = Py.str_of_int n.
Proof.
  intros Hn. apply strip_no_space.
  eapply List.Forall_impl; [|exact (str_of_int_digits n Hn)]. exact digit_not_space.
Qed.

(** ** The arrow of an edge *)

Lemma contains_arrow_app (a b : string) :
  Py.contains "->" a = false -> Py.contains "->" b = false -> Py.startswith ">" b = false ->
  Py.contains "->" (a +:+ b) = false.
Proof.
  intros Ha Hb Hs. induction a as [|c a IH]; [exact Hb|].
  change (Py.startswith "->" (String c a) || Py.contains "->" a = false) in Ha.
  apply orb_false_elim in Ha as [H1 H2].
  change (Py.startswith "->" (String c (a +:+ b)) || Py.contains "->" (a +:+ b) = false).
  rewrite (IH H2), orb_false_r.
  change (Ascii.eqb "-" c && Py.startswith ">" a = false) in H1.
  change (Ascii.eqb "-" c && Py.startswith ">" (a +:+ b) = false).
  destruct (Ascii.eqb "-" c); [|reflexivity]. rewrite andb_true_l in H1 |- *.
  destruct a as [|d a]; [exact Hs | exact H1].
Qed.

Lemma split1_arrow (x y : string) :
  Py.contains "->" x = false -> Py.split1 "->" (x +:+ "->" +:+ y) = [x; y].
Proof.
  induction x as [|c x IH]; intros Hx; [reflexivity|].
  change (Py.startswith "->" (String c x) || Py.contains "->" x = false) in Hx.
  apply orb_false_elim in Hx as [H1 H2].
  change (String c x +:+ "->" +:+ y) with (String c (x +:+ "->" +:+ y)).
  cbn [Py.split1].
  assert (Hs : Py.startswith "->" (String c (x +:+ "->" +:+ y)) = false).
  { change (Ascii.eqb "-" c && Py.startswith ">" x = false) in H1.
    change (Ascii.eqb "-" c && Py.startswith ">" (x +:+ "->" +:+ y) = false).
    destruct (Ascii.eqb "-" c); [|reflexivity]. rewrite andb_true_l in H1 |- *.
    destruct x as [|d x]; [reflexivity | exact H1]. }
  rewrite Hs, (IH H2). reflexivity.
Qed.

Lemma parse_endpoint_formatted (selector : string) (index : Z) :
  Py.strip selector <> "" -> 0 <= index ->
  parse_endpoint (selector +:+ ":" +:+ Py.str_of_int index) = Ok (Py.strip selector, index).
Proof.
  intros Hs Hi.
  rewrite parse_endpoint_last_colon
    by (apply digits_without; [reflexivity | apply str_of_int_digits; exact Hi]).
  apply endpoint_outcome_ok; [exact Hs | | exact Hi].
  rewrite str_of_int_strip by exact Hi. apply int_str_of_int.
Qed.

(** X4.  An edge written in the documented form
    [<src>:<outlet>-><dst>:<inlet>] is read back as it was written: for a
    source selector without an arrow, selectors that are not blank and port
    numbers that are not negative, [parse_edge] returns the trimmed
    selectors and the two numbers.  The destination selector may contain
    arrows and colons. *)
Theorem parse_edge_formatted (src dst : string) (outlet inlet : Z) :
  Py.contains "->" src = false ->
  Py.strip src <> "" -> Py.strip dst <> "" -> 0 <= outlet -> 0 <= inlet ->
  parse_edge (src +:+ ":" +:+ Py.str_of_int outlet +:+ "->"
              +:+ dst +:+ ":" +:+ Py.str_of_int inlet)
  = Ok (Py.strip src, outlet, Py.strip dst, inlet).
Proof.
  intros Harrow Hs Hd Ho Hi.
  set (a := src +:+ ":" +:+ Py.str_of_int outlet).
  set (b := dst +:+ ":" +:+ Py.str_of_int inlet).
  assert (E : src +:+ ":" +:+ Py.str_of_int outlet +:+ "->" +:+ b = a +:+ "->" +:+ b).
  { unfold a. now rewrite !append_assoc. }
  rewrite E. clear E.
  assert (Ha : Py.contains "->" a = false).
  { unfold a. apply contains_arrow_app; [exact Harrow | | reflexivity].
    change (":" +:+ Py.str_of_int outlet) with (String ":" (Py.str_of_int outlet)).
    cbn [Py.contains Py.startswith]. simpl.
    apply digits_without; [reflexivity | apply str_of_int_digits; exact Ho]. }
  unfold parse_edge.
  assert (Hc : Py.contains "->" (a +:+ "->" +:+ b) = true)
    by (apply contains_iff; exists a, b; reflexivity).
  rewrite Hc, (split1_arrow a b Ha). simpl negb. cbv iota.
  unfold a, b. rewrite !parse_endpoint_formatted by assumption. reflexivity.
Qed.

Lemma parse_edge_formatted_witness :
  parse_edge (" @alias:osc " +:+ ":" +:+ Py.str_of_int 0 +:+ "->"
              +:+ "a->b" +:+ ":" +:+ Py.str_of_int 12)
  = Ok (Py.strip " @alias:osc ", 0, Py.strip "a->b", 12).
Proof.
  apply (parse_edge_formatted " @alias:osc " "a->b" 0 12);
    [reflexivity | discriminate | discriminate | lia | lia].
Defined.

Section PrefixedAlias.
Context {engine : GraphEngine}.

(** X5.  An alias that begins with [obj-] cannot be selected by its bare
    name: when it is not a key of the patch the bare name is reported as an
    object that was not found, although exactly one object carries the
    alias, and the same alias in the form [@alias:<name>] selects that
    object. *)
Theorem obj_prefixed_alias_needs_alias_form (patch : MaxPatch) (alias : string)
  (m : string * MaxObject Inlet Outlet) :
  Py.strip alias = alias -> Py.startswith "obj-" alias = true ->
  Dict.get alias (objs patch) = None ->
  Dict.get ("@alias:" +:+ alias) (objs patch) = None ->
  alias_matches_of patch alias = [m] ->
  resolve_selector patch alias = Raise (ObjectResolutionError ("object not found: " +:+ alias))
  /\ resolve_selector patch ("@alias:" +:+ alias) = Ok m.
Proof.
  intros Hstrip Hobj Hkey Hkey' Hm.
  destruct (startswith_inv _ _ Hobj) as [r Hr].
  assert (Hne : alias <> "") by (rewrite Hr; discriminate).
  split.
  - unfold resolve_selector. rewrite Hstrip.
    destruct (String.eqb alias "") eqn:E; [apply String.eqb_eq in E; contradiction|].
    rewrite Hkey, Hobj. rewrite Hr. reflexivity.
  - assert (Hrs : Py.rstrip alias = alias).
    { unfold Py.strip in Hstrip. rewrite Hr in Hstrip |- *. exact Hstrip. }
    assert (Hst : Py.strip ("@alias:" +:+ alias) = "@alias:" +:+ alias).
    { unfold Py.strip. change (Py.lstrip ("@alias:" +:+ alias)) with ("@alias:" +:+ alias).
      apply rstrip_app_id; assumption. }
    rewrite (resolve_selector_alias_lookup patch ("@alias:" +:+ alias) alias).
    + rewrite alias_lookup_matches, Hm. reflexivity.
    + unfold selects_alias. rewrite Hst. split; [discriminate|]. split; [exact Hkey'|].
      left. split; [reflexivity|]. split; [|exact Hne].
      change (Py.drop 7 ("@alias:" +:+ alias)) with alias. symmetry. exact Hstrip.
Qed.

End PrefixedAlias.

Lemma obj_prefixed_alias_needs_alias_form_witness :
  let patch := [("obj-1", _FakeObject (JStr "obj-9") 1 1); ("obj-2", _FakeObject JNull 1 1)] in
  resolve_selector (engine := fake_engine) patch "obj-9"
    = Raise (ObjectResolutionError ("object not found: " +:+ "obj-9"))
  /\ resolve_selector (engine := fake_engine) patch ("@alias:" +:+ "obj-9")
     = Ok ("obj-1", _FakeObject (JStr "obj-9") 1 1).
Proof.
  intros patch.
  apply (obj_prefixed_alias_needs_alias_form (engine := fake_engine) patch "obj-9");
    reflexivity.
Defined.

(** ** [io.py]: loading and saving *)

Section PatchIOProperties.
Context {engine : GraphEngine}.

(** X6.  [load_patch] asks the engine for a patch only when the path is a
    regular file: a missing path and a directory are reported as
    [UsageError] and leave the world as it is.  When the engine raises, a
    [FileNotFoundError] becomes [UsageError] and any other exception of class
    [Exception] becomes a [ValidationError] that carries its text; so every
    such failure of [load_patch] has exit code 2 or 4. *)
Theorem load_patch_failures (path : Path) (verbose : bool) (w : world) :
  (path <> [] -> w_fs w !! path = None ->
     load_patch path verbose w
     = (Raise (UsageError ("input patch not found: " +:+ PathLib.str path)), w))
  /\ (w_fs w !! path = Some Dir ->
      load_patch path verbose w
      = (Raise (UsageError ("input patch must be a file: " +:+ PathLib.str path)), w))
  /\ (forall content exc w',
        w_fs w !! path = Some (File content) ->
        load_file (PathLib.str path) verbose w = (Raise exc, w') ->
        load_patch path verbose w
        = (Raise (if isinstance exc "FileNotFoundError"
                  then UsageError ("input patch not found: " +:+ PathLib.str path)
                  else if isinstance exc "Exception"
                       then ValidationError ("failed to load patch '" +:+ PathLib.str path
                                             +:+ "': " +:+ exc_str exc)
                       else exc), w'))
  /\ (forall e w', load_patch path verbose w = (Raise e, w') ->
                   isinstance e "Exception" = true ->
                   exit_code e = Some 2 \/ exit_code e = Some 4).
Proof.
  unfold load_patch, mbind, PathLib.exists_, PathLib.is_file, raise.
  repeat split.
  - intros Hne Hfs. rewrite Hfs. destruct path; [contradiction | reflexivity].
  - intros Hfs. rewrite Hfs. simpl. rewrite Hfs. reflexivity.
  - intros content exc w' Hfs Hload. rewrite Hfs. simpl. rewrite Hfs. simpl. rewrite Hload.
    destruct (isinstance exc "FileNotFoundError"); [reflexivity|].
    destruct (isinstance exc "Exception"); reflexivity.
  - intros e w'. destruct (w_fs w !! path) as [[content|]|] eqn:Hfs; simpl.
    + rewrite Hfs. simpl.
      destruct (load_file (PathLib.str path) verbose w) as [[patch|exc] w1] eqn:Hload;
        [discriminate|].
      destruct (isinstance exc "FileNotFoundError") eqn:H1;
        [intros [= <- <-] _; left; reflexivity|].
      destruct (isinstance exc "Exception") eqn:H2;
        [intros [= <- <-] _; right; reflexivity|].
      intros [= <- <-] H. congruence.
    + rewrite Hfs. simpl. intros [= <- <-] _. left. reflexivity.
    + destruct path; simpl; try rewrite Hfs; simpl; intros [= <- <-] _; left; reflexivity.
Qed.

(** X7.  [resolve_output_path] returns the output path whenever one is
    given, and the input path when none is given and the run is in place;
    in every other case it raises [UsageError].  The flag [require_output]
    never changes whether it succeeds. *)
Theorem resolve_output_path_table (input_path output_path : option Path)
  (in_place require_output : bool) :
  (forall p, resolve_output_path input_path output_path in_place require_output = Ok p
             <-> output_path = Some p
                 \/ (output_path = None /\ in_place = true /\ input_path = Some p))
  /\ (forall e, resolve_output_path input_path output_path in_place require_output = Raise e ->
                exists msg, e = UsageError msg)
  /\ (forall p, resolve_output_path input_path output_path in_place require_output = Ok p
                <-> resolve_output_path input_path output_path in_place (negb require_output)
                    = Ok p).
Proof.
  unfold resolve_output_path. repeat split.
  - intros H. destruct output_path as [o|]; [injection H as ->; left; reflexivity|].
    destruct input_path as [i|], in_place, require_output; try discriminate H;
      injection H as ->; right; repeat split.
  - intros [->|(-> & -> & ->)]; reflexivity.
  - intros e H. destruct output_path as [o|]; [discriminate H|].
    destruct input_path as [i|], in_place, require_output; try discriminate H;
      injection H as <-; eexists; reflexivity.
  - intros H. destruct output_path, input_path, in_place, require_output;
      try discriminate H; exact H.
  - intros H. destruct output_path, input_path, in_place, require_output;
      try discriminate H; exact H.
Qed.

(** X8.  [save_patch] reports every failure of class [Exception] as a
    [ValidationError] (exit code 4) whose message names the output path;
    when the directory of the output cannot be made, the engine is not asked
    to save. *)
Theorem save_patch_failures (patch : MaxPatch) (output_path : Path) (w : world) :
  (forall e w', save_patch patch output_path w = (Raise e, w') ->
                isinstance e "Exception" = true ->
                exists msg, e = ValidationError msg /\ exit_code e = Some 4
                            /\ names msg (PathLib.str output_path))
  /\ (forall exc w1,
        PathLib.mkdir_parents (PathLib.parent output_path) w = (Raise exc, w1) ->
        isinstance exc "Exception" = true ->
        save_patch patch output_path w
        = (Raise (ValidationError ("failed to save patch '" +:+ PathLib.str output_path
                                   +:+ "': " +:+ exc_str exc)), w1)).
Proof.
  unfold save_patch, try_except_Exception, mbind. split.
  - intros e w'.
    destruct (PathLib.mkdir_parents (PathLib.parent output_path) w) as [[[]|exc] w1].
    + destruct (save patch (PathLib.str output_path) w1) as [[[]|exc] w2]; [discriminate|].
      destruct (isinstance exc "Exception") eqn:He.
      * intros [= <- <-] _. eexists. repeat split.
        exists "failed to save patch '". eexists. reflexivity.
      * intros [= <- <-] H. congruence.
    + destruct (isinstance exc "Exception") eqn:He.
      * intros [= <- <-] _. eexists. repeat split.
        exists "failed to save patch '". eexists. reflexivity.
      * intros [= <- <-] H. congruence.
  - intros exc w1 -> ->. reflexivity.
Qed.

End PatchIOProperties.

Lemma load_patch_failures_witness :
  let w := set_fs (<[ ["patches"] := Dir ]> ∅) demo_world in
  load_patch (engine := fake_engine) ["a.maxpat"] false w
    = (Raise (UsageError ("input patch not found: " +:+ PathLib.str ["a.maxpat"])), w)
  /\ load_patch (engine := fake_engine) ["patches"] false w
     = (Raise (UsageError ("input patch must be a file: " +:+ PathLib.str ["patches"])), w).
Proof.
  intros w.
  pose proof (load_patch_failures (engine := fake_engine) ["a.maxpat"] false w) as (H1 & _).
  pose proof (load_patch_failures (engine := fake_engine) ["patches"] false w) as (_ & H2 & _).
  split; [apply H1; [discriminate | reflexivity] | apply H2; reflexivity].
Defined.

Lemma save_patch_failures_witness :
  let w := set_fs (<[ ["a"] := File "text" ]> ∅) demo_world in
  save_patch (engine := fake_engine) [] ["a"; "b.maxpat"] w
  = (Raise (ValidationError ("failed to save patch '" +:+ PathLib.str ["a"; "b.maxpat"]
                             +:+ "': " +:+ exc_str (FileExistsError "/a"))), w).
Proof.
  intros w.
  apply (proj2 (save_patch_failures (engine := fake_engine) [] ["a"; "b.maxpat"] w)
           (FileExistsError "/a") w); reflexivity.
Defined.

(** ** Texts that name a text *)

Lemma names_refl (t : string) : names t t.
Proof. exists "", "". simpl. now rewrite append_nil_r. Qed.

Lemma names_app_r (a b t : string) : names b t -> names (a +:+ b) t.
Proof.
  intros (x & y & ->). exists (a +:+ x), y. now rewrite !append_assoc.
Qed.

Lemma names_app_l (a b t : string) : names a t -> names (a +:+ b) t.
Proof.
  intros (x & y & ->). exists x, (y +:+ b). now rewrite !append_assoc.
Qed.

Lemma join_names (sep : string) (l : list string) (t : string) :
  In t l -> names (Py.join sep l) t.
Proof.
  unfold Py.join. induction l as [|x l IH]; [intros []|].
  intros [->|Hin].
  - destruct l; simpl; [apply names_refl | apply names_app_l, names_refl].
  - destruct l as [|y l]; [destruct Hin|].
    change (String.concat sep (x :: y :: l)) with (x +:+ sep +:+ String.concat sep (y :: l)).
    apply names_app_r, names_app_r, IH, Hin.
Qed.

(** ** [io.py]: the health of a patch and the strict mode *)

Section HealthProperties.
Context {engine : GraphEngine}.

(** X9.  The warnings of [collect_patch_health] are at most three, and
    there is none exactly when the patch has no unknown object, no unlinked
    js object and no abstraction.  [strict_guard] lets the command go on
    exactly when the mode is not strict or there is no warning; otherwise it
    raises a [ValidationError] (exit code 4) whose message names every
    warning and whose details hold the list of warnings. *)
Theorem strict_guard_health (patch : MaxPatch) (strict_mode : bool) :
  let warnings := collect_patch_health patch in
  (warnings = [] <-> get_unknowns patch = [] /\ get_js_unlinked patch = []
                     /\ get_abstractions patch = [])
  /\ (length warnings <= 3)%nat
  /\ (strict_guard strict_mode warnings = Ok tt <-> strict_mode = false \/ warnings = [])
  /\ (forall e, strict_guard strict_mode warnings = Raise e ->
                type_name e = "ValidationError" /\ exit_code e = Some 4
                /\ Dict.get "warnings" (exc_details e) = Some (JList (map JStr warnings))
                /\ forall warning, In warning warnings -> names (exc_str e) warning).
Proof.
  intros warnings.
  split; [|split; [|clearbody warnings; split]].
  - subst warnings. unfold collect_patch_health.
    destruct (get_unknowns patch), (get_js_unlinked patch), (get_abstractions patch);
      simpl; split; try discriminate; try (intros (? & ? & ?); discriminate); auto.
  - subst warnings. unfold collect_patch_health.
    destruct (get_unknowns patch), (get_js_unlinked patch), (get_abstractions patch);
      simpl; lia.
  - unfold strict_guard. destruct warnings as [|x l].
    + split; auto.
    + destruct strict_mode; split; try discriminate; auto.
      intros [H|H]; discriminate.
  - intros e. unfold strict_guard. destruct warnings as [|x l] eqn:El; [discriminate|].
    destruct strict_mode; [|discriminate]. intros [= <-].
    repeat split. intros warning Hin.
    change (names ("strict mode failed: " +:+ Py.join "; " (x :: l)) warning).
    apply names_app_r, join_names, Hin.
Qed.

End HealthProperties.

(** ** [io.py]: the configuration *)

Lemma endswith_app (base suf : string) : endswith suf (base +:+ suf) = true.
Proof.
  unfold endswith. rewrite length_append.
  replace (String.length base + String.length suf - String.length suf)%nat
    with (String.length base) by lia.
  rewrite drop_app, String.eqb_refl, andb_true_r.
  apply Nat.leb_le. lia.
Qed.

Lemma substring_app (base suf : string) :
  substring 0 (String.length base) (base +:+ suf) = base.
Proof.
  induction base as [|c base IH]; simpl; [destruct suf; reflexivity|].
  now rewrite IH.
Qed.

Lemma config_get_world (key : string) (w : world) : snd (config_get key w) = w.
Proof.
  unfold config_get, get_constant, mbind, ret, raise.
  repeat match goal with
         | |- context [if ?b then _ else _] => destruct b
         | |- context [match Dict.get ?k ?d with _ => _ end] => destruct (Dict.get k d)
         | |- context [match ?j with JNull => _ | _ => _ end] => destruct j
         end; reflexivity.
Qed.

(** X10.  [config_get] only reads: it leaves the world as it is, whatever
    the key.  The key [max_path] is the reference path without the fixed
    suffix of the reference pages when the path ends with it, and the
    reference path itself otherwise; a key that is not one of the four known
    keys is a [UsageError] that names it. *)
Theorem config_get_reads (key : string) (w : world) :
  snd (config_get key w) = w
  /\ (forall base,
        Dict.get "max_refpath" (w_constants w) = Some (JStr (base +:+ _MAX_REFPATH_SUFFIX)) ->
        config_get "max_path" w = (Ok (JStr base), w))
  /\ (forall refpath,
        Dict.get "max_refpath" (w_constants w) = Some (JStr refpath) ->
        endswith _MAX_REFPATH_SUFFIX refpath = false ->
        config_get "max_path" w = (Ok (JStr refpath), w))
  /\ (~ In key config_keys ->
      config_get key w = (Raise (UsageError ("unsupported config key: " +:+ key)), w)).
Proof.
  split; [|split; [|split]].
  - apply config_get_world.
  - intros base H. unfold config_get. rewrite String.eqb_refl.
    unfold get_constant, mbind, ret. rewrite H, endswith_app, length_append.
    replace (String.length base + String.length _MAX_REFPATH_SUFFIX
             - String.length _MAX_REFPATH_SUFFIX)%nat with (String.length base) by lia.
    rewrite substring_app. reflexivity.
  - intros refpath H He. unfold config_get. rewrite String.eqb_refl.
    unfold get_constant, mbind, ret. rewrite H, He. reflexivity.
  - intros Hnot. unfold config_get.
    destruct (String.eqb key "max_path") eqn:E1;
      [apply String.eqb_eq in E1; subst; exfalso; apply Hnot; simpl; auto|].
    destruct (String.eqb key "max_refpath") eqn:E2;
      [apply String.eqb_eq in E2; subst; exfalso; apply Hnot; simpl; auto|].
    destruct (String.eqb key "packages_path") eqn:E3;
      [apply String.eqb_eq in E3; subst; exfalso; apply Hnot; simpl; auto|].
    destruct (String.eqb key "wait_time") eqn:E4;
      [apply String.eqb_eq in E4; subst; exfalso; apply Hnot; simpl; auto|].
    reflexivity.
Qed.

Lemma config_get_reads_witness :
  let w := mk_world ∅ "" [("max_refpath",
                           JStr ("/Applications/Max.app/" +:+ _MAX_REFPATH_SUFFIX))] "" in
  config_get "max_path" w = (Ok (JStr "/Applications/Max.app/"), w)
  /\ config_get "colour" w = (Raise (UsageError ("unsupported config key: " +:+ "colour")), w).
Proof.
  intros w.
  pose proof (config_get_reads "max_path" w) as (_ & H & _).
  pose proof (config_get_reads "colour" w) as (_ & _ & _ & H').
  split; [apply H; reflexivity|].
  apply H'. unfold config_keys. simpl. intros [H0|[H0|[H0|[H0|[]]]]]; discriminate.
Defined.

Section ConfigSetProperties.
Context {rt : PyRuntime} {setters : ConfigSetters}.

(** X11.  [config_set] checks before it writes: for a key that is not one
    of the four known keys, and for a wait time that is not numeric, it
    raises [UsageError] and no setter runs, so the world stays as it is.
    For a numeric wait time the value returned is the one read back after
    the setter has run. *)
Theorem config_set_checks_first (key value : string) (w : world) :
  (~ In key config_keys ->
     config_set key value w = (Raise (UsageError ("unsupported config key: " +:+ key)), w))
  /\ (float_of_str value = None ->
      config_set "wait_time" value w = (Raise (UsageError "wait_time must be numeric"), w))
  /\ (forall numeric w1,
        float_of_str value = Some numeric ->
        set_wait_time numeric w = (Ok tt, w1) ->
        config_set "wait_time" value w = config_get "wait_time" w1).
Proof.
  split; [|split].
  - intros Hnot. unfold config_set.
    destruct (String.eqb key "max_path") eqn:E1;
      [apply String.eqb_eq in E1; subst; exfalso; apply Hnot; simpl; auto|].
    destruct (String.eqb key "max_refpath") eqn:E2;
      [apply String.eqb_eq in E2; subst; exfalso; apply Hnot; simpl; auto|].
    destruct (String.eqb key "packages_path") eqn:E3;
      [apply String.eqb_eq in E3; subst; exfalso; apply Hnot; simpl; auto|].
    destruct (String.eqb key "wait_time") eqn:E4;
      [apply String.eqb_eq in E4; subst; exfalso; apply Hnot; simpl; auto|].
    reflexivity.
  - intros H. change (config_set "wait_time" value)
      with (match float_of_str value with
            | None => raise (UsageError "wait_time must be numeric")
            | Some numeric => mbind (set_wait_time numeric) (fun _ => config_get "wait_time")
            end).
    rewrite H. reflexivity.
  - intros numeric w1 H Hs. change (config_set "wait_time" value)
      with (match float_of_str value with
            | None => raise (UsageError "wait_time must be numeric")
            | Some numeric => mbind (set_wait_time numeric) (fun _ => config_get "wait_time")
            end).
    rewrite H. unfold mbind. rewrite Hs. reflexivity.
Qed.

End ConfigSetProperties.

Lemma strict_guard_health_witness :
  let patch := [("obj-1", _FakeObject JNull 1 1)] in
  strict_guard true (collect_patch_health (engine := fake_engine) patch) = Ok tt.
Proof.
  intros patch.
  pose proof (strict_guard_health (engine := fake_engine) patch true) as (_ & _ & H & _).
  apply H. right. reflexivity.
Defined.

Lemma config_set_checks_first_witness :
  config_set (rt := stub_runtime) (setters := store_setters) "colour" "red" demo_world
    = (Raise (UsageError ("unsupported config key: " +:+ "colour")), demo_world)
  /\ config_set (rt := stub_runtime) (setters := store_setters) "wait_time" "soon" demo_world
     = (Raise (UsageError "wait_time must be numeric"), demo_world).
Proof.
  pose proof (config_set_checks_first (rt := stub_runtime) (setters := store_setters)
                "colour" "red" demo_world) as (H1 & _).
  pose proof (config_set_checks_first (rt := stub_runtime) (setters := store_setters)
                "wait_time" "soon" demo_world) as (_ & H2 & _).
  split; [|apply H2; reflexivity].
  apply H1. unfold config_keys. simpl. intros [H0|[H0|[H0|[H0|[]]]]]; discriminate.
Defined.

(** ** [io.py]: scalars, attributes and points *)

Lemma lower_head (c : ascii) (r t : string) :
  Py.lower (String c r) = t ->
  match t with String d _ => d = Py.lower_char c | EmptyString => False end.
Proof. simpl. intros <-. reflexivity. Qed.

Lemma str_of_int_head (n : Z) :
  exists c r, Py.str_of_int n = String c r
              /\ (Py.is_digit c = true \/ c = "-"%char)
              /\ Forall (fun c => Py.is_digit c = true) (list_ascii_of_string r).
Proof.
  destruct n as [|p|p].
  - exists "0"%char, "". repeat split; [left; reflexivity | constructor].
  - pose proof (str_of_int_digits (Z.pos p) ltac:(lia)) as H.
    destruct (Py.str_of_int (Z.pos p)) as [|c r] eqn:E.
    + exfalso. pose proof (int_str_of_int (Z.pos p)) as Hi. rewrite E in Hi. discriminate.
    + inversion H; subst. exists c, r. repeat split; [left|]; assumption.
  - unfold Py.str_of_int. simpl.
    exists "-"%char. eexists. split; [reflexivity|]. split; [right; reflexivity|].
    destruct (Pos.to_uint p) eqn:E; try apply uint_all_digits.
    simpl. repeat constructor.
Qed.

Lemma contains_point_str_of_int (n : Z) : Py.contains "." (Py.str_of_int n) = false.
Proof.
  destruct (str_of_int_head n) as (c & r & -> & Hc & Hr).
  cbn [Py.contains Py.startswith].
  rewrite (digits_without "." "" r eq_refl Hr), orb_false_r, andb_true_r.
  destruct Hc as [Hc| ->]; [|reflexivity].
  destruct (Ascii.eqb "." c) eqn:E; [|reflexivity].
  apply Ascii.eqb_eq in E. subst c. discriminate.
Qed.

Lemma lower_str_of_int (n : Z) (word : string) :
  match word with
  | String d _ => Py.is_digit d = false /\ d <> "-"%char
  | EmptyString => True
  end ->
  String.eqb (Py.lower (Py.str_of_int n)) word = false.
Proof.
  intros Hw. apply String.eqb_neq. intros E.
  destruct (str_of_int_head n) as (c & r & Hs & Hc & _). rewrite Hs in E.
  apply lower_head in E. destruct word as [|d word]; [exact E|].
  destruct Hw as [Hd Hm]. subst d.
  destruct Hc as [Hc| ->]; [|apply Hm; reflexivity].
  assert (Hl : Py.lower_char c = c).
  { unfold Py.lower_char. unfold Py.is_digit in Hc.
    apply andb_prop in Hc as [H1 H2]. apply N.leb_le in H1, H2.
    destruct ((65 <=? N_of_ascii c)%N) eqn:E1; [apply N.leb_le in E1; lia|].
    destruct ((192 <=? N_of_ascii c)%N) eqn:E2; [apply N.leb_le in E2; lia|].
    reflexivity. }
  rewrite Hl in Hd. congruence.
Qed.

Lemma split1_char (c : ascii) (x y : string) :
  Py.contains (String c "") x = false ->
  Py.split1 (String c "") (x +:+ String c y) = [x; y].
Proof.
  induction x as [|d x IH]; intros Hx.
  - simpl. rewrite Ascii.eqb_refl. reflexivity.
  - change (Py.startswith (String c "") (String d x) || Py.contains (String c "") x = false)
      in Hx.
    apply orb_false_elim in Hx as [H1 H2].
    change (String d x +:+ String c y) with (String d (x +:+ String c y)).
    cbn [Py.split1].
    change (Py.startswith (String c "") (String d (x +:+ String c y)))
      with (Ascii.eqb c d && true).
    change (Ascii.eqb c d && true = false) in H1. rewrite H1, (IH H2). reflexivity.
Qed.

Lemma dict_get_set_same {V} (k : string) (v : V) (d : list (string * V)) :
  Dict.get k (Dict.set k v d) = Some v.
Proof.
  induction d as [|[k' v'] r IH]; simpl.
  - now rewrite String.eqb_refl.
  - destruct (String.eqb k k') eqn:E; simpl; [now rewrite String.eqb_refl|].
    rewrite E. exact IH.
Qed.

Lemma dict_get_set_other {V} (k k0 : string) (v : V) (d : list (string * V)) :
  k0 <> k -> Dict.get k0 (Dict.set k v d) = Dict.get k0 d.
Proof.
  intros Hne. induction d as [|[k' v'] r IH]; simpl.
  - apply String.eqb_neq in Hne. now rewrite Hne.
  - destruct (String.eqb k k') eqn:E; simpl.
    + apply String.eqb_eq in E. subst k'. apply String.eqb_neq in Hne. now rewrite Hne.
    + destruct (String.eqb k0 k'); [reflexivity | exact IH].
Qed.

Section ParseValueProperties.
Context {rt : PyRuntime}.

(** X12.  [_parse_scalar] reads a printed integer back as that integer, and
    the words [true] and [false] in any mixture of upper and lower case as
    the two booleans.  A text with a point is never read as an integer, and
    a text without a point that [int] rejects and that is neither word comes
    back as the text itself. *)
Theorem parse_scalar_values :
  (forall n, _parse_scalar (Py.str_of_int n) = JInt n)
  /\ (forall value, Py.lower value = "true" -> _parse_scalar value = JBool true)
  /\ (forall value, Py.lower value = "false" -> _parse_scalar value = JBool false)
  /\ (forall value n, Py.contains "." value = true -> _parse_scalar value <> JInt n)
  /\ (forall value, Py.lower value <> "true" -> Py.lower value <> "false" ->
                    Py.contains "." value = false -> Py.int value = None ->
                    _parse_scalar value = JStr value).
Proof.
  unfold _parse_scalar. repeat split.
  - intros n. rewrite !lower_str_of_int by (split; [reflexivity | discriminate]).
    rewrite contains_point_str_of_int, int_str_of_int. reflexivity.
  - intros value ->. reflexivity.
  - intros value ->. reflexivity.
  - intros value n Hp. rewrite Hp.
    destruct (String.eqb (Py.lower value) "true"); [discriminate|].
    destruct (String.eqb (Py.lower value) "false"); [discriminate|].
    destruct (float_of_str value); discriminate.
  - intros value H1 H2 Hp Hi. apply String.eqb_neq in H1, H2.
    rewrite H1, H2, Hp, Hi. reflexivity.
Qed.

Lemma parse_attr_pairs_from_app (attrs : pydict) (l1 l2 : list string) :
  parse_attr_pairs_from attrs (l1 ++ l2) =
    (let* attrs1 := parse_attr_pairs_from attrs l1 in parse_attr_pairs_from attrs1 l2).
Proof.
  revert attrs. induction l1 as [|item l1 IH]; intros attrs; [reflexivity|].
  simpl. destruct (negb (Py.contains "=" item)); [reflexivity|].
  destruct (Py.split1 "=" item) as [|key [|raw [|? ?]]]; try reflexivity.
  destruct (String.eqb (Py.strip key) ""); [reflexivity|]. apply IH.
Qed.

Lemma parse_attr_pairs_one (attrs : pydict) (key value : string) :
  Py.contains "=" key = false -> Py.strip key <> "" ->
  parse_attr_pairs_from attrs [key +:+ "=" +:+ value]
  = Ok (Dict.set (Py.strip key) (_parse_scalar (Py.strip value)) attrs).
Proof.
  intros Hk Hne. cbn [parse_attr_pairs_from].
  assert (Hc : Py.contains "=" (key +:+ "=" +:+ value) = true)
    by (apply contains_iff; exists key, value; reflexivity).
  rewrite Hc. cbn [negb].
  change (key +:+ "=" +:+ value) with (key +:+ String "=" value).
  rewrite (split1_char "=" key value Hk).
  apply String.eqb_neq in Hne. rewrite Hne. reflexivity.
Qed.

(** X13.  A later attribute wins: when the attributes before it are
    accepted, an attribute [key=value] whose key has no equals sign and is
    not blank is accepted too, its trimmed key is bound to the scalar of its
    trimmed value, whatever was bound to the key before, and every other key
    keeps its value.  The value may contain equals signs. *)
Theorem parse_attr_pairs_last_wins (items : list string) (attrs : pydict)
  (key value : string) :
  parse_attr_pairs items = Ok attrs ->
  Py.contains "=" key = false -> Py.strip key <> "" ->
  exists attrs',
    parse_attr_pairs (items ++ [key +:+ "=" +:+ value]) = Ok attrs'
    /\ Dict.get (Py.strip key) attrs' = Some (_parse_scalar (Py.strip value))
    /\ forall other, other <> Py.strip key -> Dict.get other attrs' = Dict.get other attrs.
Proof.
  intros Hitems Hk Hne. unfold parse_attr_pairs in *.
  rewrite parse_attr_pairs_from_app, Hitems. cbn [bind].
  rewrite (parse_attr_pairs_one attrs key value Hk Hne).
  eexists. split; [reflexivity|]. split.
  - apply dict_get_set_same.
  - intros other Ho. apply dict_get_set_other. exact Ho.
Qed.

Lemma parse_attr_pairs_from_outcome (items : list string) (attrs : pydict) :
  (Forall attr_ok items /\ exists attrs', parse_attr_pairs_from attrs items = Ok attrs')
  \/ (exists item msg, In item items /\ ~ attr_ok item
                       /\ parse_attr_pairs_from attrs items = Raise (UsageError msg)
                       /\ names msg item).
Proof.
  revert attrs. induction items as [|item items IH]; intros attrs.
  { left. split; [constructor | eexists; reflexivity]. }
  cbn [parse_attr_pairs_from].
  destruct (Py.contains "=" item) eqn:Hc; cbn [negb].
  - destruct (split1_present _ _ Hc) as (a & b & Hsp & Hitem).
    rewrite Hsp.
    assert (Hkey : attr_key item = Py.strip a) by (unfold attr_key; rewrite Hsp; reflexivity).
    destruct (String.eqb (Py.strip a) "") eqn:He.
    + right. exists item. eexists. apply String.eqb_eq in He.
      split; [left; reflexivity|]. split; [intros [_ H]; apply H; congruence|].
      split; [reflexivity|]. exists "attribute '". eexists. reflexivity.
    + apply String.eqb_neq in He.
      destruct (IH (Dict.set (Py.strip a) (_parse_scalar (Py.strip b)) attrs))
        as [[Hall Hok]|(bad & msg & Hin & Hbad & Hr & Hn)].
      * left. split; [|exact Hok]. constructor; [|exact Hall].
        split; [exact Hc | congruence].
      * right. exists bad, msg. repeat split; try assumption. right. exact Hin.
  - right. exists item. eexists.
    split; [left; reflexivity|]. split; [intros [H _]; congruence|].
    split; [reflexivity|]. exists "attribute '". eexists. reflexivity.
Qed.

(** X14.  [parse_attr_pairs] accepts a list of attributes exactly when each
    of them has an equals sign and a key that is not blank; otherwise it
    raises a [UsageError] whose message names an attribute that has not. *)
Theorem parse_attr_pairs_outcome (items : list string) :
  (Forall attr_ok items /\ exists attrs, parse_attr_pairs items = Ok attrs)
  \/ (exists item msg, In item items /\ ~ attr_ok item
                       /\ parse_attr_pairs items = Raise (UsageError msg)
                       /\ names msg item).
Proof. apply parse_attr_pairs_from_outcome. Qed.

End ParseValueProperties.

Lemma parse_attr_pairs_last_wins_witness :
  exists attrs',
    parse_attr_pairs (rt := stub_runtime) (["gain=1"; "mode=a"] ++ [" gain " +:+ "=" +:+ " x=y "])
      = Ok attrs'
    /\ Dict.get (Py.strip " gain ") attrs' = Some (_parse_scalar (rt := stub_runtime)
                                                     (Py.strip " x=y "))
    /\ forall other, other <> Py.strip " gain " ->
                     Dict.get other attrs' = Dict.get other [("gain", JInt 1); ("mode", JStr "a")].
Proof.
  apply (parse_attr_pairs_last_wins (rt := stub_runtime) ["gain=1"; "mode=a"]);
    [reflexivity | reflexivity | discriminate].
Defined.

(** ** Points *)

Lemma split_comma_absent (cur s : string) :
  Py.contains "," s = false -> split_from "," 0 cur s = [cur +:+ s].
Proof.
  revert cur. induction s as [|c r IH]; intros cur Hs.
  - simpl. now rewrite append_nil_r.
  - change (Py.startswith "," (String c r) || Py.contains "," r = false) in Hs.
    apply orb_false_elim in Hs as [H1 H2].
    cbn [split_from]. rewrite H1, (IH _ H2), append_assoc. reflexivity.
Qed.

Lemma split_comma_first (cur x y : string) :
  Py.contains "," x = false ->
  split_from "," 0 cur (x +:+ "," +:+ y) = (cur +:+ x) :: split_from "," 0 "" y.
Proof.
  revert cur. induction x as [|c x IH]; intros cur Hx.
  - simpl. now rewrite append_nil_r.
  - change (Py.startswith "," (String c x) || Py.contains "," x = false) in Hx.
    apply orb_false_elim in Hx as [H1 H2].
    change (String c x +:+ "," +:+ y) with (String c (x +:+ "," +:+ y)).
    cbn [split_from].
    change (Py.startswith "," (String c (x +:+ "," +:+ y))) with (Ascii.eqb "," c && true).
    change (Ascii.eqb "," c && true = false) in H1.
    rewrite H1, (IH _ H2), append_assoc. reflexivity.
Qed.

Section PointProperties.
Context {rt : PyRuntime}.

(** X15.  [parse_point] reads a text with exactly one comma as the two
    numbers that [float] makes of its trimmed halves.  A text without a
    comma, and a half that [float] rejects, are reported as [UsageError];
    every failure of [parse_point] is a [UsageError] that names the text,
    and every point it returns has two coordinates. *)
Theorem parse_point_outcome (text : string) :
  (forall x y, Py.contains "," x = false -> Py.contains "," y = false ->
     parse_point (x +:+ "," +:+ y)
     = match float_of_str (Py.strip x), float_of_str (Py.strip y) with
       | Some fx, Some fy => Ok [fx; fy]
       | _, _ => Raise (UsageError ("point '" +:+ (x +:+ "," +:+ y)
                                    +:+ "' must contain numeric x,y values"))
       end)
  /\ (Py.contains "," text = false ->
      parse_point text = Raise (UsageError ("point '" +:+ text +:+ "' must be formatted as x,y")))
  /\ (forall e, parse_point text = Raise e -> exists msg, e = UsageError msg /\ names msg text)
  /\ (forall point, parse_point text = Ok point -> length point = 2%nat).
Proof.
  split; [|split; [|split]].
  - intros x y Hx Hy. unfold parse_point, py_split.
    rewrite (split_comma_first "" x y Hx), (split_comma_absent "" y Hy).
    change ("" +:+ x) with x. change ("" +:+ y) with y. cbn [map].
    destruct (float_of_str (Py.strip x)); [|reflexivity].
    destruct (float_of_str (Py.strip y)); reflexivity.
  - intros H. unfold parse_point, py_split.
    rewrite (split_comma_absent "" text H). reflexivity.
  - intros e. unfold parse_point.
    destruct (map Py.strip (py_split "," text)) as [|x [|y [|z l]]];
      try (intros [= <-]; eexists; split; [reflexivity|];
           exists "point '"; eexists; reflexivity).
    destruct (float_of_str x); [destruct (float_of_str y); [discriminate|]|];
      intros [= <-]; eexists; (split; [reflexivity|]);
      exists "point '"; eexists; reflexivity.
  - intros point. unfold parse_point.
    destruct (map Py.strip (py_split "," text)) as [|x [|y [|z l]]]; try discriminate.
    destruct (float_of_str x); [|discriminate].
    destruct (float_of_str y); [|discriminate].
    intros [= <-]. reflexivity.
Qed.

End PointProperties.

Lemma parse_point_outcome_witness :
  let rt := {| json_dumps := fun _ => "{}"; str_other := fun _ => "?";
               float_of_str := fun s => if String.eqb s "1" then Some 1%float
                                        else if String.eqb s "2.5" then Some 2.5%float
                                        else None |} in
  parse_point (rt := rt) (" 1 " +:+ "," +:+ "2.5") = Ok [1%float; 2.5%float]
  /\ parse_point (rt := rt) "1;2"
     = Raise (UsageError ("point '" +:+ "1;2" +:+ "' must be formatted as x,y")).
Proof.
  intros rt.
  pose proof (parse_point_outcome (rt := rt) "1;2") as (H1 & H2 & _).
  split; [apply (H1 " 1 " "2.5"); reflexivity | apply H2; reflexivity].
Defined.

(** ** [main.py]: the command named on the command line *)

Lemma first_word_some (args : list string) (token : string) :
  first_word args = Some token -> In token args /\ Py.startswith "-" token = false.
Proof.
  induction args as [|t rest IH]; [discriminate|]. cbn [first_word].
  destruct (Py.startswith "-" t) eqn:E.
  - intros H. destruct (IH H). split; [right|]; assumption.
  - intros [= ->]. split; [left; reflexivity | exact E].
Qed.

Lemma first_word_none (args : list string) :
  Forall (fun t => Py.startswith "-" t = true) args -> first_word args = None.
Proof.
  induction 1 as [|t rest Ht _ IH]; [reflexivity|]. cbn [first_word]. now rewrite Ht.
Qed.

Lemma known_command_none (args : list string) :
  Forall (fun t => Py.startswith "-" t = true \/ py_in t _KNOWN_COMMANDS = false) args ->
  known_command args = None.
Proof.
  induction 1 as [|t rest Ht _ IH]; [reflexivity|]. cbn [known_command].
  destruct (Py.startswith "-" t); [exact IH|].
  destruct Ht as [Ht|Ht]; [discriminate|]. rewrite Ht. exact IH.
Qed.

Lemma known_command_some (args : list string) (command : string) :
  known_command args = Some command -> Py.startswith "-" command = false.
Proof.
  induction args as [|t rest IH]; [discriminate|]. cbn [known_command].
  destruct (Py.startswith "-" t) eqn:E; [exact IH|].
  destruct (py_in t _KNOWN_COMMANDS); [|exact IH].
  destruct (String.eqb t "config").
  - destruct (first_word rest); intros [= <-]; [reflexivity | exact E].
  - intros [= <-]. exact E.
Qed.

Lemma known_command_app (before : list string) (command : string) (rest : list string) :
  Forall (fun t => Py.startswith "-" t = true \/ py_in t _KNOWN_COMMANDS = false) before ->
  py_in command _KNOWN_COMMANDS = true ->
  known_command (before ++ command :: rest) =
    Some (if String.eqb command "config"
          then match first_word rest with
               | Some sub => "config " +:+ sub
               | None => command
               end
          else command).
Proof.
  intros Hb Hc. induction Hb as [|t before Ht _ IH].
  - cbn [app known_command]. rewrite Hc.
    assert (Hs : Py.startswith "-" command = false).
    { unfold py_in, _KNOWN_COMMANDS in Hc. cbn [existsb] in Hc.
      repeat (apply orb_prop in Hc as [Hc|Hc];
              [apply String.eqb_eq in Hc; subst command; reflexivity|]).
      discriminate. }
    rewrite Hs. destruct (String.eqb command "config"); [|reflexivity].
    destruct (first_word rest); reflexivity.
  - cbn [app known_command]. destruct (Py.startswith "-" t); [exact IH|].
    destruct Ht as [Ht|Ht]; [discriminate|]. rewrite Ht. exact IH.
Qed.

(** X16.  The command that [_infer_command_from_args] reads off the
    arguments never starts with a hyphen.  It is [cli] when every argument
    is an option.  The first known command among the arguments that are not
    options is the answer, whatever unknown words come before it, and for
    [config] the next word that is not an option is added to it; without a
    known command the answer is the first word that is not an option. *)
Theorem infer_command_outcome (args : list string) :
  Py.startswith "-" (_infer_command_from_args args) = false
  /\ (Forall (fun t => Py.startswith "-" t = true) args ->
      _infer_command_from_args args = "cli")
  /\ (forall before command rest,
        args = before ++ command :: rest ->
        Forall (fun t => Py.startswith "-" t = true \/ py_in t _KNOWN_COMMANDS = false) before ->
        py_in command _KNOWN_COMMANDS = true ->
        _infer_command_from_args args =
          if String.eqb command "config"
          then match first_word rest with
               | Some sub => "config " +:+ sub
               | None => command
               end
          else command)
  /\ (forall word,
        Forall (fun t => Py.startswith "-" t = true \/ py_in t _KNOWN_COMMANDS = false) args ->
        first_word args = Some word ->
        _infer_command_from_args args = word).
Proof.
  unfold _infer_command_from_args. split; [|split; [|split]].
  - destruct (known_command args) as [command|] eqn:Hk.
    + exact (known_command_some _ _ Hk).
    + destruct (first_word args) as [word|] eqn:Hf; [|reflexivity].
      exact (proj2 (first_word_some _ _ Hf)).
  - intros H. rewrite known_command_none, first_word_none; [reflexivity | exact H |].
    eapply List.Forall_impl; [|exact H]. intros t Ht. left. exact Ht.
  - intros before command rest -> Hb Hc. rewrite (known_command_app _ _ _ Hb Hc). reflexivity.
  - intros word H Hf. rewrite (known_command_none _ H), Hf. reflexivity.
Qed.

Lemma infer_command_outcome_witness :
  _infer_command_from_args (["--json"; "patch.maxpat"] ++ "config" :: ["--verbose"; "set"; "k"])
    = "config set"
  /\ _infer_command_from_args ["--json"; "-h"] = "cli"
  /\ _infer_command_from_args ["--json"; "lst-objects"; "--in"; "a"] = "lst-objects".
Proof.
  split; [|split].
  - apply (proj1 (proj2 (proj2 (infer_command_outcome _))) ["--json"; "patch.maxpat"] "config"
             ["--verbose"; "set"; "k"] eq_refl); [|reflexivity].
    constructor; [left; reflexivity|]. constructor; [right; reflexivity|]. constructor.
  - apply (proj1 (proj2 (infer_command_outcome _))). repeat constructor.
  - apply (proj2 (proj2 (proj2 (infer_command_outcome _)))); [|reflexivity].
    constructor; [left; reflexivity|]. constructor; [right; reflexivity|].
    constructor; [left; reflexivity|]. constructor; [right; reflexivity|]. constructor.
Defined.

(** ** [main.py]: the order in which objects are listed *)

Lemma sort_key_total (label : string) : _sort_key label = Ok (sort_key_of label).
Proof.
  unfold _sort_key, sort_key_of, numeric_suffix.
  destruct (Py.startswith "obj-" label) eqn:E; [|reflexivity].
  rewrite (obj_prefix_rest _ E). destruct (Py.int (Py.drop 4 label)); reflexivity.
Qed.

Lemma string_ltb_leb (s t : string) : String.ltb t s = false <-> String.leb s t = true.
Proof.
  unfold String.ltb, String.leb. rewrite (String.compare_antisym s t).
  destruct (String.compare t s); simpl; split; congruence.
Qed.

Lemma key_le_trans (a b c : sort_key) : key_le a b -> key_le b c -> key_le a c.
Proof.
  unfold key_le. destruct a as [i|s], b as [j|t], c as [k|u]; simpl;
    try congruence; try (intros; reflexivity).
  - rewrite !Z.ltb_ge. lia.
  - rewrite !string_ltb_leb. intros H1 H2.
    apply Is_true_true. apply Is_true_true in H1, H2.
    change (String.le s u). change (String.le s t) in H1. change (String.le t u) in H2.
    etransitivity; eassumption.
Qed.

Lemma key_lt_le (a b : sort_key) : key_lt a b = true -> key_le a b.
Proof.
  unfold key_le. destruct a as [i|s], b as [j|t]; simpl; try congruence.
  - rewrite Z.ltb_lt, Z.ltb_ge. lia.
  - unfold String.ltb. rewrite (String.compare_antisym t s).
    destruct (String.compare s t); simpl; congruence.
Qed.

Lemma insert_by_key_perm {A} (k : sort_key) (x : A) (l : list (sort_key * A)) :
  Permutation (insert_by_key k x l) ((k, x) :: l).
Proof.
  induction l as [|[k' y] t IH]; simpl; [reflexivity|].
  destruct (key_lt k' k); [|reflexivity].
  rewrite IH. apply perm_swap.
Qed.

Lemma sorted_by_key_perm {A} (l : list (sort_key * A)) : Permutation (sorted_by_key l) l.
Proof.
  induction l as [|[k x] l IH]; simpl; [reflexivity|].
  rewrite insert_by_key_perm. now rewrite IH.
Qed.

Lemma insert_by_key_sorted {A} (k : sort_key) (x : A) (l : list (sort_key * A)) :
  Sorted (fun p q => key_le (fst p) (fst q)) l ->
  Sorted (fun p q => key_le (fst p) (fst q)) (insert_by_key k x l).
Proof.
  induction 1 as [|[k' y] t Hs IH Hhd]; simpl; [repeat constructor|].
  destruct (key_lt k' k) eqn:E.
  - constructor; [exact IH|].
    destruct t as [|[k'' z] t]; simpl.
    + constructor. simpl. apply key_lt_le. exact E.
    + destruct (key_lt k'' k); constructor; simpl.
      * inversion Hhd; subst. assumption.
      * apply key_lt_le. exact E.
  - constructor; [constructor; assumption|]. constructor. exact E.
Qed.

Lemma sorted_by_key_sorted {A} (l : list (sort_key * A)) :
  Sorted (fun p q => key_le (fst p) (fst q)) (sorted_by_key l).
Proof.
  induction l as [|[k x] l IH]; simpl; [constructor|].
  apply insert_by_key_sorted. exact IH.
Qed.

Lemma collect_keys {A} (l : list (string * A)) :
  collect (fun item => let* k := _sort_key (fst item) in Ok (k, item)) l
  = Ok (map (fun item => (sort_key_of (fst item), item)) l).
Proof.
  induction l as [|item l IH]; [reflexivity|].
  cbn [collect map]. rewrite sort_key_total. cbn [bind]. rewrite IH. reflexivity.
Qed.

Lemma strongly_sorted_keyed {A} (l : list (sort_key * (string * A))) :
  Forall (fun p => fst p = sort_key_of (fst (snd p))) l ->
  StronglySorted (fun p q => key_le (fst p) (fst q)) l ->
  StronglySorted (fun a b => key_le (sort_key_of (fst a)) (sort_key_of (fst b))) (map snd l).
Proof.
  intros Hk Hs. induction Hs as [|p l Hs IH Hall]; simpl; [constructor|].
  inversion Hk as [|? ? Hp Hl]; subst. constructor; [apply IH; exact Hl|].
  apply Forall_map. rewrite Forall_forall in Hall, Hl |- *.
  intros q Hq. simpl. rewrite <- Hp, <- (Hl q Hq). apply Hall, Hq.
Qed.

Section ListingOrder.
Context {engine : GraphEngine}.

(** X17.  [_sorted_object_items] never fails and lists every object of the
    patch once, in ascending order of the keys: the objects named [obj-<n>]
    come first, in the order of the numbers [n] (so [obj-2] is before
    [obj-10]), and the other objects follow in the order of their labels. *)
Theorem sorted_object_items_order (patch : MaxPatch) :
  (exists items,
      _sorted_object_items patch = Ok items
      /\ Permutation items (objs patch)
      /\ StronglySorted (fun a b => key_le (sort_key_of (fst a)) (sort_key_of (fst b))) items)
  /\ (forall label, _sort_key label = Ok (sort_key_of label))
  /\ (forall i j label,
        sort_key_of ("obj-" +:+ Py.str_of_int i) = Numbered i
        /\ (key_le (Numbered i) (Numbered j) <-> i <= j)
        /\ key_le (Numbered i) (Labelled label)
        /\ ~ key_le (Labelled label) (Numbered i)).
Proof.
  split; [|split].
  - unfold _sorted_object_items. rewrite collect_keys. cbn [bind].
    eexists. split; [reflexivity|]. split.
    + rewrite sorted_by_key_perm, map_map. simpl. rewrite map_id. reflexivity.
    + apply strongly_sorted_keyed.
      * rewrite sorted_by_key_perm. apply Forall_map. apply Forall_forall.
        intros item _. reflexivity.
      * apply Sorted_StronglySorted; [|apply sorted_by_key_sorted].
        intros a b c. apply key_le_trans.
  - exact sort_key_total.
  - intros i j label. unfold sort_key_of, key_le. rewrite numeric_suffix_fresh.
    simpl. rewrite Z.ltb_ge. repeat split; try lia; try discriminate.
Qed.

End ListingOrder.

Example sorted_object_items_ex :
  _sorted_object_items (engine := fake_engine)
    [("obj-10", _FakeObject JNull 1 1); ("mixer", _FakeObject JNull 1 1);
     ("obj-2", _FakeObject JNull 1 1); ("obj-x", _FakeObject JNull 1 1)]
  = Ok [("obj-2", _FakeObject JNull 1 1); ("obj-10", _FakeObject JNull 1 1);
        ("mixer", _FakeObject JNull 1 1); ("obj-x", _FakeObject JNull 1 1)].
Proof. reflexivity. Qed.

(** ** [main.py]: the captured diagnostics *)

Lemma lstrip_all_space (s : string) :
  Forall (fun c => Py.isspace c = true) (list_ascii_of_string s) -> Py.lstrip s = "".
Proof.
  induction s as [|c r IH]; simpl; [reflexivity|].
  intros H. inversion H as [|? ? Hc Hr]; subst. rewrite Hc. exact (IH Hr).
Qed.

Lemma strip_all_space (s : string) :
  Forall (fun c => Py.isspace c = true) (list_ascii_of_string s) -> Py.strip s = "".
Proof. intros H. unfold Py.strip. now rewrite lstrip_all_space. Qed.

Lemma all_space_app (a b : string) :
  Forall (fun c => Py.isspace c = true) (list_ascii_of_string a) ->
  Forall (fun c => Py.isspace c = true) (list_ascii_of_string b) ->
  Forall (fun c => Py.isspace c = true) (list_ascii_of_string (a +:+ b)).
Proof.
  intros Ha Hb. induction a as [|c a IH]; [exact Hb|].
  simpl. inversion Ha; subst. constructor; auto.
Qed.

Lemma splitlines_all_space (n : nat) (cur s : string) :
  (String.length s <= n)%nat ->
  Forall (fun c => Py.isspace c = true) (list_ascii_of_string cur) ->
  Forall (fun c => Py.isspace c = true) (list_ascii_of_string s) ->
  Forall (fun line => Forall (fun c => Py.isspace c = true) (list_ascii_of_string line))
         (splitlines_from cur s).
Proof.
  revert cur s. induction n as [|n IH]; intros cur s Hn Hcur Hs.
  - destruct s; [|simpl in Hn; lia]. simpl.
    destruct (String.eqb cur ""); repeat constructor. exact Hcur.
  - destruct s as [|c r].
    + simpl. destruct (String.eqb cur ""); repeat constructor. exact Hcur.
    + simpl in Hn. inversion Hs as [|? ? Hc Hr]; subst. cbn [splitlines_from].
      destruct (is_linebreak c).
      * destruct r as [|d r'].
        -- constructor; [exact Hcur|]. apply IH; [simpl; lia | constructor | constructor].
        -- inversion Hr as [|? ? Hd Hr']; subst. simpl in Hn.
           destruct (Ascii.eqb c (ascii_of_N 13) && Ascii.eqb d (ascii_of_N 10));
             (constructor; [exact Hcur|]); apply IH; try constructor; simpl; try lia;
             assumption.
      * apply IH; [lia | | exact Hr].
        apply all_space_app; [exact Hcur | repeat constructor; exact Hc].
Qed.

(** X18.  Every line that [_normalize_diagnostics] keeps is not empty and
    has no blank at either end, and an output that consists of blanks and
    line breaks only gives no line at all. *)
Theorem normalize_diagnostics_lines (raw_output : string) :
  Forall (fun line => line <> "" /\ Py.strip line = line) (_normalize_diagnostics raw_output)
  /\ (Forall (fun c => Py.isspace c = true) (list_ascii_of_string raw_output) ->
      _normalize_diagnostics raw_output = []).
Proof.
  unfold _normalize_diagnostics. split.
  - apply List.Forall_forall. intros line Hin. apply filter_In in Hin as [Hin Hne].
    apply in_map_iff in Hin as (raw & <- & _). split.
    + intros E. rewrite E in Hne. discriminate.
    + apply strip_idem.
  - intros H.
    pose proof (splitlines_all_space _ "" raw_output (le_n _) (List.Forall_nil _) H) as Hall.
    induction Hall as [|line lines Hline _ IH]; [reflexivity|].
    cbn [map List.filter]. rewrite (strip_all_space _ Hline). exact IH.
Qed.

Lemma normalize_diagnostics_lines_witness :
  _normalize_diagnostics (" " +:+ newline +:+ newline) = [].
Proof.
  apply (proj2 (normalize_diagnostics_lines _)). repeat constructor.
Defined.

Example normalize_diagnostics_ex :
  _normalize_diagnostics ("  loading a.maxpat " +:+ newline +:+ newline +:+ "done")
  = ["loading a.maxpat"; "done"].
Proof. reflexivity. Qed.

(** ** [main.py]: what a command prints in JSON mode *)

Lemma dict_mem_get {V} (k : string) (d : list (string * V)) :
  Dict.mem k d = match Dict.get k d with Some _ => true | None => false end.
Proof. reflexivity. Qed.

Lemma existsb_summary (summary : string) (l : list json) :
  existsb (fun v => match v with JStr t => String.eqb t summary | _ => false end) l = true
  -> In (JStr summary) l.
Proof.
  induction l as [|v l IH]; simpl; [discriminate|].
  intros H. apply orb_prop in H as [H|H]; [|right; exact (IH H)].
  destruct v; try discriminate. apply String.eqb_eq in H. subst. left. reflexivity.
Qed.

Section JsonModeProperties.
Context {rt : PyRuntime}.

(** X19.  In JSON mode a command adds one line to standard output, the
    report, and nothing else: what the action printed is captured, split
    into diagnostics and put into the report.  When the action returns, the
    line is the success report of the payload with the diagnostics added;
    when the action raises an error of the taxonomy that carries no
    diagnostics yet, the line is the error report, its diagnostics are the
    captured lines, and the command exits with the code of the error.  In
    both cases the rest of the world is as the action left it. *)
Theorem run_command_json_output (ctx_cfg : CLIContext) (command : string)
  (action : M (option pydict)) (w wa : world) :
  json_output ctx_cfg = true ->
  (forall payload payload',
      action (set_stdout "" w) = (Ok payload, wa) ->
      match _normalize_diagnostics (w_stdout wa) with
      | [] => Ok (default [] payload)
      | diagnostics => add_diagnostics (default [] payload) diagnostics
      end = Ok payload' ->
      _run_command ctx_cfg command action w
      = (Returned,
         set_stdout (w_stdout w
                     +:+ json_dumps (JDict (success_envelope command payload' (w_clock wa)))
                     +:+ newline) wa))
  /\ (forall exc code,
        action (set_stdout "" w) = (Raise exc, wa) ->
        isinstance exc "Exception" = true -> isinstance exc "MaxPyCLIError" = true ->
        exc_cli_diagnostics exc = None ->
        exit_code exc = Some code ->
        let reported := _attach_diagnostics exc (_normalize_diagnostics (w_stdout wa)) in
        _run_command ctx_cfg command action w
        = (SystemExit code,
           set_stdout (w_stdout w
                       +:+ json_dumps (JDict (error_envelope command reported code (w_clock wa)))
                       +:+ newline) wa)
        /\ Dict.get "diagnostics" (error_envelope command reported code (w_clock wa))
           = Some (JList (map JStr (_normalize_diagnostics (w_stdout wa))))).
Proof.
  intros Hjson. split.
  - intros payload payload' Hact Hpay.
    unfold _run_command, run_body. rewrite Hjson, Hact.
    destruct (_normalize_diagnostics (w_stdout wa)) as [|d ds].
    + injection Hpay as <-. unfold emit_success, mbind, _timestamp, echo. rewrite Hjson.
      reflexivity.
    + rewrite Hpay. unfold emit_success, mbind, _timestamp, echo. rewrite Hjson.
      reflexivity.
  - intros exc code Hact Hexc Hcli Hnone Hcode reported.
    assert (Hrep : match exc_cli_diagnostics reported with
                   | None | Some [] => _attach_diagnostics reported []
                   | Some _ => reported
                   end = reported).
    { subst reported. destruct (_normalize_diagnostics (w_stdout wa)); simpl;
        [rewrite Hnone|]; reflexivity. }
    split.
    + unfold _run_command, run_body. rewrite Hjson, Hact, Hexc. cbv beta iota zeta.
      fold reported.
      assert (Hc : isinstance reported "MaxPyCLIError" = true)
        by (subst reported; rewrite attach_isinstance; exact Hcli).
      rewrite Hc, Hrep.
      rewrite (report_and_exit_code ctx_cfg command reported code)
        by (subst reported; rewrite attach_exit_code; exact Hcode).
      unfold emit_error, mbind, _timestamp, echo. rewrite Hjson. reflexivity.
    + subst reported. destruct (_normalize_diagnostics (w_stdout wa)); simpl;
        [rewrite Hnone|]; reflexivity.
Qed.

(** X20.  When diagnostics were captured, the payload of the report gets
    them at the end of its diagnostics and, once, the warning that counts
    them; every other entry of the payload stays as it is.  This holds for a
    payload whose diagnostics and warnings are lists or are missing. *)
Theorem add_diagnostics_effect (payload : pydict) (diagnostics : list string)
  (old_diagnostics old_warnings : list json) :
  Dict.get_default "diagnostics" (JList []) payload = JList old_diagnostics ->
  Dict.get_default "warnings" (JList []) payload = JList old_warnings ->
  exists payload' new_warnings,
    add_diagnostics payload diagnostics = Ok payload'
    /\ Dict.get "diagnostics" payload' = Some (JList (old_diagnostics ++ map JStr diagnostics))
    /\ Dict.get "warnings" payload' = Some (JList new_warnings)
    /\ In (JStr (diagnostics_summary diagnostics)) new_warnings
    /\ (new_warnings = old_warnings
        \/ (~ In (JStr (diagnostics_summary diagnostics)) old_warnings
            /\ new_warnings = old_warnings ++ [JStr (diagnostics_summary diagnostics)]))
    /\ (forall key, key <> "diagnostics" -> key <> "warnings" ->
                    Dict.get key payload' = Dict.get key payload).
Proof.
  intros Hd Hw. unfold add_diagnostics. fold (diagnostics_summary diagnostics).
  set (p1 := if Dict.mem "diagnostics" payload then payload
             else Dict.set "diagnostics" (JList []) payload).
  assert (H1 : Dict.get "diagnostics" p1 = Some (JList old_diagnostics)).
  { subst p1. rewrite dict_mem_get. unfold Dict.get_default in Hd.
    destruct (Dict.get "diagnostics" payload) eqn:E.
    - rewrite E. congruence.
    - rewrite dict_get_set_same. congruence. }
  assert (H1o : forall key, key <> "diagnostics" -> Dict.get key p1 = Dict.get key payload).
  { intros key Hk. subst p1. destruct (Dict.mem "diagnostics" payload); [reflexivity|].
    apply dict_get_set_other. exact Hk. }
  rewrite H1. cbn [bind].
  set (p2 := Dict.set "diagnostics" (JList (old_diagnostics ++ map JStr diagnostics)) p1).
  assert (H2 : Dict.get "diagnostics" p2
               = Some (JList (old_diagnostics ++ map JStr diagnostics)))
    by apply dict_get_set_same.
  assert (H2o : forall key, key <> "diagnostics" -> Dict.get key p2 = Dict.get key payload).
  { intros key Hk. subst p2. rewrite dict_get_set_other by exact Hk. apply H1o, Hk. }
  set (p3 := if Dict.mem "warnings" p2 then p2 else Dict.set "warnings" (JList []) p2).
  assert (H3 : Dict.get "warnings" p3 = Some (JList old_warnings)).
  { subst p3. rewrite dict_mem_get. unfold Dict.get_default in Hw.
    destruct (Dict.get "warnings" p2) eqn:E.
    - rewrite E. rewrite H2o in E by discriminate. rewrite E in Hw. congruence.
    - rewrite dict_get_set_same. rewrite H2o in E by discriminate. rewrite E in Hw.
      congruence. }
  assert (H3o : forall key, key <> "warnings" -> Dict.get key p3 = Dict.get key p2).
  { intros key Hk. subst p3. destruct (Dict.mem "warnings" p2); [reflexivity|].
    apply dict_get_set_other. exact Hk. }
  rewrite H3.
  destruct (existsb _ old_warnings) eqn:Hex.
  - exists p3, old_warnings. split; [reflexivity|].
    split; [rewrite H3o by discriminate; exact H2|]. split; [exact H3|].
    split; [apply existsb_summary; exact Hex|]. split; [left; reflexivity|].
    intros key Hk1 Hk2. rewrite H3o by exact Hk2. apply H2o, Hk1.
  - eexists. exists (old_warnings ++ [JStr (diagnostics_summary diagnostics)]).
    split; [reflexivity|].
    split; [rewrite dict_get_set_other by discriminate;
            rewrite H3o by discriminate; exact H2|].
    split; [apply dict_get_set_same|].
    split; [apply in_or_app; right; left; reflexivity|].
    split.
    + right. split; [|reflexivity]. intros Hin.
      assert (Ht : existsb (fun v => match v with
                                     | JStr t => String.eqb t (diagnostics_summary diagnostics)
                                     | _ => false
                                     end) old_warnings = true).
      { apply existsb_exists. eexists. split; [exact Hin|]. apply String.eqb_refl. }
      congruence.
    + intros key Hk1 Hk2. rewrite dict_get_set_other by exact Hk2.
      rewrite H3o by exact Hk2. apply H2o, Hk1.
Qed.

End JsonModeProperties.

Lemma run_command_json_output_witness :
  let action := mbind (echo "  loading a.maxpat ") (fun _ => ret (Some [("message", JStr "ok")])) in
  _run_command (rt := stub_runtime) (demo_ctx true) "check" action demo_world
  = (Returned,
     set_stdout (w_stdout demo_world
                 +:+ json_dumps (PyRuntime := stub_runtime)
                       (JDict (success_envelope "check"
                                 [("message", JStr "ok");
                                  ("diagnostics", JList [JStr "loading a.maxpat"]);
                                  ("warnings",
                                   JList [JStr "1 internal diagnostic line(s) captured"])]
                                 (w_clock demo_world)))
                 +:+ newline)
       (set_stdout ("  loading a.maxpat " +:+ newline) demo_world)).
Proof.
  intros action.
  apply (proj1 (run_command_json_output (rt := stub_runtime) (demo_ctx true) "check" action
                  demo_world (set_stdout ("  loading a.maxpat " +:+ newline) demo_world)
                  eq_refl) (Some [("message", JStr "ok")])); reflexivity.
Defined.

Lemma add_diagnostics_effect_witness :
  exists payload' new_warnings,
    add_diagnostics [("message", JStr "ok"); ("warnings", JList [JStr "1 unknown object(s)"])]
                    ["a"; "b"] = Ok payload'
    /\ Dict.get "diagnostics" payload' = Some (JList ([] ++ map JStr ["a"; "b"]))
    /\ Dict.get "warnings" payload' = Some (JList new_warnings)
    /\ In (JStr (diagnostics_summary ["a"; "b"])) new_warnings
    /\ (new_warnings = [JStr "1 unknown object(s)"]
        \/ (~ In (JStr (diagnostics_summary ["a"; "b"])) [JStr "1 unknown object(s)"]
            /\ new_warnings = [JStr "1 unknown object(s)"]
                                ++ [JStr (diagnostics_summary ["a"; "b"])]))
    /\ (forall key, key <> "diagnostics" -> key <> "warnings" ->
                    Dict.get key payload'
                    = Dict.get key [("message", JStr "ok");
                                    ("warnings", JList [JStr "1 unknown object(s)"])]).
Proof.
  apply (add_diagnostics_effect
           [("message", JStr "ok"); ("warnings", JList [JStr "1 unknown object(s)"])]
           ["a"; "b"] [] [JStr "1 unknown object(s)"]); reflexivity.
Defined.

(** ** [list(dict.fromkeys(...))] *)

Lemma dict_set_keys {V} (k : string) (v : V) (d : list (string * V)) :
  map fst (Dict.set k v d) = if Dict.mem k d then map fst d else map fst d ++ [k].
Proof.
  unfold Dict.mem. induction d as [|[k' v'] r IH]; simpl; [reflexivity|].
  destruct (String.eqb k k') eqn:E; simpl.
  - apply String.eqb_eq in E. subst. reflexivity.
  - rewrite IH. destruct (Dict.get k r); reflexivity.
Qed.

Lemma dict_mem_keys {V} (k : string) (d : list (string * V)) :
  Dict.mem k d = true <-> In k (map fst d).
Proof.
  unfold Dict.mem. induction d as [|[k' v'] r IH]; simpl; [split; [discriminate | tauto]|].
  destruct (String.eqb k k') eqn:E.
  - apply String.eqb_eq in E. subst. tauto.
  - apply String.eqb_neq in E. rewrite IH. split; [tauto|]. intros [H|H]; [congruence | exact H].
Qed.

Lemma fromkeys_fold (keys : list string) (d : list (string * json)) :
  List.NoDup (map fst d) ->
  List.NoDup (map fst (fold_left (fun d k => Dict.set k JNull d) keys d))
  /\ (forall k, In k (map fst (fold_left (fun d k => Dict.set k JNull d) keys d))
                <-> In k (map fst d) \/ In k keys).
Proof.
  revert d. induction keys as [|key keys IH]; intros d Hd; simpl; [split; [exact Hd | tauto]|].
  assert (Hd' : List.NoDup (map fst (Dict.set key JNull d))).
  { rewrite dict_set_keys. destruct (Dict.mem key d) eqn:E; [exact Hd|].
    apply List.NoDup_app; [exact Hd | repeat constructor; intros [] |].
    intros x Hx [->|[]]. apply dict_mem_keys in Hx. congruence. }
  destruct (IH _ Hd') as [H1 H2]. split; [exact H1|].
  intros k. rewrite H2, dict_set_keys.
  destruct (Dict.mem key d) eqn:E.
  - apply dict_mem_keys in E. split; [tauto|]. intros [H|[->|H]]; tauto.
  - rewrite in_app_iff. simpl. tauto.
Qed.

Lemma fromkeys_once (keys : list string) :
  List.NoDup (map fst (dict_fromkeys keys))
  /\ forall k, In k (map fst (dict_fromkeys keys)) <-> In k keys.
Proof.
  destruct (fromkeys_fold keys [] (List.NoDup_nil _)) as [H1 H2].
  split; [exact H1|]. intros k. rewrite (H2 k). simpl. tauto.
Qed.

(** ** [main.py]: the end of a mutating command *)

Section MutationProperties.
Context {engine : GraphEngine} {rt : PyRuntime} {validation : MaxValidation}
        {mutations : GraphMutations}.

(** X21.  [_finalize_mutation] saves only a patch that passes the strict
    check: in strict mode a patch with a warning is not saved, the call
    raises a [ValidationError] (exit code 4) and the world stays as it is.
    Otherwise the patch is saved, the payload carries the warnings of
    [collect_patch_health] and both paths, and a failure of the save is the
    failure of the call. *)
Theorem finalize_mutation_strict (ctx_cfg : CLIContext) (patch : MaxPatch)
  (input_path output_path : Path) (message : string) (changes : pydict)
  (data data_schema : json) (w : world) :
  let finalize :=
    _finalize_mutation ctx_cfg patch input_path output_path message changes data data_schema in
  let health := collect_patch_health patch in
  (strict ctx_cfg = true -> health <> [] ->
     exists e, finalize w = (Raise e, w)
               /\ type_name e = "ValidationError" /\ exit_code e = Some 4)
  /\ (strict ctx_cfg = false \/ health = [] ->
      (forall w', save_patch patch output_path w = (Ok tt, w') ->
         finalize w = (Ok (Some [ ("message", JStr message);
                                  ("input", JStr (PathLib.str input_path));
                                  ("output", JStr (PathLib.str output_path));
                                  ("changes", JDict changes);
                                  ("warnings", JList (map JStr health));
                                  ("data", data);
                                  ("data_schema", data_schema) ]), w'))
      /\ (forall e w', save_patch patch output_path w = (Raise e, w') ->
                       finalize w = (Raise e, w'))).
Proof.
  intros finalize health. subst finalize. unfold _finalize_mutation. fold health.
  clearbody health. unfold mbind, lift, ret. split.
  - intros Hs Hh. unfold strict_guard. rewrite Hs.
    destruct health as [|x l]; [contradiction|]. eexists. repeat split.
  - intros Hok.
    assert (Hg : strict_guard (strict ctx_cfg) health = Ok tt).
    { unfold strict_guard. destruct Hok as [-> | ->]; [destruct health|]; reflexivity. }
    rewrite Hg. split; intros; match goal with H : save_patch _ _ _ = _ |- _ => rewrite H end;
      reflexivity.
Qed.

(** X22.  [delete_command] hands each selected object to the engine once:
    when the patch loads and every selector and edge resolves, the
    identifiers passed to [patch.delete] have no repetition and are exactly
    the labels that the selectors resolve to, however often and in whatever
    form (identifier or alias) an object was selected. *)
Theorem delete_selects_each_object_once (ctx_cfg : CLIContext) (input_path : Path)
  (output_path : option Path) (selectors edges : list string) (w w1 : world)
  (patch : MaxPatch) (out : Path) (labels : list string) (cords : list (Outlet * Inlet)) :
  selectors <> [] \/ edges <> [] ->
  load_patch input_path (verbose ctx_cfg) w = (Ok patch, w1) ->
  resolve_output_path (Some input_path) output_path (in_place ctx_cfg) false = Ok out ->
  collect (resolve_label patch) selectors = Ok labels ->
  collect (resolve_cord patch) edges = Ok cords ->
  exists ids,
    List.NoDup ids
    /\ (forall id, In id ids <-> In id labels)
    /\ delete_action ctx_cfg input_path output_path selectors edges w
       = mbind (patch_delete patch ids cords (verbose ctx_cfg))
           (fun patch' =>
              _finalize_mutation ctx_cfg patch' input_path out
                "deleted requested objects/edges"
                [("deleted_objects", JInt (Py.len ids));
                 ("deleted_edges", JInt (Py.len cords))]
                (JDict [("deleted_object_ids", JList (map JStr ids));
                        ("deleted_edges", JInt (Py.len cords))])
                (JStr "maxpylang.cli.delete.data.v1")) w1.
Proof.
  intros Hargs Hload Hout Hlabels Hcords.
  exists (map fst (dict_fromkeys labels)).
  destruct (fromkeys_once labels) as [H1 H2]. split; [exact H1|]. split; [exact H2|].
  unfold delete_action.
  assert (He : (match selectors with [] => true | _ => false end)
               && (match edges with [] => true | _ => false end) = false).
  { destruct selectors, edges; try reflexivity. destruct Hargs; contradiction. }
  rewrite He. unfold mbind at 1. rewrite Hload.
  unfold mbind at 1. unfold lift at 1. rewrite Hout.
  unfold mbind at 1. unfold lift at 1. rewrite Hlabels.
  unfold mbind at 1. unfold lift at 1. rewrite Hcords. reflexivity.
Qed.

(** X23.  [delete_command] changes nothing before everything is resolved:
    without a selector and without an edge it raises [UsageError] before the
    patch is loaded, and when a selector or an edge does not resolve the
    action raises that error right after loading, so that the engine is
    asked neither to delete nor to save, and the command does not return
    normally. *)
Theorem delete_resolves_before_mutation (ctx_cfg : CLIContext) (input_path : Path)
  (output_path : option Path) (selectors edges : list string) (w : world) :
  let w0 := action_world ctx_cfg w in
  let action := delete_action ctx_cfg input_path output_path selectors edges in
  (selectors = [] -> edges = [] ->
     action w0 = (Raise (UsageError "delete requires at least one --obj or --edge"), w0))
  /\ (forall patch w1 out e,
        selectors <> [] \/ edges <> [] ->
        load_patch input_path (verbose ctx_cfg) w0 = (Ok patch, w1) ->
        resolve_output_path (Some input_path) output_path (in_place ctx_cfg) false = Ok out ->
        collect (resolve_label patch) selectors = Raise e
        \/ ((exists labels, collect (resolve_label patch) selectors = Ok labels)
            /\ collect (resolve_cord patch) edges = Raise e) ->
        action w0 = (Raise e, w1)
        /\ fst (delete_command ctx_cfg input_path output_path selectors edges w) <> Returned
        /\ w_fs (snd (delete_command ctx_cfg input_path output_path selectors edges w))
           = w_fs w1).
Proof.
  intros w0 action. split.
  - intros -> ->. reflexivity.
  - intros patch w1 out e Hargs Hload Hout Hres.
    assert (Hact : action w0 = (Raise e, w1)).
    { subst action. unfold delete_action.
      assert (He : (match selectors with [] => true | _ => false end)
                   && (match edges with [] => true | _ => false end) = false).
      { destruct selectors, edges; try reflexivity. destruct Hargs; contradiction. }
      rewrite He. unfold mbind at 1. rewrite Hload.
      unfold mbind at 1. unfold lift at 1. rewrite Hout.
      unfold mbind at 1. unfold lift at 1.
      destruct Hres as [Hl|[[labels Hl] Hc]]; rewrite Hl; [reflexivity|].
      unfold mbind at 1. unfold lift at 1. rewrite Hc. reflexivity. }
    split; [exact Hact|].
    destruct (run_command_raise_fs ctx_cfg "delete" action w w1 e Hact) as [Hfs Hret].
    split; [exact Hret | exact Hfs].
Qed.

End MutationProperties.

Lemma finalize_mutation_strict_witness :
  let patch := [("obj-1", _FakeObject JNull 1 1); ("obj-2", _FakeObject JNull 1 1)] in
  exists e,
    _finalize_mutation (engine := unknown_engine) (mk_ctx false false true false) patch
      ["a.maxpat"] ["b.maxpat"] "saved" [] JNull JNull patch_world = (Raise e, patch_world)
    /\ type_name e = "ValidationError" /\ exit_code e = Some 4.
Proof.
  intros patch.
  apply (proj1 (finalize_mutation_strict (engine := unknown_engine)
                  (mk_ctx false false true false) patch ["a.maxpat"] ["b.maxpat"] "saved" []
                  JNull JNull patch_world)); [reflexivity | discriminate].
Defined.

Lemma delete_selects_each_object_once_witness :
  let loaded := [("obj-1", _FakeObject (JStr "osc") 1 1); ("obj-2", _FakeObject JNull 2 1)] in
  exists ids,
    List.NoDup ids
    /\ (forall id, In id ids <-> In id ["obj-1"; "obj-1"; "obj-2"; "obj-1"])
    /\ delete_action (engine := fake_engine) (mutations := fake_mutations)
         (demo_ctx false) ["a.maxpat"] (Some ["b.maxpat"])
         ["obj-1"; "@alias:osc"; "obj-2"; " obj-1 "] [] patch_world
       = mbind (patch_delete (GraphMutations := fake_mutations) loaded ids [] false)
           (fun patch' =>
              _finalize_mutation (engine := fake_engine) (demo_ctx false) patch'
                ["a.maxpat"] ["b.maxpat"] "deleted requested objects/edges"
                [("deleted_objects", JInt (Py.len ids)); ("deleted_edges", JInt (Py.len (A := unit * unit) []))]
                (JDict [("deleted_object_ids", JList (map JStr ids));
                        ("deleted_edges", JInt (Py.len (A := unit * unit) []))])
                (JStr "maxpylang.cli.delete.data.v1")) patch_world.
Proof.
  intros loaded.
  apply (delete_selects_each_object_once (engine := fake_engine)
           (mutations := fake_mutations) (demo_ctx false) ["a.maxpat"] (Some ["b.maxpat"])
           ["obj-1"; "@alias:osc"; "obj-2"; " obj-1 "] [] patch_world patch_world loaded
           ["b.maxpat"] ["obj-1"; "obj-1"; "obj-2"; "obj-1"] []);
    [left; discriminate | reflexivity ..].
Defined.

Lemma delete_resolves_before_mutation_witness :
  let action :=
    delete_action (engine := fake_engine) (mutations := fake_mutations)
      (demo_ctx false) ["a.maxpat"] (Some ["b.maxpat"]) ["obj-1"; "obj-9"] [] in
  action patch_world = (Raise (ObjectResolutionError "object not found: obj-9"), patch_world)
  /\ fst (delete_command (engine := fake_engine) (rt := stub_runtime)
            (mutations := fake_mutations) (demo_ctx false) ["a.maxpat"] (Some ["b.maxpat"])
            ["obj-1"; "obj-9"] [] patch_world) <> Returned
  /\ w_fs (snd (delete_command (engine := fake_engine) (rt := stub_runtime)
                  (mutations := fake_mutations) (demo_ctx false) ["a.maxpat"]
                  (Some ["b.maxpat"]) ["obj-1"; "obj-9"] [] patch_world))
     = w_fs patch_world.
Proof.
  intros action.
  apply (proj2 (delete_resolves_before_mutation (engine := fake_engine) (rt := stub_runtime)
                  (mutations := fake_mutations) (demo_ctx false) ["a.maxpat"]
                  (Some ["b.maxpat"]) ["obj-1"; "obj-9"] [] patch_world)
           [("obj-1", _FakeObject (JStr "osc") 1 1); ("obj-2", _FakeObject JNull 2 1)]
           patch_world ["b.maxpat"]);
    [left; discriminate | reflexivity | reflexivity | left; reflexivity].
Defined.

(** ** [main.py]: the [export-amxd] command *)

Section ExportCommandProperties.
Context {engine : GraphEngine} {rt : PyRuntime} {validation : MaxValidation}
        {mutations : GraphMutations}.

Lemma export_amxd_file_validated (patch : MaxPatch) (output_path : Path)
  (overwrite validate : bool) (timeout : json) (w w' : world) (data : pydict) :
  export_amxd_file patch output_path overwrite validate timeout w = (Ok data, w') ->
  Dict.get "validated" data = Some (JBool validate).
Proof.
  unfold export_amxd_file, mbind, lift, ret, raise. intros H.
  repeat match type of H with
         | context [match ?x with _ => _ end] => destruct x eqn:?; try discriminate H
         end.
  all: injection H as <- _; reflexivity.
Qed.

(** X24.  The message of a successful [export-amxd] says that the file was
    validated exactly when validation was asked for, and that validation was
    skipped otherwise: the wording for a validation that was asked for and
    did not run is never used.  The payload names the output path and holds
    the export data.  In strict mode a patch with a warning is not exported:
    the action raises a [ValidationError] and the world is as loading left
    it. *)
Theorem export_amxd_action_outcome (ctx_cfg : CLIContext) (input_path output_path : Path)
  (validate : bool) (timeout : json) (overwrite : bool) (w : world) :
  let action := export_amxd_action ctx_cfg input_path output_path validate timeout overwrite in
  (forall payload w',
      action w = (Ok payload, w') ->
      exists fields data,
        payload = Some fields
        /\ Dict.get "message" fields
           = Some (JStr (if validate then "exported .amxd and validated in Max"
                         else "exported .amxd (validation skipped)"))
        /\ Dict.get "output" fields = Some (JStr (PathLib.str output_path))
        /\ Dict.get "data" fields = Some (JDict data)
        /\ Dict.get "validated" data = Some (JBool validate))
  /\ (forall patch w1,
        load_patch input_path (verbose ctx_cfg) w = (Ok patch, w1) ->
        strict ctx_cfg = true -> collect_patch_health patch <> [] ->
        exists e, action w = (Raise e, w1)
                  /\ type_name e = "ValidationError" /\ exit_code e = Some 4).
Proof.
  intros action. subst action. unfold export_amxd_action. split.
  - intros payload w'. unfold mbind at 1.
    destruct (load_patch input_path (verbose ctx_cfg) w) as [[patch|e] w1]; [|discriminate].
    unfold mbind at 1. unfold lift at 1.
    destruct (strict_guard (strict ctx_cfg) (collect_patch_health patch)) as [[]|e];
      [|discriminate].
    unfold mbind at 1.
    destruct (export_amxd_file patch output_path overwrite validate timeout w1)
      as [[data|e] w2] eqn:Hex; [|discriminate].
    pose proof (export_amxd_file_validated _ _ _ _ _ _ _ _ Hex) as Hv.
    unfold mbind, ret. rewrite Hv. intros [= <- <-].
    eexists. exists data. split; [reflexivity|].
    split; [destruct validate; reflexivity|]. repeat split. exact Hv.
  - intros patch w1 Hload Hs Hh. unfold mbind at 1. rewrite Hload.
    unfold mbind at 1. unfold lift at 1. unfold strict_guard. rewrite Hs.
    destruct (collect_patch_health patch) as [|x l]; [contradiction|].
    eexists. repeat split.
Qed.

End ExportCommandProperties.

Lemma export_amxd_action_outcome_witness :
  exists e,
    export_amxd_action (engine := unknown_engine) (rt := stub_runtime)
      (validation := stub_validation)
      (mutations := @Build_GraphMutations unknown_engine (fun _ => 1) (fun p _ _ _ => ret p))
      (mk_ctx false false true false) ["a.maxpat"] ["out"; "device.amxd"] false JNull false
      patch_world = (Raise e, patch_world)
    /\ type_name e = "ValidationError" /\ exit_code e = Some 4.
Proof.
  apply (proj2 (export_amxd_action_outcome (engine := unknown_engine) (rt := stub_runtime)
                  (validation := stub_validation)
                  (mutations := @Build_GraphMutations unknown_engine (fun _ => 1)
                                  (fun p _ _ _ => ret p))
                  (mk_ctx false false true false) ["a.maxpat"] ["out"; "device.amxd"] false
                  JNull false patch_world)
           [("obj-1", _FakeObject (JStr "osc") 1 1)] patch_world);
    [reflexivity | reflexivity | discriminate].
Defined.

(** ** [output.py]: the reports only print *)

Lemma only_printed_refl (w : world) : only_printed w w.
Proof. repeat split. exists "". now rewrite append_nil_r. Qed.

Lemma only_printed_trans (w1 w2 w3 : world) :
  only_printed w1 w2 -> only_printed w2 w3 -> only_printed w1 w3.
Proof.
  intros (F1 & C1 & K1 & t1 & S1) (F2 & C2 & K2 & t2 & S2).
  repeat split; try congruence. exists (t1 +:+ t2). rewrite S2, S1. apply append_assoc.
Qed.

Lemma prints_only_ret {A} (a : A) : prints_only (ret a).
Proof. intros w. apply only_printed_refl. Qed.

Lemma prints_only_lift {A} (r : result A) : prints_only (lift r).
Proof. intros w. apply only_printed_refl. Qed.

Lemma prints_only_echo (text : string) : prints_only (echo text).
Proof. intros w. repeat split. eexists. reflexivity. Qed.

Lemma prints_only_bind {A B} (m : M A) (k : A -> M B) :
  prints_only m -> (forall a, prints_only (k a)) -> prints_only (mbind m k).
Proof.
  intros Hm Hk w. unfold mbind. specialize (Hm w).
  destruct (m w) as [[a|e] w1]; simpl in *; [|exact Hm].
  eapply only_printed_trans; [exact Hm | apply Hk].
Qed.

Lemma prints_only_for_each {A} (body : A -> M unit) (xs : list A) :
  (forall x, prints_only (body x)) -> prints_only (for_each body xs).
Proof.
  intros Hb. induction xs as [|x xs IH]; simpl; [apply prints_only_ret|].
  apply prints_only_bind; [apply Hb | intros _; exact IH].
Qed.

Section ReportProperties.
Context {rt : PyRuntime}.

(** X25.  Reporting only prints: [emit_success] and [emit_error] leave the
    file system, the configuration and the clock as they are and add text
    at the end of standard output, whether they return or raise.
    [emit_error] always returns.  In JSON mode [emit_success] returns too
    and the text added is one line, the report; in the other mode the text
    that [emit_error] adds is the line [error: <message>]. *)
Theorem emit_only_prints (ctx : CLIContext) (command : string) (payload : option pydict)
  (error : exn) (code : Z) (w : world) :
  only_printed w (snd (emit_success ctx command payload w))
  /\ only_printed w (snd (emit_error ctx command error code w))
  /\ fst (emit_error ctx command error code w) = Ok tt
  /\ (json_output ctx = true ->
      emit_success ctx command payload w
      = (Ok tt,
         set_stdout (w_stdout w
                     +:+ json_dumps (JDict (success_envelope command (default [] payload)
                                              (w_clock w)))
                     +:+ newline) w))
  /\ (json_output ctx = false ->
      w_stdout (snd (emit_error ctx command error code w))
      = w_stdout w +:+ "error: " +:+ exc_str error +:+ newline).
Proof.
  split; [|split; [|split; [|split]]].
  - revert w. change (prints_only (emit_success ctx command payload)).
    unfold emit_success. apply prints_only_bind; [intros w; apply only_printed_refl|].
    intros generated_at. destruct (json_output ctx); [apply prints_only_echo|].
    repeat (apply prints_only_bind; [|intros ?]);
      repeat match goal with
             | |- prints_only (if ?b then _ else _) => destruct b
             | |- prints_only (match ?v with JNull => _ | _ => _ end) => destruct v
             end;
      try apply prints_only_echo; try apply prints_only_ret; try apply prints_only_lift;
      apply prints_only_for_each; intros ?; apply prints_only_echo.
  - revert w. change (prints_only (emit_error ctx command error code)).
    unfold emit_error. apply prints_only_bind; [intros w; apply only_printed_refl|].
    intros generated_at. destruct (json_output ctx); apply prints_only_echo.
  - apply emit_error_returns.
  - intros H. unfold emit_success, mbind, _timestamp, echo. rewrite H. reflexivity.
  - intros H. unfold emit_error, mbind, _timestamp, echo. rewrite H. reflexivity.
Qed.

End ReportProperties.

Lemma emit_only_prints_witness :
  emit_success (rt := stub_runtime) (demo_ctx true) "save" None demo_world
  = (Ok tt,
     set_stdout (w_stdout demo_world
                 +:+ json_dumps (PyRuntime := stub_runtime)
                       (JDict (success_envelope "save" (default [] None) (w_clock demo_world)))
                 +:+ newline) demo_world)
  /\ w_stdout (snd (emit_error (rt := stub_runtime) (demo_ctx false) "save"
                      (UsageError "missing output path") 2 demo_world))
     = w_stdout demo_world +:+ "error: " +:+ exc_str (UsageError "missing output path")
       +:+ newline.
Proof.
  pose proof (emit_only_prints (rt := stub_runtime) (demo_ctx true) "save" None
                (UsageError "missing output path") 2 demo_world) as (_ & _ & _ & H1 & _).
  pose proof (emit_only_prints (rt := stub_runtime) (demo_ctx false) "save" None
                (UsageError "missing output path") 2 demo_world) as (_ & _ & _ & _ & H2).
  split; [apply H1; reflexivity | apply H2; reflexivity].
Defined.

(** ** [export_amxd.py]: what an export leaves alone *)

Lemma keeps_other_files_refl (target : Path) (w : world) : keeps_other_files target w w.
Proof. repeat split. auto. Qed.

Lemma keeps_other_files_trans (target : Path) (w1 w2 w3 : world) :
  keeps_other_files target w1 w2 -> keeps_other_files target w2 w3 ->
  keeps_other_files target w1 w3.
Proof.
  intros (F1 & S1 & C1) (F2 & S2 & C2). repeat split; try congruence.
  intros q node Hq Hne. apply F2; [apply F1|]; assumption.
Qed.

Lemma mkdir_from_keeps (rest base : Path) (fs : gmap (list string) node) (q : Path)
  (n : node) :
  fs !! q = Some n -> snd (PathLib.mkdir_from base rest fs) !! q = Some n.
Proof.
  revert base fs. induction rest as [|c rest IH]; intros base fs Hq; [exact Hq|].
  cbn [PathLib.mkdir_from].
  destruct (fs !! (base ++ [c])) as [[content|]|] eqn:E.
  - exact Hq.
  - apply IH, Hq.
  - apply IH. rewrite lookup_insert_ne; [exact Hq|]. intros <-. congruence.
Qed.

Lemma mkdir_parents_keeps (p target : Path) (w : world) :
  keeps_other_files target w (snd (PathLib.mkdir_parents p w)).
Proof.
  unfold PathLib.mkdir_parents.
  pose proof (fun q n => mkdir_from_keeps p [] (w_fs w) q n) as H.
  destruct (PathLib.mkdir_from [] p (w_fs w)) as [r fs]. simpl in *.
  repeat split. intros q n Hq _. apply H, Hq.
Qed.

Section ExportFrame.
Context {engine : GraphEngine} {rt : PyRuntime} {validation : MaxValidation}.

Lemma try_except_world {A} (body : M A) (wrap : exn -> exn) (w : world) :
  snd (try_except_Exception body wrap w) = snd (body w).
Proof.
  unfold try_except_Exception. destruct (body w) as [[a|e] w']; [reflexivity|].
  destruct (isinstance e "Exception"); reflexivity.
Qed.

Lemma write_text_keeps (p : Path) (content : string) (w : world) :
  keeps_other_files p w (snd (PathLib.write_text p content w)).
Proof.
  assert (Hins : keeps_other_files p w (set_fs (<[p := File content]> (w_fs w)) w)).
  { repeat split. intros q n Hq Hne. simpl. rewrite lookup_insert_ne; congruence. }
  unfold PathLib.write_text.
  destruct (w_fs w !! p) as [[old|]|]; try apply keeps_other_files_refl;
    destruct p as [|c [|c' p']]; try apply keeps_other_files_refl; try exact Hins;
    destruct (w_fs w !! PathLib.parent (c :: c' :: p')) as [[parent_content|]|];
    try apply keeps_other_files_refl; exact Hins.
Qed.

Lemma write_patch_json_keeps (patch_dict : json) (p : Path) (w : world) :
  keeps_other_files p w (snd (_write_patch_json patch_dict p w)).
Proof.
  unfold _write_patch_json. rewrite try_except_world. apply write_text_keeps.
Qed.

Lemma resolve_validation_timeout_reads (timeout : json) (w : world) :
  snd (resolve_validation_timeout timeout w) = w.
Proof.
  unfold resolve_validation_timeout, mbind, ret, raise.
  assert (H : snd ((match timeout with JNull => config_get "wait_time" | _ => fun w => (Ok timeout, w) end) w) = w).
  { destruct timeout; try reflexivity. apply config_get_world. }
  destruct ((match timeout with JNull => config_get "wait_time" | _ => fun w => (Ok timeout, w) end) w)
    as [[raw|e] w1]; simpl in H; subst w1; [|reflexivity].
  destruct (py_float raw) as [f|e]; [destruct (PrimFloat.leb f 0); reflexivity|].
  destruct (isinstance e "TypeError" || isinstance e "ValueError"); reflexivity.
Qed.

(** X26.  An export without validation touches nothing but its target:
    whether it returns or raises, every file and directory that was there
    and is not the output path is still there with its content, and
    standard output and the configuration are as they were. *)
Theorem export_keeps_other_files (patch : MaxPatch) (output_path : Path) (overwrite : bool)
  (timeout : json) (w : world) :
  keeps_other_files output_path w
    (snd (export_amxd_file patch output_path overwrite false timeout w)).
Proof.
  unfold export_amxd_file. unfold mbind at 1. unfold lift at 1.
  destruct (normalize_amxd_path output_path) as [normalized|e] eqn:Hn;
    [|apply keeps_other_files_refl].
  assert (normalized = output_path) as ->.
  { unfold normalize_amxd_path in Hn. destruct (negb _); congruence. }
  unfold mbind at 1. unfold PathLib.exists_ at 1.
  match goal with |- context [if ?b then _ else _] => destruct b end;
    [apply keeps_other_files_refl|].
  unfold mbind at 1.
  pose proof (mkdir_parents_keeps (PathLib.parent output_path) output_path w) as H1.
  destruct (PathLib.mkdir_parents (PathLib.parent output_path) w) as [[[]|e] w1];
    simpl in H1; [|exact H1].
  unfold mbind at 1.
  pose proof (write_patch_json_keeps (get_json patch) output_path w1) as H2.
  destruct (_write_patch_json (get_json patch) output_path w1) as [[[]|e] w2];
    simpl in H2; [|exact (keeps_other_files_trans _ _ _ _ H1 H2)].
  apply (keeps_other_files_trans _ _ _ _ (keeps_other_files_trans _ _ _ _ H1 H2)).
  unfold mbind, ret.
  destruct (negb match timeout with JNull => true | _ => false end) eqn:Ht;
    cbn [orb]; cbv beta iota.
  - pose proof (resolve_validation_timeout_reads timeout w2) as H3.
    destruct (resolve_validation_timeout timeout w2) as [[t|e] w3]; simpl in H3; subst w3;
      apply keeps_other_files_refl.
  - apply keeps_other_files_refl.
Qed.

End ExportFrame.

Lemma export_keeps_other_files_witness :
  let w := set_fs (<[ ["out"; "old.amxd"] := File "old" ]> (<[ ["out"] := Dir ]> ∅))
                  demo_world in
  w_fs (snd (export_amxd_file (engine := fake_engine) (rt := stub_runtime)
               (validation := stub_validation) [] ["out"; "new.amxd"] false false JNull w))
    !! ["out"; "old.amxd"] = Some (File "old").
Proof.
  intros w.
  apply (proj1 (export_keeps_other_files (engine := fake_engine) (rt := stub_runtime)
                  (validation := stub_validation) [] ["out"; "new.amxd"] false JNull w));
    [reflexivity | discriminate].
Defined.

(** ** [export_amxd.py]: the helper of the validation copy *)

Lemma collect_Forall2 {A B} (body : A -> result B) (items : list A) (results : list B) :
  collect body items = Ok results ->
  Forall2 (fun x y => body x = Ok y) items results.
Proof.
  revert results. induction items as [|x items IH]; intros results; cbn [collect].
  - intros [= <-]. constructor.
  - destruct (body x) as [y|e] eqn:Hx; [|discriminate]. cbn [bind].
    destruct (collect body items) as [ys|e]; [|discriminate]. cbn [bind].
    intros [= <-]. constructor; [exact Hx | apply IH; reflexivity].
Qed.

Lemma box_id_str_inv (entry : json) (id : string) :
  box_id entry = Ok (JStr id) ->
  exists fields box_data,
    entry = JDict fields /\ Dict.get "box" fields = Some (JDict box_data)
    /\ Dict.get "id" box_data = Some (JStr id).
Proof.
  unfold box_id, py_get, Dict.get_default. destruct entry as [| | | | | |fields]; try discriminate.
  cbn [bind]. destruct (Dict.get "box" fields) as [inner|] eqn:Hb; [|discriminate].
  destruct inner as [| | | | | |box_data]; try discriminate.
  destruct (Dict.get "id" box_data) as [v|] eqn:Hi; [|discriminate].
  intros [= ->]. eauto.
Qed.

Lemma build_from_ids (helper_boxes : list json) (next_index : Z)
  (id_map result_map : list (string * string)) :
  _build_helper_id_map_from next_index id_map helper_boxes = Ok result_map ->
  exists ids, Forall2 (fun hb id => box_id hb = Ok (JStr id)) helper_boxes ids.
Proof.
  revert next_index id_map. induction helper_boxes as [|hb rest IH]; intros n m H.
  - exists []. constructor.
  - cbn [_build_helper_id_map_from] in H.
    destruct (box_id hb) as [v|e] eqn:Hb; [|discriminate]. cbn [bind] in H.
    destruct v; try discriminate.
    destruct (IH _ _ H) as [ids Hids]. eexists (_ :: ids). constructor; eassumption.
Qed.

Lemma inject_box_data_effect (id_map : list (string * string)) (validation_path : Path)
  (box_data box_data' : pydict) :
  inject_box_data id_map validation_path box_data = Ok box_data' ->
  Dict.get "hidden" box_data' = Some (JInt 1)
  /\ (forall key, key <> "id" -> key <> "hidden" -> key <> "text" ->
                  Dict.get key box_data' = Dict.get key box_data)
  /\ (Dict.get "text" box_data = Some (JStr "write") ->
      Dict.get "text" box_data' = Some (JStr (write_text_for validation_path)))
  /\ (Dict.get "text" box_data <> Some (JStr "write") ->
      Dict.get "text" box_data' = Dict.get "text" box_data)
  /\ (forall old, Dict.get "id" box_data = Some (JStr old) ->
                  Dict.get "id" box_data' = Some (JStr (remapped id_map old))).
Proof.
  unfold inject_box_data.
  destruct (id_map_get id_map (Dict.get_default "id" JNull box_data)) as [mapped|e] eqn:Hm;
    [|discriminate]. cbn [bind].
  set (b1 := match mapped with
             | Some new_id => Dict.set "id" (JStr new_id) box_data
             | None => box_data
             end).
  set (b2 := Dict.set "hidden" (JInt 1) b1).
  assert (H1 : forall key, key <> "id" -> Dict.get key b1 = Dict.get key box_data).
  { intros key Hk. subst b1. destruct mapped; [apply dict_get_set_other; exact Hk | reflexivity]. }
  assert (H2 : forall key, key <> "hidden" -> Dict.get key b2 = Dict.get key b1).
  { intros key Hk. apply dict_get_set_other. exact Hk. }
  assert (Hh : Dict.get "hidden" b2 = Some (JInt 1)) by apply dict_get_set_same.
  assert (Hi : forall old, Dict.get "id" box_data = Some (JStr old) ->
                           Dict.get "id" b2 = Some (JStr (remapped id_map old))).
  { intros old Ho. rewrite H2 by discriminate. subst b1.
    unfold Dict.get_default in Hm. rewrite Ho in Hm. cbn [id_map_get] in Hm.
    injection Hm as <-. unfold remapped, Dict.get_default.
    destruct (Dict.get old id_map); [apply dict_get_set_same | exact Ho]. }
  assert (Ht : Dict.get "text" b2 = Dict.get "text" box_data).
  { rewrite H2, H1 by discriminate. reflexivity. }
  rewrite Ht.
  destruct (Dict.get "text" box_data) as [text|] eqn:Htext.
  - destruct text as [| | | |text| |];
      try (intros [= <-]; split; [exact Hh|]; split;
           [intros key K1 K2 K3; rewrite H2, H1 by assumption; reflexivity|];
           split; [discriminate|]; split; [intros _; exact Ht | exact Hi]).
    destruct (String.eqb text "write") eqn:Hw.
    + apply String.eqb_eq in Hw. subst text. intros [= <-].
      split; [rewrite dict_get_set_other by discriminate; exact Hh|].
      split; [intros key K1 K2 K3; rewrite dict_get_set_other, H2, H1 by assumption;
              reflexivity|].
      split; [intros _; apply dict_get_set_same|].
      split; [congruence|].
      intros old Ho. rewrite dict_get_set_other by discriminate. apply Hi, Ho.
    + apply String.eqb_neq in Hw. intros [= <-]. split; [exact Hh|].
      split; [intros key K1 K2 K3; rewrite H2, H1 by assumption; reflexivity|].
      split; [congruence|]. split; [intros _; exact Ht | exact Hi].
  - intros [= <-]. split; [exact Hh|].
    split; [intros key K1 K2 K3; rewrite H2, H1 by assumption; reflexivity|].
    split; [discriminate|]. split; [intros _; exact Ht | exact Hi].
Qed.

Lemma inject_helper_box_effect (id_map : list (string * string)) (validation_path : Path)
  (helper_box new_box : json) (id : string) :
  box_id helper_box = Ok (JStr id) ->
  inject_helper_box id_map validation_path helper_box = Ok new_box ->
  entry_field "box" "hidden" new_box = Some (JInt 1)
  /\ entry_field "box" "id" new_box = Some (JStr (remapped id_map id))
  /\ (forall key, key <> "id" -> key <> "hidden" -> key <> "text" ->
                  entry_field "box" key new_box = entry_field "box" key helper_box)
  /\ (entry_field "box" "text" helper_box = Some (JStr "write") ->
      entry_field "box" "text" new_box = Some (JStr (write_text_for validation_path)))
  /\ (entry_field "box" "text" helper_box <> Some (JStr "write") ->
      entry_field "box" "text" new_box = entry_field "box" "text" helper_box)
  /\ (forall fields fields', helper_box = JDict fields -> new_box = JDict fields' ->
        forall key, key <> "box" -> Dict.get key fields' = Dict.get key fields).
Proof.
  intros Hid Hinj. destruct (box_id_str_inv _ _ Hid) as (fields & box_data & -> & Hb & Hi).
  unfold inject_helper_box in Hinj. rewrite Hb in Hinj.
  destruct (inject_box_data id_map validation_path box_data) as [box_data'|e] eqn:Hd;
    [|discriminate]. cbn [bind] in Hinj. injection Hinj as <-.
  destruct (inject_box_data_effect _ _ _ _ Hd) as (E1 & E2 & E3 & E4 & E5).
  unfold entry_field. rewrite dict_get_set_same, Hb.
  repeat split; try assumption.
  - apply E5, Hi.
  - intros f f' [= <-] [= <-] key Hk. apply dict_get_set_other. exact Hk.
Qed.

Lemma remap_port_effect (id_map : list (string * string)) (port port' : json) :
  Forall (fun kv => snd kv <> "") id_map ->
  remap_port id_map port = Ok port' ->
  (forall old rest, port = JList (JStr old :: rest) ->
                    port' = JList (JStr (remapped id_map old) :: rest))
  /\ ((forall old rest, port <> JList (JStr old :: rest)) -> port' = port).
Proof.
  intros Hne. unfold remap_port.
  destruct port as [| | | | |l|]; try (intros [= <-]; split; [discriminate | reflexivity]).
  destruct l as [|first rest]; [intros [= <-]; split; [discriminate | reflexivity]|].
  destruct first as [| | | |old| |]; cbn [id_map_get bind];
    try discriminate;
    try (intros [= <-]; split; [discriminate | reflexivity]).
  destruct (Dict.get old id_map) as [new_id|] eqn:Hg.
  - assert (Hnew : String.eqb new_id "" = false).
    { apply String.eqb_neq. apply dict_get_In in Hg.
      rewrite List.Forall_forall in Hne. exact (Hne _ Hg). }
    rewrite Hnew. intros [= <-]. split.
    + intros o r [= <- <-]. unfold remapped, Dict.get_default. rewrite Hg. reflexivity.
    + intros H. exfalso. exact (H old rest eq_refl).
  - intros [= <-]. split.
    + intros o r [= <- <-]. unfold remapped, Dict.get_default. rewrite Hg. reflexivity.
    + reflexivity.
Qed.

Lemma inject_patchline_effect (id_map : list (string * string)) (patchline patchline' : pydict) :
  Forall (fun kv => snd kv <> "") id_map ->
  inject_patchline id_map patchline = Ok patchline' ->
  (forall key old rest,
      key = "source" \/ key = "destination" ->
      Dict.get key patchline = Some (JList (JStr old :: rest)) ->
      Dict.get key patchline' = Some (JList (JStr (remapped id_map old) :: rest)))
  /\ (forall key, key <> "source" -> key <> "destination" ->
                  Dict.get key patchline' = Dict.get key patchline).
Proof.
  intros Hne. unfold inject_patchline.
  destruct (Dict.get "source" patchline) as [src|] eqn:Hs.
  - destruct (remap_port id_map src) as [src'|e] eqn:Hrs; [|discriminate]. cbn [bind].
    destruct (remap_port_effect _ _ _ Hne Hrs) as [Hs1 _].
    destruct (Dict.get "destination" patchline) as [dst|] eqn:Hd.
    + destruct (remap_port id_map dst) as [dst'|e] eqn:Hrd; [|discriminate]. cbn [bind].
      destruct (remap_port_effect _ _ _ Hne Hrd) as [Hd1 _].
      intros [= <-]. split.
      * intros key old rest [-> | ->] Hk.
        -- rewrite dict_get_set_other by discriminate. rewrite dict_get_set_same.
           rewrite Hs in Hk. injection Hk as ->. f_equal. apply Hs1. reflexivity.
        -- rewrite dict_get_set_same.
           rewrite Hd in Hk. injection Hk as ->. f_equal. apply Hd1. reflexivity.
      * intros key K1 K2. rewrite !dict_get_set_other by assumption. reflexivity.
    + intros [= <-]. split.
      * intros key old rest [-> | ->] Hk; [|congruence].
        rewrite dict_get_set_same. rewrite Hs in Hk. injection Hk as ->.
        f_equal. apply Hs1. reflexivity.
      * intros key K1 K2. rewrite dict_get_set_other by assumption. reflexivity.
  - cbn [bind].
    destruct (Dict.get "destination" patchline) as [dst|] eqn:Hd.
    + destruct (remap_port id_map dst) as [dst'|e] eqn:Hrd; [|discriminate]. cbn [bind].
      destruct (remap_port_effect _ _ _ Hne Hrd) as [Hd1 _].
      intros [= <-]. split.
      * intros key old rest [-> | ->] Hk; [congruence|].
        rewrite dict_get_set_same. rewrite Hd in Hk. injection Hk as ->.
        f_equal. apply Hd1. reflexivity.
      * intros key K1 K2. rewrite dict_get_set_other by assumption. reflexivity.
    + intros [= <-]. split; [intros key old rest [-> | ->] Hk; congruence | reflexivity].
Qed.

Lemma inject_helper_line_effect (id_map : list (string * string)) (helper_line new_line : json) :
  Forall (fun kv => snd kv <> "") id_map ->
  inject_helper_line id_map helper_line = Ok new_line ->
  (forall key old rest,
      key = "source" \/ key = "destination" ->
      entry_field "patchline" key helper_line = Some (JList (JStr old :: rest)) ->
      entry_field "patchline" key new_line = Some (JList (JStr (remapped id_map old) :: rest)))
  /\ (forall key, key <> "source" -> key <> "destination" ->
                  entry_field "patchline" key new_line
                  = entry_field "patchline" key helper_line).
Proof.
  intros Hne. unfold inject_helper_line, entry_field.
  destruct helper_line as [| | | | | |fields]; try discriminate.
  destruct (Dict.get "patchline" fields) as [pl|] eqn:Hp.
  - destruct pl as [| | | | | |patchline]; try discriminate.
    destruct (inject_patchline id_map patchline) as [patchline'|e] eqn:Hi; [|discriminate].
    cbn [bind]. intros [= <-]. rewrite dict_get_set_same.
    exact (inject_patchline_effect _ _ _ Hne Hi).
  - intros [= <-]. rewrite Hp. split; [discriminate | reflexivity].
Qed.

Lemma inject_inv (tools_path : Path) (helper_tools patch_dict patch_dict' : json)
  (validation_path : Path) (helper_boxes helper_lines : list json) :
  _inject_validation_helper tools_path (Ok helper_tools) patch_dict validation_path
    = Ok patch_dict' ->
  py_get helper_tools "boxes" (JList []) = Ok (JList helper_boxes) ->
  py_get helper_tools "lines" (JList []) = Ok (JList helper_lines) ->
  exists id_map new_boxes new_lines,
    _build_helper_id_map (patcher_list "boxes" patch_dict) helper_boxes = Ok id_map
    /\ Forall2 (fun hb nb => inject_helper_box id_map validation_path hb = Ok nb)
               helper_boxes new_boxes
    /\ Forall2 (fun hl nl => inject_helper_line id_map hl = Ok nl) helper_lines new_lines
    /\ patcher_list "boxes" patch_dict' = patcher_list "boxes" patch_dict ++ new_boxes
    /\ patcher_list "lines" patch_dict' = patcher_list "lines" patch_dict ++ new_lines
    /\ (forall key, key <> "boxes" -> key <> "lines" ->
                    patcher_field key patch_dict' = patcher_field key patch_dict)
    /\ (forall fields fields', patch_dict = JDict fields -> patch_dict' = JDict fields' ->
          forall key, key <> "patcher" -> Dict.get key fields' = Dict.get key fields).
Proof.
  intros H Hhb Hhl. unfold _inject_validation_helper in H.
  destruct patch_dict as [| | | | | |fields]; try discriminate H.
  cbn [py_get bind] in H. unfold Dict.get_default in H.
  destruct (Dict.get "patcher" fields) as [pv|] eqn:Hp; [|discriminate H].
  destruct pv as [| | | | | |patcher]; try discriminate H.
  set (p1 := if Dict.mem "boxes" patcher then patcher
             else Dict.set "boxes" (JList []) patcher) in H.
  set (p2 := if Dict.mem "lines" p1 then p1 else Dict.set "lines" (JList []) p1) in H.
  assert (H1 : forall key, key <> "boxes" -> Dict.get key p1 = Dict.get key patcher).
  { intros key Hk. subst p1. destruct (Dict.mem "boxes" patcher); [reflexivity|].
    apply dict_get_set_other, Hk. }
  assert (H2 : forall key, key <> "lines" -> Dict.get key p2 = Dict.get key p1).
  { intros key Hk. subst p2. destruct (Dict.mem "lines" p1); [reflexivity|].
    apply dict_get_set_other, Hk. }
  assert (Hb1 : Dict.get "boxes" p2
                = Some (match Dict.get "boxes" patcher with Some v => v | None => JList [] end)).
  { rewrite H2 by discriminate. subst p1. rewrite dict_mem_get.
    destruct (Dict.get "boxes" patcher) eqn:E; [exact E | apply dict_get_set_same]. }
  assert (Hl1 : Dict.get "lines" p2
                = Some (match Dict.get "lines" patcher with Some v => v | None => JList [] end)).
  { subst p2. rewrite dict_mem_get.
    destruct (Dict.get "lines" p1) eqn:E.
    - rewrite E. rewrite H1 in E by discriminate. rewrite E. reflexivity.
    - rewrite dict_get_set_same. rewrite H1 in E by discriminate. rewrite E. reflexivity. }
  rewrite Hb1, Hl1 in H.
  destruct (match Dict.get "boxes" patcher with Some v => v | None => JList [] end)
    as [| | | | |boxes|] eqn:Hboxes; try discriminate H.
  destruct (match Dict.get "lines" patcher with Some v => v | None => JList [] end)
    as [| | | | |lines|] eqn:Hlines; try discriminate H.
  cbn [bind] in H. rewrite Hhb in H. cbn [bind] in H. rewrite Hhl in H. cbn [bind] in H.
  unfold build_helper_id_map_of in H. fold (_next_object_index boxes) in H.
  change (let* max_id := _next_object_index boxes in
          let* helper_boxes0 := py_iter (JList helper_boxes) in
          _build_helper_id_map_from (max_id + 1) [] helper_boxes0)
    with (_build_helper_id_map boxes helper_boxes) in H.
  destruct (_build_helper_id_map boxes helper_boxes) as [id_map|e] eqn:Hmap;
    [|discriminate H]. cbn [bind py_iter] in H.
  destruct (collect (inject_helper_box id_map validation_path) helper_boxes)
    as [new_boxes|e] eqn:Hnb; [|discriminate H]. cbn [bind] in H.
  destruct (collect (inject_helper_line id_map) helper_lines)
    as [new_lines|e] eqn:Hnl; [|discriminate H]. cbn [bind] in H.
  injection H as <-.
  assert (Pb : patcher_list "boxes" (JDict fields) = boxes).
  { unfold patcher_list, patcher_field. rewrite Hp.
    destruct (Dict.get "boxes" patcher); [subst; reflexivity | congruence]. }
  assert (Pl : patcher_list "lines" (JDict fields) = lines).
  { unfold patcher_list, patcher_field. rewrite Hp.
    destruct (Dict.get "lines" patcher); [subst; reflexivity | congruence]. }
  exists id_map, new_boxes, new_lines. rewrite Pb, Pl.
  split; [exact Hmap|]. split; [apply collect_Forall2; exact Hnb|].
  split; [apply collect_Forall2; exact Hnl|].
  unfold patcher_list, patcher_field. rewrite !dict_get_set_same. cbv beta iota.
  split; [rewrite ?dict_get_set_other by discriminate; rewrite ?dict_get_set_same; reflexivity|].
  split; [rewrite ?dict_get_set_same; reflexivity|].
  split.
  - intros key K1 K2. rewrite !dict_get_set_other by assumption.
    rewrite Hp, H2, H1 by assumption. reflexivity.
  - intros f f' [= <-] [= <-] key Hk. apply dict_get_set_other, Hk.
Qed.

Lemma next_index_is_box (boxes : list json) (acc result : Z) :
  _next_object_index_from acc boxes = Ok result -> Forall is_box boxes.
Proof.
  revert acc. induction boxes as [|entry rest IH]; intros acc H; [constructor|].
  cbn [_next_object_index_from] in H.
  destruct (box_id entry) as [v|e] eqn:Hb; [|discriminate]. cbn [bind] in H.
  constructor; [exists v; exact Hb|].
  destruct v as [| | | |id| |]; try exact (IH _ H).
  destruct (negb (Py.startswith "obj-" id)); [exact (IH _ H)|].
  destruct (nth_error (Py.split1 "-" id) 1); [|discriminate].
  destruct (Py.int s); exact (IH _ H).
Qed.

(** X27.  When [_inject_validation_helper] returns, the boxes and lines of
    the helper library have been added after the boxes and lines of the
    patch, which are all still there in their order, and nothing else of the
    document has changed.  Each added box is its helper box marked hidden;
    apart from its identifier, only the text of the box whose text is
    [write] has changed, into the command that writes the validation copy.
    The statement is for a helper library whose boxes and lines are
    lists. *)
Theorem inject_validation_helper_appends (tools_path : Path)
  (helper_tools patch_dict patch_dict' : json) (validation_path : Path)
  (helper_boxes helper_lines : list json) :
  _inject_validation_helper tools_path (Ok helper_tools) patch_dict validation_path
    = Ok patch_dict' ->
  py_get helper_tools "boxes" (JList []) = Ok (JList helper_boxes) ->
  py_get helper_tools "lines" (JList []) = Ok (JList helper_lines) ->
  exists new_boxes new_lines,
    patcher_list "boxes" patch_dict' = patcher_list "boxes" patch_dict ++ new_boxes
    /\ patcher_list "lines" patch_dict' = patcher_list "lines" patch_dict ++ new_lines
    /\ length new_lines = length helper_lines
    /\ Forall2 (fun helper_box new_box =>
                  entry_field "box" "hidden" new_box = Some (JInt 1)
                  /\ (forall key, key <> "id" -> key <> "hidden" -> key <> "text" ->
                                  entry_field "box" key new_box
                                  = entry_field "box" key helper_box)
                  /\ (entry_field "box" "text" helper_box = Some (JStr "write") ->
                      entry_field "box" "text" new_box
                      = Some (JStr (write_text_for validation_path)))
                  /\ (entry_field "box" "text" helper_box <> Some (JStr "write") ->
                      entry_field "box" "text" new_box = entry_field "box" "text" helper_box))
               helper_boxes new_boxes
    /\ (forall key, key <> "boxes" -> key <> "lines" ->
                    patcher_field key patch_dict' = patcher_field key patch_dict)
    /\ (forall fields fields', patch_dict = JDict fields -> patch_dict' = JDict fields' ->
          forall key, key <> "patcher" -> Dict.get key fields' = Dict.get key fields).
Proof.
  intros H Hhb Hhl.
  destruct (inject_inv _ _ _ _ _ _ _ H Hhb Hhl)
    as (id_map & new_boxes & new_lines & Hmap & Hnb & Hnl & Pb & Pl & Pk & Pf).
  exists new_boxes, new_lines.
  split; [exact Pb|]. split; [exact Pl|].
  split; [symmetry; exact (Forall2_length _ _ _ Hnl)|].
  split; [|split; assumption].
  unfold _build_helper_id_map in Hmap.
  destruct (_next_object_index (patcher_list "boxes" patch_dict)) as [m|e]; [|discriminate].
  cbn [bind] in Hmap. destruct (build_from_ids _ _ _ _ Hmap) as [ids Hids].
  clear - Hids Hnb. revert ids Hids.
  induction Hnb as [|hb nb hbs nbs Hinj _ IH]; intros ids Hids; [constructor|].
  inversion Hids as [|? id ? ids' Hid Hids']; subst.
  constructor; [|exact (IH _ Hids')].
  destruct (inject_helper_box_effect _ _ _ _ _ Hid Hinj) as (E1 & _ & E3 & E4 & E5 & _).
  repeat split; assumption.
Qed.

Lemma dict_get_app_notin {V} (k : string) (pre l : list (string * V)) :
  ~ In k (map fst pre) -> Dict.get k (pre ++ l) = Dict.get k l.
Proof.
  induction pre as [|[k' v'] pre IH]; simpl; [reflexivity|].
  intros H. destruct (String.eqb k k') eqn:E.
  - apply String.eqb_eq in E. subst. exfalso. apply H. left. reflexivity.
  - apply IH. intros Hin. apply H. right. exact Hin.
Qed.

Lemma combine_get (ids fresh : list string) :
  List.NoDup ids -> length ids = length fresh ->
  forall pre : list (string * string),
    (forall x, In x ids -> ~ In x (map fst pre)) ->
    Forall2 (fun id new_id => Dict.get id (pre ++ combine ids fresh) = Some new_id) ids fresh.
Proof.
  intros Hnd. revert fresh. induction Hnd as [|a ids Ha Hnd IH]; intros fresh Hlen pre Hpre.
  - destruct fresh; [constructor | discriminate].
  - destruct fresh as [|b fresh]; [discriminate|]. injection Hlen as Hlen. constructor.
    + rewrite dict_get_app_notin by (apply Hpre; left; reflexivity).
      simpl. now rewrite String.eqb_refl.
    + specialize (IH fresh Hlen (pre ++ [(a, b)])).
      rewrite <- app_assoc in IH. apply IH.
      intros x Hx. rewrite map_app, in_app_iff. simpl. intros [H|[<-|[]]].
      * apply (Hpre x); [right; exact Hx | exact H].
      * apply Ha, Hx.
Qed.

Lemma fresh_ids_length (first : Z) (k : nat) : length (fresh_ids first k) = k.
Proof. unfold fresh_ids. now rewrite length_map, length_seq. Qed.

Lemma fresh_ids_nonempty (first : Z) (k : nat) (id : string) :
  In id (fresh_ids first k) -> id <> "".
Proof.
  unfold fresh_ids. intros H. apply in_map_iff in H as (i & <- & _). discriminate.
Qed.

Lemma Forall2_three {A B C D} (P : A -> B -> Prop) (Q : A -> C -> Prop) (R : C -> D -> Prop)
  (S : B -> D -> Prop) (la : list A) (lb : list B) (lc : list C) (ld : list D) :
  (forall a b c d, P a b -> Q a c -> R c d -> S b d) ->
  Forall2 P la lb -> Forall2 Q la lc -> Forall2 R lc ld -> Forall2 S lb ld.
Proof.
  intros HS HP. revert lc ld. induction HP as [|a b la lb Hab HP IH]; intros lc ld HQ HR.
  - inversion HQ; subst. inversion HR; subst. constructor.
  - inversion HQ as [|? c ? lc' Hac HQ']; subst.
    inversion HR as [|? d ? ld' Hcd HR']; subst.
    constructor; [eapply HS; eassumption | eapply IH; eassumption].
Qed.

Lemma Forall2_map_eq {A B C} (f : A -> C) (g : B -> C) (la : list A) (lb : list B) :
  Forall2 (fun a b => f a = g b) la lb -> map f la = map g lb.
Proof. induction 1; simpl; congruence. Qed.

(** X28.  The identifiers of the helper are remapped consistently.  For a
    helper library whose boxes carry pairwise distinct string identifiers,
    the boxes added by [_inject_validation_helper] carry, in their order,
    the identifiers [obj-(m+1)], [obj-(m+2)], ... where [m] is the largest
    number among the identifiers of the patch; these are distinct and none
    of them is the identifier of a box of the patch.  Each identifier of the
    helper is mapped to the identifier of its box, and a source or
    destination of an added line that names an identifier names what it is
    mapped to; an identifier that is not of the helper is kept. *)
Theorem inject_validation_helper_remaps (tools_path : Path)
  (helper_tools patch_dict patch_dict' : json) (validation_path : Path)
  (helper_boxes helper_lines : list json) (ids : list string) :
  _inject_validation_helper tools_path (Ok helper_tools) patch_dict validation_path
    = Ok patch_dict' ->
  py_get helper_tools "boxes" (JList []) = Ok (JList helper_boxes) ->
  py_get helper_tools "lines" (JList []) = Ok (JList helper_lines) ->
  Forall2 (fun helper_box id => box_id helper_box = Ok (JStr id)) helper_boxes ids ->
  List.NoDup ids ->
  exists m new_boxes new_lines,
    let fresh := fresh_ids (m + 1) (length helper_boxes) in
    let id_map := combine ids fresh in
    max_suffix (patcher_list "boxes" patch_dict) m
    /\ patcher_list "boxes" patch_dict' = patcher_list "boxes" patch_dict ++ new_boxes
    /\ patcher_list "lines" patch_dict' = patcher_list "lines" patch_dict ++ new_lines
    /\ map (entry_field "box" "id") new_boxes = map (fun id => Some (JStr id)) fresh
    /\ List.NoDup fresh
    /\ (forall entry id, In entry (patcher_list "boxes" patch_dict) ->
                         box_id entry = Ok (JStr id) -> ~ In id fresh)
    /\ Forall2 (fun id new_id => remapped id_map id = new_id) ids fresh
    /\ Forall2 (fun helper_line new_line =>
                  forall key old rest,
                    key = "source" \/ key = "destination" ->
                    entry_field "patchline" key helper_line = Some (JList (JStr old :: rest)) ->
                    entry_field "patchline" key new_line
                    = Some (JList (JStr (remapped id_map old) :: rest)))
               helper_lines new_lines.
Proof.
  intros H Hhb Hhl Hids Hnd.
  destruct (inject_inv _ _ _ _ _ _ _ H Hhb Hhl)
    as (id_map & new_boxes & new_lines & Hmap & Hnb & Hnl & Pb & Pl & _ & _).
  set (boxes := patcher_list "boxes" patch_dict) in *.
  unfold _build_helper_id_map in Hmap.
  destruct (_next_object_index boxes) as [m|e] eqn:Hm; [|discriminate]. cbn [bind] in Hmap.
  destruct (next_object_index_max boxes (next_index_is_box _ _ _ Hm)) as (m' & Hm' & Hmax).
  assert (m' = m) by congruence. subst m'.
  assert (Hlen : length ids = length helper_boxes)
    by (symmetry; exact (Forall2_length _ _ _ Hids)).
  rewrite (build_from_distinct _ _ Hids Hnd (m + 1) []) in Hmap by (intros ? ? []).
  rewrite Hlen in Hmap. cbn [app] in Hmap. injection Hmap as <-.
  assert (Hget : Forall2 (fun id new_id =>
                            remapped (combine ids (fresh_ids (m + 1) (length helper_boxes))) id
                            = new_id)
                         ids (fresh_ids (m + 1) (length helper_boxes))).
  { pose proof (combine_get ids (fresh_ids (m + 1) (length helper_boxes)) Hnd
                  ltac:(rewrite fresh_ids_length; exact Hlen) [] ltac:(intros ? ? [])) as Hc.
    cbn [app] in Hc. eapply Forall2_impl; [exact Hc|].
    intros id new_id Hg. unfold remapped, Dict.get_default. rewrite Hg. reflexivity. }
  assert (Hne : Forall (fun kv => snd kv <> "")
                       (combine ids (fresh_ids (m + 1) (length helper_boxes)))).
  { apply List.Forall_forall. intros [a b] Hin. apply in_combine_r in Hin.
    exact (fresh_ids_nonempty _ _ _ Hin). }
  exists m, new_boxes, new_lines. cbv zeta.
  split; [exact Hmax|]. split; [exact Pb|]. split; [exact Pl|].
  split.
  { apply Forall2_map_eq.
    eapply (Forall2_three _ _ _ _ _ _ _ _ _ Hnb Hids Hget). }
  split; [apply fresh_ids_NoDup|].
  split; [intros entry id Hin Hid; eapply fresh_ids_not_existing; eauto; lia|].
  split; [exact Hget|].
  eapply Forall2_impl; [exact Hnl|].
  intros hl nl Hinj. exact (proj1 (inject_helper_line_effect _ _ _ Hne Hinj)).
  Unshelve.
  intros hb nb id new_id Hinj Hid Hr. simpl in Hr. subst new_id.
  exact (proj1 (proj2 (inject_helper_box_effect _ _ _ _ _ Hid Hinj))).
Qed.

Lemma inject_validation_helper_appends_witness :
  let helper_boxes :=
    [JDict [("box", JDict [("id", JStr "obj-1"); ("text", JStr "write")])];
     JDict [("box", JDict [("id", JStr "obj-2"); ("text", JStr "loadbang")])]] in
  let helper_lines :=
    [JDict [("patchline", JDict [("source", JList [JStr "obj-2"; JInt 0]);
                                 ("destination", JList [JStr "obj-1"; JInt 0])])]] in
  let validation_path := ["tmp"; "copy.validation.maxpat"] in
  let patch_dict' :=
    JDict [("patcher",
            JDict [("boxes",
                    JList [JDict [("box", JDict [("id", JStr "obj-7")])];
                           JDict [("box", JDict [("id", JStr "obj-8");
                                                 ("text", JStr (write_text_for validation_path));
                                                 ("hidden", JInt 1)])];
                           JDict [("box", JDict [("id", JStr "obj-9");
                                                 ("text", JStr "loadbang");
                                                 ("hidden", JInt 1)])]]);
                   ("lines",
                    JList [JDict [("patchline",
                                   JDict [("source", JList [JStr "obj-9"; JInt 0]);
                                          ("destination", JList [JStr "obj-8"; JInt 0])])]])])] in
  exists new_boxes new_lines,
    patcher_list "boxes" patch_dict' = patcher_list "boxes" demo_patch ++ new_boxes
    /\ patcher_list "lines" patch_dict' = patcher_list "lines" demo_patch ++ new_lines
    /\ length new_lines = length helper_lines
    /\ Forall2 (fun helper_box new_box =>
                  entry_field "box" "hidden" new_box = Some (JInt 1)
                  /\ (forall key, key <> "id" -> key <> "hidden" -> key <> "text" ->
                                  entry_field "box" key new_box
                                  = entry_field "box" key helper_box)
                  /\ (entry_field "box" "text" helper_box = Some (JStr "write") ->
                      entry_field "box" "text" new_box
                      = Some (JStr (write_text_for validation_path)))
                  /\ (entry_field "box" "text" helper_box <> Some (JStr "write") ->
                      entry_field "box" "text" new_box = entry_field "box" "text" helper_box))
               helper_boxes new_boxes
    /\ (forall key, key <> "boxes" -> key <> "lines" ->
                    patcher_field key patch_dict' = patcher_field key demo_patch)
    /\ (forall fields fields', demo_patch = JDict fields -> patch_dict' = JDict fields' ->
          forall key, key <> "patcher" -> Dict.get key fields' = Dict.get key fields).
Proof.
  intros helper_boxes helper_lines validation_path patch_dict'.
  apply (inject_validation_helper_appends ["data"; "import_tools.json"] demo_tools demo_patch
           patch_dict' validation_path helper_boxes helper_lines); reflexivity.
Defined.

Lemma inject_validation_helper_remaps_witness :
  let helper_boxes :=
    [JDict [("box", JDict [("id", JStr "obj-1"); ("text", JStr "write")])];
     JDict [("box", JDict [("id", JStr "obj-2"); ("text", JStr "loadbang")])]] in
  let helper_lines :=
    [JDict [("patchline", JDict [("source", JList [JStr "obj-2"; JInt 0]);
                                 ("destination", JList [JStr "obj-1"; JInt 0])])]] in
  let validation_path := ["tmp"; "copy.validation.maxpat"] in
  let patch_dict' :=
    JDict [("patcher",
            JDict [("boxes",
                    JList [JDict [("box", JDict [("id", JStr "obj-7")])];
                           JDict [("box", JDict [("id", JStr "obj-8");
                                                 ("text", JStr (write_text_for validation_path));
                                                 ("hidden", JInt 1)])];
                           JDict [("box", JDict [("id", JStr "obj-9");
                                                 ("text", JStr "loadbang");
                                                 ("hidden", JInt 1)])]]);
                   ("lines",
                    JList [JDict [("patchline",
                                   JDict [("source", JList [JStr "obj-9"; JInt 0]);
                                          ("destination", JList [JStr "obj-8"; JInt 0])])]])])] in
  let ids := ["obj-1"; "obj-2"] in
  exists m new_boxes new_lines,
    let fresh := fresh_ids (m + 1) (length helper_boxes) in
    let id_map := combine ids fresh in
    max_suffix (patcher_list "boxes" demo_patch) m
    /\ patcher_list "boxes" patch_dict' = patcher_list "boxes" demo_patch ++ new_boxes
    /\ patcher_list "lines" patch_dict' = patcher_list "lines" demo_patch ++ new_lines
    /\ map (entry_field "box" "id") new_boxes = map (fun id => Some (JStr id)) fresh
    /\ List.NoDup fresh
    /\ (forall entry id, In entry (patcher_list "boxes" demo_patch) ->
                         box_id entry = Ok (JStr id) -> ~ In id fresh)
    /\ Forall2 (fun id new_id => remapped id_map id = new_id) ids fresh
    /\ Forall2 (fun helper_line new_line =>
                  forall key old rest,
                    key = "source" \/ key = "destination" ->
                    entry_field "patchline" key helper_line = Some (JList (JStr old :: rest)) ->
                    entry_field "patchline" key new_line
                    = Some (JList (JStr (remapped id_map old) :: rest)))
               helper_lines new_lines.
Proof.
  intros helper_boxes helper_lines validation_path patch_dict' ids.
  apply (inject_validation_helper_remaps ["data"; "import_tools.json"] demo_tools demo_patch
           patch_dict' validation_path helper_boxes helper_lines ids);
    [reflexivity | reflexivity | reflexivity | repeat constructor |].
  constructor; [simpl; intros [H|[]]; discriminate|].
  constructor; [simpl; intros []|]. constructor.
Defined.

(** X29.  [_inject_validation_helper] reports a document that it cannot
    extend as a [ValidationError] (exit code 4): a document without a
    [patcher] dictionary, a patcher whose boxes or lines are not lists, a
    helper library that cannot be read (the message names the path of the
    library and the text of the failure), and a helper box whose identifier
    is not a string. *)
Theorem inject_validation_helper_failures (tools_path : Path) (loaded : result json)
  (fields : pydict) (validation_path : Path) :
  let inject := _inject_validation_helper tools_path loaded (JDict fields) validation_path in
  ((forall patcher, Dict.get "patcher" fields <> Some (JDict patcher)) ->
     inject = Raise (ValidationError
                       "invalid patch format: missing top-level patcher dictionary"))
  /\ (forall patcher key value,
        Dict.get "patcher" fields = Some (JDict patcher) ->
        key = "boxes" \/ key = "lines" ->
        Dict.get key patcher = Some value -> (forall l, value <> JList l) ->
        inject = Raise (ValidationError
                          "invalid patch format: patcher boxes/lines must be arrays"))
  /\ (forall patcher boxes lines,
        Dict.get "patcher" fields = Some (JDict patcher) ->
        Dict.get_default "boxes" (JList []) patcher = JList boxes ->
        Dict.get_default "lines" (JList []) patcher = JList lines ->
        (forall exc, loaded = Raise exc -> isinstance exc "Exception" = true ->
           inject = Raise (ValidationError ("failed to load import tools from "
                                            +:+ PathLib.str tools_path
                                            +:+ ": " +:+ exc_str exc)))
        /\ (forall helper_tools helper_boxes,
              loaded = Ok helper_tools ->
              py_get helper_tools "boxes" (JList []) = Ok (JList helper_boxes) ->
              (exists helper_lines, py_get helper_tools "lines" (JList []) = Ok helper_lines) ->
              Forall is_box boxes -> Forall is_box helper_boxes ->
              Exists (fun hb => forall id, box_id hb <> Ok (JStr id)) helper_boxes ->
              inject = Raise (ValidationError
                                "invalid helper box id while constructing validation patch")))
  /\ exit_code (ValidationError "") = Some 4.
Proof.
  intros inject. subst inject. unfold _inject_validation_helper.
  cbn [py_get bind]. unfold Dict.get_default.
  split; [|split; [|split; [|reflexivity]]].
  - intros Hp. destruct (Dict.get "patcher" fields) as [pv|]; [|reflexivity].
    destruct pv; try reflexivity. exfalso. exact (Hp _ eq_refl).
  - intros patcher key value Hp Hkey Hv Hnl. rewrite Hp.
    set (p1 := if Dict.mem "boxes" patcher then patcher
               else Dict.set "boxes" (JList []) patcher).
    set (p2 := if Dict.mem "lines" p1 then p1 else Dict.set "lines" (JList []) p1).
    assert (H1 : forall k v, Dict.get k patcher = Some v -> Dict.get k p1 = Some v).
    { intros k v Hk. subst p1. rewrite dict_mem_get.
      destruct (Dict.get "boxes" patcher) eqn:E; [exact Hk|].
      rewrite dict_get_set_other; [exact Hk | congruence]. }
    assert (H2 : forall k v, Dict.get k p1 = Some v -> Dict.get k p2 = Some v).
    { intros k v Hk. subst p2. rewrite dict_mem_get.
      destruct (Dict.get "lines" p1) eqn:E; [exact Hk|].
      rewrite dict_get_set_other; [exact Hk | congruence]. }
    pose proof (H2 _ _ (H1 _ _ Hv)) as Hv2.
    destruct Hkey as [-> | ->]; rewrite Hv2.
    + destruct value; try reflexivity. exfalso. exact (Hnl _ eq_refl).
    + destruct (Dict.get "boxes" p2) as [bv|]; [|reflexivity].
      destruct bv; try reflexivity.
      destruct value; try reflexivity. exfalso. exact (Hnl _ eq_refl).
  - intros patcher boxes lines Hp Hb Hl. rewrite Hp.
    set (p1 := if Dict.mem "boxes" patcher then patcher
               else Dict.set "boxes" (JList []) patcher).
    set (p2 := if Dict.mem "lines" p1 then p1 else Dict.set "lines" (JList []) p1).
    assert (Hb2 : Dict.get "boxes" p2 = Some (JList boxes)).
    { subst p2. assert (Hb1 : Dict.get "boxes" p1 = Some (JList boxes)).
      { subst p1. rewrite dict_mem_get.
        destruct (Dict.get "boxes" patcher) eqn:E; [congruence|].
        rewrite dict_get_set_same. congruence. }
      destruct (Dict.mem "lines" p1); [exact Hb1|].
      rewrite dict_get_set_other by discriminate. exact Hb1. }
    assert (Hl2 : Dict.get "lines" p2 = Some (JList lines)).
    { subst p2. rewrite dict_mem_get.
      assert (Hl1 : Dict.get "lines" p1 = Dict.get "lines" patcher).
      { subst p1. destruct (Dict.mem "boxes" patcher); [reflexivity|].
        apply dict_get_set_other. discriminate. }
      destruct (Dict.get "lines" p1) eqn:E.
      - rewrite E. rewrite <- Hl1 in Hl. congruence.
      - rewrite dict_get_set_same. rewrite <- Hl1 in Hl. congruence. }
    rewrite Hb2, Hl2. split.
    + intros exc -> Hexc. rewrite Hexc. reflexivity.
    + intros helper_tools helper_boxes -> Hhb [helper_lines Hhl] Hboxes Hhelper Hbad.
      cbn [bind]. rewrite Hhb. cbn [bind]. rewrite Hhl. cbn [bind].
      unfold build_helper_id_map_of.
      destruct (next_object_index_max boxes Hboxes) as (m & Hm & _).
      rewrite Hm. cbn [bind py_iter].
      assert (Hraise : forall n id_map,
                 _build_helper_id_map_from n id_map helper_boxes
                 = Raise (ValidationError
                            "invalid helper box id while constructing validation patch")).
      { clear - Hhelper Hbad. induction Hbad as [hb rest Hhb|hb rest _ IH]; intros n id_map.
        - inversion Hhelper as [|? ? [v Hv] _]; subst. cbn [_build_helper_id_map_from].
          rewrite Hv. cbn [bind]. destruct v; try reflexivity.
          exfalso. exact (Hhb _ Hv).
        - inversion Hhelper as [|? ? [v Hv] Hrest]; subst. cbn [_build_helper_id_map_from].
          rewrite Hv. cbn [bind]. destruct v; try reflexivity. apply IH, Hrest. }
      rewrite Hraise. reflexivity.
Qed.

Lemma inject_validation_helper_failures_witness :
  _inject_validation_helper ["data"; "import_tools.json"] (Ok demo_tools)
    (JDict [("patcher", JList [])]) ["tmp"; "copy.maxpat"]
  = Raise (ValidationError "invalid patch format: missing top-level patcher dictionary")
  /\ _inject_validation_helper ["data"; "import_tools.json"]
       (Raise (FileNotFoundError "import_tools.json"))
       (JDict [("patcher", JDict [])]) ["tmp"; "copy.maxpat"]
     = Raise (ValidationError ("failed to load import tools from "
                               +:+ PathLib.str ["data"; "import_tools.json"]
                               +:+ ": " +:+ exc_str (FileNotFoundError "import_tools.json"))).
Proof.
  split.
  - apply (proj1 (inject_validation_helper_failures _ _ _ _)). intros patcher. discriminate.
  - apply (proj1 (proj1 (proj2 (proj2 (inject_validation_helper_failures
                                          ["data"; "import_tools.json"]
                                          (Raise (FileNotFoundError "import_tools.json"))
                                          [("patcher", JDict [])] ["tmp"; "copy.maxpat"])))
                    [] [] [] eq_refl eq_refl eq_refl)); reflexivity.
Defined.

(** ** [main.py]: the arguments of [connect] *)

Section ConnectArguments.
Context {engine : GraphEngine}.

(** X30.  [connect_command] checks its arguments before it loads the
    patch.  Without any edge and any endpoint, with source endpoints but no
    destination endpoints or the reverse, and with different numbers of
    source and destination endpoints, the action raises a [UsageError] with
    the message of that case and the world stays as it is; in every other
    case the action starts by loading the patch, so that it fails as
    [load_patch] does when the patch cannot be loaded. *)
Theorem connect_checks_arguments_first (ctx_cfg : CLIContext) (input_path : Path)
  (output_path : option Path) (edges from_endpoints to_endpoints : list string) (w : world) :
  let action :=
    connect_action ctx_cfg input_path output_path edges from_endpoints to_endpoints in
  (edges = [] -> from_endpoints = [] -> to_endpoints = [] ->
     action w
     = (Raise (UsageError "connect requires at least one --edge or one --from/--to pair"), w))
  /\ ((from_endpoints = [] /\ to_endpoints <> []) \/ (from_endpoints <> [] /\ to_endpoints = []) ->
      action w = (Raise (UsageError "--from and --to must be provided together"), w))
  /\ (from_endpoints <> [] -> to_endpoints <> [] ->
      length from_endpoints <> length to_endpoints ->
      action w
      = (Raise (UsageError "--from and --to must appear the same number of times"), w))
  /\ (~ connect_args_ok edges from_endpoints to_endpoints ->
      exists msg, action w = (Raise (UsageError msg), w))
  /\ (connect_args_ok edges from_endpoints to_endpoints ->
      forall e w1, load_patch input_path (verbose ctx_cfg) w = (Raise e, w1) ->
                   action w = (Raise e, w1)).
Proof.
  intros action.
  assert (C1 : edges = [] -> from_endpoints = [] -> to_endpoints = [] ->
               action w
               = (Raise (UsageError
                           "connect requires at least one --edge or one --from/--to pair"), w)).
  { intros -> -> ->. reflexivity. }
  assert (C2 : (from_endpoints = [] /\ to_endpoints <> [])
               \/ (from_endpoints <> [] /\ to_endpoints = []) ->
               action w = (Raise (UsageError "--from and --to must be provided together"), w)).
  { subst action. unfold connect_action. intros [[-> Ht]|[Hf ->]].
    - destruct to_endpoints; [contradiction|]. destruct edges; reflexivity.
    - destruct from_endpoints; [contradiction|]. destruct edges; reflexivity. }
  assert (C3 : from_endpoints <> [] -> to_endpoints <> [] ->
               length from_endpoints <> length to_endpoints ->
               action w
               = (Raise (UsageError "--from and --to must appear the same number of times"),
                  w)).
  { subst action. unfold connect_action. intros Hf Ht Hlen.
    apply Nat.eqb_neq in Hlen. rewrite Hlen.
    destruct from_endpoints as [|f fs]; [contradiction|].
    destruct to_endpoints as [|t ts]; [contradiction|].
    destruct edges; reflexivity. }
  split; [exact C1|]. split; [exact C2|]. split; [exact C3|]. split.
  - intros Hnot. unfold connect_args_ok in Hnot.
    destruct from_endpoints as [|f fs] eqn:Ef, to_endpoints as [|t ts] eqn:Et.
    + destruct edges as [|e es] eqn:Ee; [eexists; apply C1; reflexivity|].
      exfalso. apply Hnot. split; [left; discriminate | reflexivity].
    + eexists. apply C2. left. split; [reflexivity | discriminate].
    + eexists. apply C2. right. split; [discriminate | reflexivity].
    + destruct (Nat.eq_dec (length (f :: fs)) (length (t :: ts))) as [E|E].
      * exfalso. apply Hnot. split; [right; discriminate | exact E].
      * eexists. apply C3; [discriminate | discriminate | exact E].
  - subst action. unfold connect_action. intros [Hsome Hlen] e w1 Hload.
    assert (H1 : (match edges with [] => true | _ => false end)
                 && (match from_endpoints with [] => true | _ => false end)
                 && (match to_endpoints with [] => true | _ => false end) = false).
    { destruct edges, from_endpoints; try reflexivity. destruct Hsome; contradiction. }
    assert (H2 : negb (Bool.eqb (negb (match from_endpoints with [] => true | _ => false end))
                                (negb (match to_endpoints with [] => true | _ => false end)))
                 = false).
    { destruct from_endpoints, to_endpoints; try reflexivity; discriminate. }
    assert (H3 : negb (length from_endpoints =? length to_endpoints)%nat = false)
      by (rewrite Hlen, Nat.eqb_refl; reflexivity).
    rewrite H1, H2, H3. unfold mbind at 1. rewrite Hload. reflexivity.
Qed.

End ConnectArguments.

Lemma connect_checks_arguments_first_witness :
  connect_action (engine := fake_engine) (demo_ctx false) ["a.maxpat"] None
    [] ["obj-1:0"; "obj-1:0"] ["obj-2:0"] demo_world
  = (Raise (UsageError "--from and --to must appear the same number of times"), demo_world)
  /\ connect_action (engine := fake_engine) (demo_ctx false) ["a.maxpat"] None
       ["obj-1:0->obj-2:0"] [] [] demo_world
     = (Raise (UsageError ("input patch not found: " +:+ PathLib.str ["a.maxpat"])),
        demo_world).
Proof.
  split.
  - apply (proj1 (proj2 (proj2 (connect_checks_arguments_first (engine := fake_engine)
                                   (demo_ctx false) ["a.maxpat"] None [] ["obj-1:0"; "obj-1:0"]
                                   ["obj-2:0"] demo_world))));
      [discriminate | discriminate | simpl; lia].
  - apply (proj2 (proj2 (proj2 (proj2 (connect_checks_arguments_first (engine := fake_engine)
                                          (demo_ctx false) ["a.maxpat"] None
                                          ["obj-1:0->obj-2:0"] [] [] demo_world)))));
      [split; [left; discriminate | reflexivity] | reflexivity].
Defined.
